(** * Sweep-and-verify control scripts for the NHR grid simulator and the
      Chroma electronic load

    A shallow embedding of [Control_Both.py], [Croma/Control Load.py] and
    [NHR/NHR_control_test.py].  Python text is a [string] whose characters are
    code points below 256, Python ints are [Z], Python floats are the
    primitive binary64 [float]s, and the scripts run in a state-and-exception
    monad over a trace of the operations they attempt on the instruments,
    the console and the keyboard. *)

From Stdlib Require Import ZArith List String Ascii Bool Lia Floats Sorted.
Import ListNotations.

Set Warnings "-inexact-float".

Open Scope string_scope.
Open Scope Z_scope.

(* ====================================================================== *)
(** * Python values and the builtins the scripts call *)
(* ====================================================================== *)

Module Py.

(** A Python number as the scripts use them: an unbounded [int] or a
    binary64 [float]. *)
Inductive pynum : Type :=
| PyInt (z : Z)
| PyFloat (f : float).

(** ** Exceptions *)

(** The message of the bare [Exception]s the scripts raise. *)
Inductive message : Type :=
| LoadSetupError (error_string : string)
| LoadOnFailed
| CurrentNotSet (expected : pynum) (readback : float).

Inductive exn : Type :=
| KeyboardInterrupt
| ValueError
| TypeError
| OverflowError
| UnicodeDecodeError
| SocketTimeout
| ConnectionRefusedError
| OSError
| VisaIOError
| PyException (m : message).

(** [isinstance(e, Exception)]: every class above except
    [KeyboardInterrupt], which derives from [BaseException] only. *)
Definition is_Exception (e : exn) : bool :=
  match e with
  | KeyboardInterrupt => false
  | _ => true
  end.

(** The outcome of evaluating something: a value, a raised exception, or a
    loop that is still running when the fuel of the model is spent. *)
Inductive result (A : Type) : Type :=
| Ok (a : A)
| Raise (e : exn)
| OutOfFuel.
Arguments Ok {A} a.
Arguments Raise {A} e.
Arguments OutOfFuel {A}.

(** ** Text *)

Definition code (c : ascii) : N := N_of_ascii c.

(** [str.isspace] on one character, for code points below 256. *)
Definition isspace (c : ascii) : bool :=
  let n := code c in
  ((9 <=? n) && (n <=? 13) || (28 <=? n) && (n <=? 32)
   || (n =? 133) || (n =? 160))%N.

Definition NUL : ascii := Ascii.zero.
Definition LF : ascii := ascii_of_N 10.

Fixpoint lstrip (s : string) : string :=
  match s with
  | EmptyString => EmptyString
  | String c r => if isspace c then lstrip r else s
  end.

Fixpoint rstrip (s : string) : string :=
  match s with
  | EmptyString => EmptyString
  | String c r =>
      match rstrip r with
      | EmptyString => if isspace c then EmptyString else String c EmptyString
      | r' => String c r'
      end
  end.

(** [s.strip()]: whitespace is removed at both ends. *)
Definition strip (s : string) : string := rstrip (lstrip s).

(** [s.replace(c, '')] for a one-character [c]. *)
Fixpoint remove (c : ascii) (s : string) : string :=
  match s with
  | EmptyString => EmptyString
  | String d r => if Ascii.eqb d c then remove c r else String d (remove c r)
  end.

(** [s.startswith(p)] *)
Definition startswith (s p : string) : bool := String.prefix p s.

(** [s.split(sep)] for a one-character separator. *)
Fixpoint split (sep : ascii) (s : string) : list string :=
  match s with
  | EmptyString => [EmptyString]
  | String c r =>
      if Ascii.eqb c sep then EmptyString :: split sep r
      else match split sep r with
           | [] => [String c EmptyString]
           | w :: ws => String c w :: ws
           end
  end.

(** [c.lower()] on one character below 128. *)
Definition lower (c : ascii) : ascii :=
  let n := code c in
  if ((65 <=? n) && (n <=? 90))%N then ascii_of_N (n + 32) else c.

Definition lower_str (s : string) : string :=
  string_of_list_ascii (List.map lower (list_ascii_of_string s)).

(** [x in [a, b, ...]] on text. *)
Definition str_in (x : string) (l : list string) : bool :=
  existsb (String.eqb x) l.

(** ** Numbers *)

Definition rbind {A B : Type} (r : result A) (k : A -> result B) : result B :=
  match r with
  | Ok a => k a
  | Raise e => Raise e
  | OutOfFuel => OutOfFuel
  end.

(** The binary64 nearest to an integer (ties to even). *)
Definition float_of_Z (z : Z) : float :=
  SF2Prim (binary_normalize prec emax z 0 false).

(** [float(z)] for an int [z]: [OverflowError] when the nearest binary64
    is not finite. *)
Definition float_of_int (z : Z) : result float :=
  let f := float_of_Z z in
  if is_infinity f then Raise OverflowError else Ok f.

Definition to_float (x : pynum) : result float :=
  match x with
  | PyInt z => float_of_int z
  | PyFloat f => Ok f
  end.

(** Binary arithmetic: int with int stays exact, anything else is done on
    floats after converting the int operand. *)
Definition arith (fz : Z -> Z -> Z) (ff : float -> float -> float)
           (x y : pynum) : result pynum :=
  match x, y with
  | PyInt a, PyInt b => Ok (PyInt (fz a b))
  | _, _ =>
      rbind (to_float x) (fun a =>
      rbind (to_float y) (fun b => Ok (PyFloat (ff a b))))
  end.

Definition py_add : pynum -> pynum -> result pynum := arith Z.add PrimFloat.add.
Definition py_sub : pynum -> pynum -> result pynum := arith Z.sub PrimFloat.sub.
Definition py_mul : pynum -> pynum -> result pynum := arith Z.mul PrimFloat.mul.

Definition py_abs (x : pynum) : pynum :=
  match x with
  | PyInt z => PyInt (Z.abs z)
  | PyFloat f => PyFloat (PrimFloat.abs f)
  end.

(** Comparison of a float with an int is exact in Python: the float is not
    rounded to an int nor the int to a float.  [None] when the float is
    not-a-number. *)
Definition float_cmp_int (f : float) (z : Z) : option comparison :=
  match Prim2SF f with
  | S754_nan => None
  | S754_infinity s => Some (if s then Lt else Gt)
  | S754_zero _ => Some (0 ?= z)
  | S754_finite s m e =>
      let v := if s then Zneg m else Zpos m in
      if 0 <=? e then Some (v * 2 ^ e ?= z) else Some (v ?= z * 2 ^ (- e))
  end.

(** [x < y] *)
Definition py_lt (x y : pynum) : bool :=
  match x, y with
  | PyInt a, PyInt b => a <? b
  | PyFloat a, PyFloat b => PrimFloat.ltb a b
  | PyFloat a, PyInt b =>
      match float_cmp_int a b with Some Lt => true | _ => false end
  | PyInt a, PyFloat b =>
      match float_cmp_int b a with Some Gt => true | _ => false end
  end.

(** [x <= y] *)
Definition py_le (x y : pynum) : bool :=
  match x, y with
  | PyInt a, PyInt b => a <=? b
  | PyFloat a, PyFloat b => PrimFloat.leb a b
  | PyFloat a, PyInt b =>
      match float_cmp_int a b with Some (Lt | Eq) => true | _ => false end
  | PyInt a, PyFloat b =>
      match float_cmp_int b a with Some (Gt | Eq) => true | _ => false end
  end.

(** [x > y] *)
Definition py_gt (x y : pynum) : bool := py_lt y x.

(** [int(f)] for a finite float: truncation toward zero. *)
Definition int_of_float (f : float) : result Z :=
  match Prim2SF f with
  | S754_nan => Raise ValueError
  | S754_infinity _ => Raise OverflowError
  | S754_zero _ => Ok 0
  | S754_finite s m e =>
      let a := if 0 <=? e then Zpos m * 2 ^ e else Zpos m / 2 ^ (- e) in
      Ok (if s then - a else a)
  end.

(** ** [range] *)

(** The number of items of [range(lo, hi, step)]. *)
Definition range_len (lo hi step : Z) : Z :=
  if 0 <? step then (if lo <? hi then (hi - lo - 1) / step + 1 else 0)
  else if step <? 0 then (if hi <? lo then (lo - hi - 1) / (- step) + 1 else 0)
  else 0.

(** [range(lo, hi, step)] as the list of its items; a zero step is a
    [ValueError]. *)
Definition range (lo hi step : Z) : result (list Z) :=
  if step =? 0 then Raise ValueError
  else Ok (List.map (fun k => lo + Z.of_nat k * step)
                    (seq 0 (Z.to_nat (range_len lo hi step)))).

(** ** [float(text)] *)

Definition digit (c : ascii) : option Z :=
  let n := code c in
  if ((48 <=? n) && (n <=? 57))%N then Some (Z.of_N (n - 48)) else None.

(** The rest of a [digitpart] after its first digit: digits, each
    optionally preceded by one underscore.  [acc] is the value read so far
    and [cnt] the number of digits read so far. *)
Fixpoint digits_rest (acc : Z) (cnt : Z) (s : string) : Z * Z * string :=
  match s with
  | EmptyString => (acc, cnt, s)
  | String c r =>
      match digit c with
      | Some d => digits_rest (10 * acc + d) (cnt + 1) r
      | None =>
          if Ascii.eqb c "_" then
            match r with
            | String c2 r2 =>
                match digit c2 with
                | Some d => digits_rest (10 * acc + d) (cnt + 1) r2
                | None => (acc, cnt, s)
                end
            | EmptyString => (acc, cnt, s)
            end
          else (acc, cnt, s)
      end
  end.

(** [digitpart ::= digit (["_"] digit)*] *)
Definition digitpart (acc cnt : Z) (s : string) : option (Z * Z * string) :=
  match s with
  | String c r =>
      match digit c with
      | Some d => Some (digits_rest (10 * acc + d) (cnt + 1) r)
      | None => None
      end
  | EmptyString => None
  end.

(** [sign ::= "+" | "-"], optional: whether it was a minus, and the rest. *)
Definition opt_sign (s : string) : bool * string :=
  match s with
  | String c r =>
      if Ascii.eqb c "-" then (true, r)
      else if Ascii.eqb c "+" then (false, r)
      else (false, s)
  | EmptyString => (false, s)
  end.

(** [number ::= [digitpart] "." digitpart | digitpart ["."]]: the digits
    read as one integer, how many of them follow the point, and the rest. *)
Definition number (s : string) : option (Z * Z * string) :=
  match digitpart 0 0 s with
  | Some (m, _, String "." r) =>
      match digitpart m 0 r with
      | Some (m', f, r') => Some (m', f, r')
      | None => Some (m, 0, r)
      end
  | Some (m, _, r) => Some (m, 0, r)
  | None =>
      match s with
      | String "." r => digitpart 0 0 r
      | _ => None
      end
  end.

(** [exponent ::= ("e" | "E") [sign] digitpart], optional: its value and
    the rest; [None] when an exponent starts and is malformed. *)
Definition exponent (s : string) : option (Z * string) :=
  match s with
  | String c r =>
      if Ascii.eqb (lower c) "e" then
        let '(neg, r1) := opt_sign r in
        match digitpart 0 0 r1 with
        | Some (e, _, r2) => Some (if neg then - e else e, r2)
        | None => None
        end
      else Some (0, s)
  | EmptyString => Some (0, s)
  end.

(** The binary64 nearest to [(-1)^neg * m * 10^e10] (ties to even), with
    overflow to infinity, as the C library's [strtod]. *)
Definition decimal_to_float (neg : bool) (m e10 : Z) : float :=
  SF2Prim
    match m with
    | Zpos p =>
        if 0 <=? e10
        then binary_round prec emax neg (p * Z.to_pos (10 ^ e10)) 0
        else SFdiv prec emax (S754_finite neg p 0)
                   (S754_finite false (Z.to_pos (10 ^ (- e10))) 0)
    | _ => S754_zero neg
    end.

(** The whitespace that [float] skips at both ends of its argument.  Of the
    characters of [str.isspace] below 256 these are all but the four
    separators 28 to 31, which [float] rejects. *)
Definition float_space (c : ascii) : bool :=
  let n := code c in
  ((9 <=? n) && (n <=? 13) || (n =? 32) || (n =? 133) || (n =? 160))%N.

Fixpoint skip_left (s : string) : string :=
  match s with
  | EmptyString => EmptyString
  | String c r => if float_space c then skip_left r else s
  end.

Fixpoint skip_right (s : string) : string :=
  match s with
  | EmptyString => EmptyString
  | String c r =>
      match skip_right r with
      | EmptyString => if float_space c then EmptyString else String c EmptyString
      | r' => String c r'
      end
  end.

(** [floatvalue ::= [sign] (floatnumber | infinity | nan)] on the text
    without the whitespace that [float] skips at both ends; [None] is
    [ValueError]. *)
Definition float_of_str (text : string) : option float :=
  let '(neg, s) := opt_sign (skip_right (skip_left text)) in
  let w := lower_str s in
  if String.eqb w "nan" then Some nan
  else if String.eqb w "inf" || String.eqb w "infinity"
  then Some (if neg then neg_infinity else infinity)
  else
    match number s with
    | Some (m, f, r) =>
        match exponent r with
        | Some (e, EmptyString) => Some (decimal_to_float neg m (e - f))
        | _ => None
        end
    | None => None
    end.

(** What the scripts hand to [float(...)]: text, or something that is
    not text nor a number, such as [None]. *)
Inductive pyval : Type :=
| VStr (s : string)
| VNone.

(** The builtin [float(v)]. *)
Definition py_float (v : pyval) : result float :=
  match v with
  | VStr s =>
      match float_of_str s with
      | Some f => Ok f
      | None => Raise ValueError
      end
  | VNone => Raise TypeError
  end.

End Py.

(* ====================================================================== *)
(** * The instruments, the console and the keyboard *)
(* ====================================================================== *)

Module World.
Import Py.

(** A command line: fixed text, or text ending in a formatted number.  The
    line terminator that [sendall] and [write] append is not shown. *)
Inductive line : Type :=
| Lit (text : string)
| Fmt (text : string) (x : pynum).

(** What a [print] shows.  Fixed messages carry their text (without the
    decoration of the source); the others carry the values formatted. *)
Inductive output : Type :=
| Say (text : string)
| Connecting (where_ : string)
| SafetyValue (label : string) (value : float)
| SafetyText (label : string) (value : string)
| Unexpected (response : string)
| Ready (identity : string)
| Row (v_set i_set v_meas i_meas p_meas : float)
| Failed (e : exn)
| LoadStatus (status : string)
| SettingCurrent (i : Z)
| Setpoint (readback : float)
| Reading (quantity : string) (value : float)
| SettingVoltage (v : Z)
| ActualVoltage (v : float).

(** One operation attempted on the world, in the order of the program. *)
Inductive event : Type :=
| Connect (host : string) (port : Z)   (* socket.create_connection *)
| Send (l : line)                       (* sock.sendall *)
| Recv (bufsize : Z)                    (* sock.recv(...).decode() *)
| SockClose                             (* sock.close() *)
| ResourceManager                       (* pyvisa.ResourceManager() *)
| OpenResource (address : string)       (* rm.open_resource *)
| Clear                                 (* inst.clear() *)
| Write (l : line)                      (* inst.write *)
| Query (l : line)                      (* inst.query *)
| InstClose                             (* inst.close() *)
| Sleep (seconds : pynum)               (* time.sleep *)
| KbHit                                 (* msvcrt.kbhit() *)
| GetCh                                 (* msvcrt.getch() *)
| Input (prompt : string)               (* input(...) *)
| Print (o : output).                   (* print(...) *)

(** The world outside the script, as functions of the history of the
    operations attempted so far (oldest first, the one in progress last):
    whether the operation in progress raises and what, the text a receive
    or a query delivers, and the key waiting when the keyboard is polled. *)
Record env : Type := {
  fault : list event -> option exn;
  received : list event -> string;
  key : list event -> option ascii
}.

(** Handles of the two connections. *)
Inductive socket : Type := Sock.
Inductive resource : Type := Inst.

(** The state a script runs in: the history, and the two module-level
    variables that the [finally] blocks read. *)
Record state : Type := {
  trace : list event;
  simulator_socket : option socket;
  load_instrument : option resource
}.

Definition initial : state :=
  {| trace := []; simulator_socket := None; load_instrument := None |}.

Definition M (A : Type) : Type := state -> result A * state.

Definition ret {A : Type} (a : A) : M A := fun s => (Ok a, s).

Definition bind {A B : Type} (m : M A) (k : A -> M B) : M B :=
  fun s =>
    match m s with
    | (Ok a, s') => k a s'
    | (Raise e, s') => (Raise e, s')
    | (OutOfFuel, s') => (OutOfFuel, s')
    end.

Definition raise {A : Type} (e : exn) : M A := fun s => (Raise e, s).

Definition out_of_fuel {A : Type} : M A := fun s => (OutOfFuel, s).

Definition lift {A : Type} (r : result A) : M A := fun s => (r, s).

Declare Scope monad_scope.
Delimit Scope monad_scope with monad.
Notation "x <- m ;; k" := (bind m (fun x => k))
  (at level 61, m at next level, right associativity) : monad_scope.
Notation "m ;; k" := (bind m (fun _ => k))
  (at level 61, right associativity) : monad_scope.
Open Scope monad_scope.

(** [try: m  except ...: ...]: [handler e] is the body of the first
    [except] clause that matches [e], if one does. *)
Definition try_except {A : Type} (m : M A) (handler : exn -> option (M A))
  : M A :=
  fun s =>
    match m s with
    | (Raise e, s') =>
        match handler e with
        | Some h => h s'
        | None => (Raise e, s')
        end
    | other => other
    end.

(** [try: m  finally: cleanup]: the cleanup runs when [m] returns or
    raises; what [m] raised is raised again after it, unless the cleanup
    raises itself. *)
Definition try_finally {A : Type} (m : M A) (cleanup : M unit) : M A :=
  fun s =>
    match m s with
    | (OutOfFuel, s') => (OutOfFuel, s')
    | (r, s') =>
        match cleanup s' with
        | (Ok _, s'') => (r, s'')
        | (Raise e, s'') => (Raise e, s'')
        | (OutOfFuel, s'') => (OutOfFuel, s'')
        end
    end.

(** [for x in l: body] *)
Fixpoint for_each {A : Type} (l : list A) (body : A -> M unit) : M unit :=
  match l with
  | [] => ret tt
  | x :: l' => body x ;; for_each l' body
  end.

Definition set_simulator_socket (v : option socket) : M unit :=
  fun s => (Ok tt, {| trace := trace s; simulator_socket := v;
                      load_instrument := load_instrument s |}).

Definition set_load_instrument (v : option resource) : M unit :=
  fun s => (Ok tt, {| trace := trace s;
                      simulator_socket := simulator_socket s;
                      load_instrument := v |}).

Definition get_simulator_socket : M (option socket) :=
  fun s => (Ok (simulator_socket s), s).

Definition get_load_instrument : M (option resource) :=
  fun s => (Ok (load_instrument s), s).

Definition log (e : event) (s : state) : state :=
  {| trace := trace s ++ [e]; simulator_socket := simulator_socket s;
     load_instrument := load_instrument s |}.

Section Operations.
Variable E : env.

(** Attempt one operation: it enters the history, then raises if the
    world says so. *)
Definition attempt (e : event) : M unit :=
  fun s =>
    let s' := log e s in
    match fault E (trace s') with
    | Some x => (Raise x, s')
    | None => (Ok tt, s')
    end.

(** Attempt an operation that delivers text. *)
Definition obtain (e : event) : M string :=
  fun s =>
    let s' := log e s in
    match fault E (trace s') with
    | Some x => (Raise x, s')
    | None => (Ok (received E (trace s')), s')
    end.

Definition print (o : output) : M unit := attempt (Print o).
Definition sleep (seconds : pynum) : M unit := attempt (Sleep seconds).

(** [msvcrt.kbhit() and msvcrt.getch().decode().lower() == 'q']: the
    keyboard is polled; a waiting key is read and decoded (a byte above
    127 does not decode) and compared, lowered, with [q]. *)
Definition q_pressed : M bool :=
  fun s =>
    let s1 := log KbHit s in
    match fault E (trace s1) with
    | Some x => (Raise x, s1)
    | None =>
        match key E (trace s1) with
        | None => (Ok false, s1)
        | Some c =>
            (attempt GetCh ;;
             if (code c <? 128)%N
             then ret (Ascii.eqb (lower c) "q")
             else raise UnicodeDecodeError) s1
        end
    end.

End Operations.

End World.

(* ====================================================================== *)
(** * Control_Both.py: nested voltage-current sweep on both instruments *)
(* ====================================================================== *)

Module ControlBoth.
Import Py World.

(** The configuration constants at the top of the script. *)
Record config : Type := {
  SIMULATOR_HOST : string;
  SIMULATOR_PORT : Z;
  SIMULATOR_INSTRUMENT : Z;
  LOAD_ADDRESS : string;
  VOLTAGE_START_V : Z;
  VOLTAGE_STOP_V : Z;
  VOLTAGE_STEP_V : Z;
  CURRENT_START_A : pynum;
  CURRENT_STOP_A : pynum;
  CURRENT_STEP_A : pynum;
  INTERVAL_S : pynum
}.

(** The values the script is shipped with. *)
Definition shipped : config := {|
  SIMULATOR_HOST := "192.168.0.149";
  SIMULATOR_PORT := 5025;
  SIMULATOR_INSTRUMENT := 3;
  LOAD_ADDRESS := "GPIB0::8::INSTR";
  VOLTAGE_START_V := 100;
  VOLTAGE_STOP_V := 150;
  VOLTAGE_STEP_V := 25;
  CURRENT_START_A := PyInt 0;
  CURRENT_STOP_A := PyInt 10;
  CURRENT_STEP_A := PyFloat 2.5;
  INTERVAL_S := PyInt 20
|}.

Definition labels : list string :=
  [ "Max RMS Voltage (V)"; "Max Peak Voltage (V)"; "Min Frequency (Hz)";
    "Max Frequency (Hz)"; "Max RMS Current (A)"; "Max Peak Current (A)";
    "Max Voltage Slew Rate (V/us)"; "Max Current Slew Rate (A/us)";
    "Max Power (W)"; "Max Apparent Power (VA)"; "Max Reactive Power (VAR)";
    "Power Factor Limit"; "Crest Factor Limit"; "Max Harmonics Order";
    "Peak Current Limit (A)"; "Reserved" ].

(** [parse_float]: [float(value_str)], with [ValueError] and [TypeError]
    turned into not-a-number. *)
Definition parse_float (value_str : pyval) : result float :=
  match py_float value_str with
  | Raise ValueError => Ok nan
  | Raise TypeError => Ok nan
  | r => r
  end.

(** The check of the current read back against the current set:
    [if abs(readback_current - i_set) > 0.1: raise Exception(...)]. *)
Definition check_readback (readback_current : float) (i_set : pynum)
  : result unit :=
  rbind (py_sub (PyFloat readback_current) i_set) (fun d =>
  if py_gt (py_abs d) (PyFloat 0.1)
  then Raise (PyException (CurrentNotSet i_set readback_current))
  else Ok tt).

(** The argument of the peak-limit command:
    [i_set * 1.5 if i_set > 0 else 0.1]. *)
Definition peak_limit (i_set : pynum) : result pynum :=
  if py_gt i_set (PyInt 0) then py_mul i_set (PyFloat 1.5)
  else Ok (PyFloat 0.1).

Section Script.
Variable E : env.
Variable C : config.

Definition send_query_socket (sock : socket) (query : string) : M string :=
  attempt E (Send (Lit query)) ;;
  response <- obtain E (Recv 4096) ;;
  ret (remove NUL (strip response)).

Definition print_safety_limits (sock : socket) : M unit :=
  settings_str <- send_query_socket sock "SOURce:SAFety?" ;;
  let settings := split "," settings_str in
  print E (Say "--- Safety Limits ---") ;;
  if (List.length settings =? 16)%nat then
    for_each (combine labels settings) (fun '(lbl, val) =>
      try_except
        (f <- lift (py_float (VStr val)) ;; print E (SafetyValue lbl f))
        (fun e =>
           match e with
           | ValueError => Some (print E (SafetyText lbl (strip val)))
           | _ => None
           end))
  else print E (Unexpected settings_str).

Definition connect_grid_simulator (host : string) (port : Z) : M socket :=
  print E (Connecting "Grid Simulator") ;;
  attempt E (Connect host port) ;;
  let s := Sock in
  attempt E (Send (Fmt "INSTrument:NSELect " (PyInt (SIMULATOR_INSTRUMENT C)))) ;;
  attempt E (Send (Lit "SOURce:CURRent 20")) ;;
  attempt E (Send (Lit "SOURce:POWer 2500")) ;;
  print_safety_limits s ;;
  print E (Say "Grid Simulator connected and configured.") ;;
  ret s.

Definition connect_electronic_load (address : string) : M resource :=
  print E (Connecting "Electronic Load") ;;
  attempt E ResourceManager ;;
  attempt E (OpenResource address) ;;
  let inst := Inst in
  attempt E Clear ;;
  attempt E (Write (Lit "*RST")) ;;
  sleep E (PyInt 2) ;;
  attempt E (Write (Lit "*CLS")) ;;
  print E (Say "Configuring Load for AC Crest Factor (CF) Mode...") ;;
  attempt E (Write (Lit "MODE ACF")) ;;
  attempt E (Write (Lit "CFACTor 1.414")) ;;
  attempt E (Write (Lit "PFACtor 1.0")) ;;
  response <- obtain E (Query (Lit "SYSTem:ERRor?")) ;;
  let error_string := strip response in
  if negb (str_in error_string ["0"; "OK"])
     && negb (startswith error_string "0,")
  then raise (PyException (LoadSetupError error_string))
  else
    response <- obtain E (Query (Lit "*IDN?")) ;;
    let identity := strip response in
    print E (Ready identity) ;;
    ret inst.

(** One measurement: [parse_float(load_instrument.query(q).strip())]. *)
Definition measure (q : string) : M float :=
  response <- obtain E (Query (Lit q)) ;;
  lift (parse_float (VStr (strip response))).

(** The body of the inner loop for one voltage-current combination, up
    to and including its result row. *)
Definition sweep_point (v_set : Z) (i_set : pynum) : M unit :=
  stop <- q_pressed E ;;
  (if stop : bool
   then print E (Say "Hard stop requested by user!") ;;
        raise KeyboardInterrupt
   else ret tt) ;;
  peak <- lift (peak_limit i_set) ;;
  attempt E (Write (Fmt "CURRent:PEAK:MAXimum:AC " peak)) ;;
  attempt E (Write (Fmt "CURR " i_set)) ;;
  attempt E (Write (Lit "LOAD ON")) ;;
  sleep E (PyInt 1) ;;
  response <- obtain E (Query (Lit "CURRent?")) ;;
  let readback_current_str := strip response in
  readback_current <- lift (py_float (VStr readback_current_str)) ;;
  lift (check_readback readback_current i_set) ;;
  sleep E (PyInt 2) ;;
  v_meas <- measure "MEASure:VOLTage?" ;;
  i_meas <- measure "MEASure:CURRent?" ;;
  p_meas <- measure "MEASure:POWer?" ;;
  v <- lift (float_of_int v_set) ;;
  i <- lift (to_float i_set) ;;
  print E (Row v i v_meas i_meas p_meas).

(** The inner loop:
    [while i_set <= CURRENT_STOP_A: ...; i_set += CURRENT_STEP_A; sleep]. *)
Fixpoint current_sweep (fuel : nat) (body : pynum -> M unit)
         (i_set : pynum) : M unit :=
  match fuel with
  | O => out_of_fuel
  | S fuel' =>
      if py_le i_set (CURRENT_STOP_A C) then
        body i_set ;;
        i_set' <- lift (py_add i_set (CURRENT_STEP_A C)) ;;
        sleep E (INTERVAL_S C) ;;
        current_sweep fuel' body i_set'
      else ret tt
  end.

(** The outer loop: [for v_set in range(start, stop + 1, step): ...]. *)
Definition voltage_sweep (fuel : nat) : M unit :=
  v_range <- lift (range (VOLTAGE_START_V C) (VOLTAGE_STOP_V C + 1)
                         (VOLTAGE_STEP_V C)) ;;
  for_each v_range (fun v_set =>
    attempt E (Send (Fmt "VOLTage " (PyInt v_set))) ;;
    sleep E (PyFloat 1.5) ;;
    current_sweep fuel (sweep_point v_set) (CURRENT_START_A C) ;;
    print E (Say "--------------------------------------------------------------------")).

(** The body of the [try]. *)
Definition run (fuel : nat) : M unit :=
  s <- connect_grid_simulator (SIMULATOR_HOST C) (SIMULATOR_PORT C) ;;
  set_simulator_socket (Some s) ;;
  l <- connect_electronic_load (LOAD_ADDRESS C) ;;
  set_load_instrument (Some l) ;;
  print E (Say "Preparing for test. Turning Grid Simulator ON.") ;;
  attempt E (Send (Lit "OUTPut ON")) ;;
  sleep E (PyInt 2) ;;
  print E (Say "--> Press 'q' at any time to stop the sweep and save results. <--") ;;
  print E (Say "--- Starting Nested V-I Sweep ---") ;;
  print E (Say "V Set (V)    | I Set (A)    | V Meas (V)   | I Meas (A)   | P Meas (W)  ") ;;
  print E (Say "--------------------------------------------------------------------") ;;
  voltage_sweep fuel ;;
  print E (Say "--- Sweep Completed Successfully ---").

(** The two [except] clauses. *)
Definition handlers (e : exn) : option (M unit) :=
  match e with
  | KeyboardInterrupt =>
      Some (print E (Say "User interrupted the test. Proceeding to save and shut down."))
  | _ => if is_Exception e then Some (print E (Failed e)) else None
  end.

(** The [finally] block: the safety shutdown. *)
Definition shutdown : M unit :=
  print E (Say "Cleaning up and shutting down outputs...") ;;
  sim <- get_simulator_socket ;;
  match sim with
  | Some _ =>
      attempt E (Send (Lit "VOLTage 0")) ;;
      sleep E (PyInt 1) ;;
      attempt E (Send (Lit "OUTPut OFF")) ;;
      attempt E SockClose ;;
      print E (Say "Grid Simulator output OFF and connection closed.")
  | None => ret tt
  end ;;
  load <- get_load_instrument ;;
  match load with
  | Some _ =>
      attempt E (Write (Lit "LOAD OFF")) ;;
      attempt E (Write (Lit "CURRent 0")) ;;
      attempt E (Write (Lit "*RST")) ;;
      sleep E (PyInt 1) ;;
      attempt E InstClose ;;
      print E (Say "Electronic Load OFF, Reset, and connection is closed.")
  | None => ret tt
  end.

Definition main (fuel : nat) : M unit :=
  try_finally (try_except (run fuel) handlers) shutdown.

End Script.

End ControlBoth.

(* ====================================================================== *)
(** * Croma/Control Load.py: current steps on the electronic load alone *)
(* ====================================================================== *)

Module ControlLoad.
Import Py World.

Definition INSTRUMENT_ADDRESS : string := "GPIB0::8::INSTR".
Definition MODE : string := "ACF".
Definition ISET_A : float := 10.0.
Definition IP_MAX_A : float := 15.0.
Definition CREST_FACTOR : float := 1.414.
Definition POWER_FACTOR : float := 1.000.

Definition parse_float (value_str : pyval) : result float :=
  match py_float value_str with
  | Raise ValueError => Ok nan
  | Raise TypeError => Ok nan
  | r => r
  end.

(** [if abs(readback_current - i) > 0.1: raise Exception(...)]; the
    message names [ISET_A] as the expected value. *)
Definition check_readback (readback_current : float) (i : Z) : result unit :=
  rbind (py_sub (PyFloat readback_current) (PyInt i)) (fun d =>
  if py_gt (py_abs d) (PyFloat 0.1)
  then Raise (PyException (CurrentNotSet (PyFloat ISET_A) readback_current))
  else Ok tt).

Section Script.
Variable E : env.

Definition connect_and_configure_load (address : string) : M resource :=
  print E (Connecting "instrument") ;;
  attempt E ResourceManager ;;
  attempt E (OpenResource address) ;;
  let inst := Inst in
  attempt E Clear ;;
  print E (Say "Step 1: Resetting instrument...") ;;
  attempt E (Write (Lit "*RST")) ;;
  sleep E (PyInt 2) ;;
  attempt E (Write (Lit "*CLS")) ;;
  print E (Say "Step 2: Setting MODE...") ;;
  attempt E (Write (Lit ("MODE " ++ MODE))) ;;
  sleep E (PyFloat 0.5) ;;
  print E (Say "Step 3: Setting AC parameters (CF and PF)...") ;;
  attempt E (Write (Fmt "CFACTor " (PyFloat CREST_FACTOR))) ;;
  attempt E (Write (Fmt "PFACtor " (PyFloat POWER_FACTOR))) ;;
  attempt E (Write (Fmt "CURR:PEAK:MAX:AC " (PyFloat IP_MAX_A))) ;;
  print E (Say "Step 4: Checking for errors after setup...") ;;
  response <- obtain E (Query (Lit "SYSTem:ERRor?")) ;;
  let error_string := strip response in
  if negb (str_in error_string ["0"; "OK"])
     && negb (startswith error_string "0,")
  then raise (PyException (LoadSetupError error_string))
  else
    response <- obtain E (Query (Lit "*IDN?")) ;;
    let identity := strip response in
    print E (Ready identity) ;;
    ret inst.

(** [load_instrument.query(q).strip()] *)
Definition ask (q : string) : M string :=
  response <- obtain E (Query (Lit q)) ;;
  ret (strip response).

(** The body of the loop for one current [i]. *)
Definition step (i : Z) : M unit :=
  print E (Say "Sending LOAD ON command...") ;;
  attempt E (Write (Lit "LOAD ON")) ;;
  load_status <- ask "LOAD:STATus?" ;;
  print E (LoadStatus load_status) ;;
  (if negb (str_in load_status ["1"; "OK"])
   then raise (PyException LoadOnFailed)
   else ret tt) ;;
  print E (SettingCurrent i) ;;
  attempt E (Write (Fmt "CURR " (PyInt i))) ;;
  attempt E (Write (Lit "LOAD ON")) ;;
  print E (Say "Verifying the current setpoint...") ;;
  readback_current_str <- ask "CURRent?" ;;
  readback_current <- lift (py_float (VStr readback_current_str)) ;;
  print E (Setpoint readback_current) ;;
  lift (check_readback readback_current i) ;;
  sleep E (PyInt 2) ;;
  print E (Say "Verifying settings by taking live measurements...") ;;
  v_meas_str <- ask "MEASure:VOLTage?" ;;
  i_meas_str <- ask "MEASure:CURRent?" ;;
  p_meas_str <- ask "MEASure:POWer?" ;;
  v_meas <- lift (parse_float (VStr v_meas_str)) ;;
  i_meas <- lift (parse_float (VStr i_meas_str)) ;;
  p_meas <- lift (parse_float (VStr p_meas_str)) ;;
  print E (Say "--- Live Readings ---") ;;
  print E (Reading "Voltage" v_meas) ;;
  print E (Reading "Current" i_meas) ;;
  print E (Reading "Power" p_meas) ;;
  print E (Say "------------------------") ;;
  sleep E (PyInt 5).

(** The body of the [try]. *)
Definition run : M unit :=
  l <- connect_and_configure_load INSTRUMENT_ADDRESS ;;
  set_load_instrument (Some l) ;;
  print E (Say "Allowing settings to apply...") ;;
  sleep E (PyFloat 0.5) ;;
  n <- lift (int_of_float ISET_A) ;;
  steps <- lift (range 0 (n + 1) 1) ;;
  for_each steps step ;;
  print E (Say "--- Loop Complete ---") ;;
  attempt E (Input "--> Press Enter to turn load OFF and exit. ").

(** The single [except Exception] clause. *)
Definition handlers (e : exn) : option (M unit) :=
  if is_Exception e then Some (print E (Failed e)) else None.

(** The [finally] block: the safety cleanup. *)
Definition cleanup : M unit :=
  load <- get_load_instrument ;;
  match load with
  | Some _ =>
      print E (Say "Cleaning up and closing connection...") ;;
      attempt E (Write (Lit "LOAD OFF")) ;;
      attempt E (Write (Lit "CURRent 0")) ;;
      attempt E (Write (Lit "*RST")) ;;
      sleep E (PyInt 1) ;;
      attempt E InstClose ;;
      print E (Say "Load is OFF, Reset, and connection is closed.")
  | None => ret tt
  end.

Definition main : M unit :=
  try_finally (try_except run handlers) cleanup.

End Script.

End ControlLoad.

(* ====================================================================== *)
(** * NHR/NHR_control_test.py: voltage sweep on the grid simulator alone *)
(* ====================================================================== *)

Module NHR.
Import Py World.

Definition HOST : string := "192.168.0.149".
Definition PORT : Z := 5025.

Section Script.
Variable E : env.

Definition send_command (sock : socket) (command : line) : M unit :=
  attempt E (Send command).

Definition send_query (sock : socket) (query_command : string) : M string :=
  attempt E (Send (Lit query_command)) ;;
  response <- obtain E (Recv 4096) ;;
  ret (remove NUL (strip response)).

(** The body of the loop for one voltage. *)
Definition step (s : socket) (voltage_step : Z) : M unit :=
  print E (SettingVoltage voltage_step) ;;
  send_command s (Fmt "VOLTage " (PyInt voltage_step)) ;;
  sleep E (PyInt 5) ;;
  actual_voltage_str <- send_query s "MEASure:VOLTage?" ;;
  actual <- lift (py_float (VStr actual_voltage_str)) ;;
  print E (ActualVoltage actual).

(** The body of the [with] block. *)
Definition session (s : socket) : M unit :=
  print E (Say "Connected") ;;
  print E (Say "WARNING: This script will control a live power output.") ;;
  print E (Say "    Press Ctrl+C now to abort if you are not ready.") ;;
  sleep E (PyInt 5) ;;
  let target_instrument := 3 in
  print E (Say "Selecting AC GRID...") ;;
  send_command s (Fmt "INSTrument:NSELect " (PyInt target_instrument)) ;;
  print E (Say "Turning output ON...") ;;
  send_command s (Lit "OUTPut ON") ;;
  sleep E (PyInt 2) ;;
  print E (Say "--- Starting Voltage Sweep ---") ;;
  steps <- lift (range 30 151 10) ;;
  for_each steps (step s) ;;
  print E (Say "--- Voltage Sweep Complete ---") ;;
  print E (Say "Ramping down voltage and turning output OFF.") ;;
  send_command s (Lit "VOLTage 0") ;;
  sleep E (PyInt 1) ;;
  send_command s (Lit "OUTPut OFF") ;;
  print E (Say "Output is now OFF.").

(** [with socket.create_connection(...) as s: ...]: the socket is closed
    when the block is left, however it is left. *)
Definition run : M unit :=
  attempt E (Connect HOST PORT) ;;
  try_finally (session Sock) (attempt E SockClose).

(** The three [except] clauses, in their order. *)
Definition handlers (e : exn) : option (M unit) :=
  match e with
  | SocketTimeout => Some (print E (Say "Error: Connection timed out."))
  | ConnectionRefusedError =>
      Some (print E (Say "Error: Connection was refused. Check the IP address."))
  | _ => if is_Exception e then Some (print E (Failed e)) else None
  end.

Definition main : M unit := try_except run handlers.

End Script.

End NHR.

(* ====================================================================== *)
(** * Vocabulary of the statements *)
(* ====================================================================== *)

Module Spec.
Import Py World.
Open Scope list_scope.

(** ** Text *)

Definition chars (s : string) : list ascii := list_ascii_of_string s.

(** Only whitespace. *)
Definition all_space (s : string) : bool := forallb isspace (chars s).

(** Empty, or beginning with a character that is not whitespace. *)
Definition starts_clean (s : string) : bool :=
  match s with
  | EmptyString => true
  | String c _ => negb (isspace c)
  end.

(** Empty, or ending with a character that is not whitespace. *)
Fixpoint ends_clean (s : string) : bool :=
  match s with
  | EmptyString => true
  | String c EmptyString => negb (isspace c)
  | String _ r => ends_clean r
  end.

(** The cleaning as the specification words it: trailing whitespace
    stripped and null bytes removed, nothing else. *)
Definition trailing_clean (raw : string) : string := remove NUL (rstrip raw).

(** ** States and histories *)

(** The state after the operations [evs] were attempted from [s]. *)
Definition extend (s : state) (evs : list event) : state :=
  {| trace := trace s ++ evs; simulator_socket := simulator_socket s;
     load_instrument := load_instrument s |}.

(** No operation ever raises. *)
Definition faultless (E : env) : Prop := forall h, fault E h = None.

(** ** Setting up the electronic load *)

(** What [connect_electronic_load] attempts up to and including the query
    of the error status. *)
Definition load_setup_ops (address : string) : list event :=
  [ Print (Connecting "Electronic Load"); ResourceManager;
    OpenResource address; Clear; Write (Lit "*RST"); Sleep (PyInt 2);
    Write (Lit "*CLS");
    Print (Say "Configuring Load for AC Crest Factor (CF) Mode...");
    Write (Lit "MODE ACF"); Write (Lit "CFACTor 1.414");
    Write (Lit "PFACtor 1.0"); Query (Lit "SYSTem:ERRor?") ].

(** The same for [connect_and_configure_load]. *)
Definition load_configure_ops (address : string) : list event :=
  [ Print (Connecting "instrument"); ResourceManager;
    OpenResource address; Clear;
    Print (Say "Step 1: Resetting instrument...");
    Write (Lit "*RST"); Sleep (PyInt 2); Write (Lit "*CLS");
    Print (Say "Step 2: Setting MODE...");
    Write (Lit "MODE ACF"); Sleep (PyFloat 0.5);
    Print (Say "Step 3: Setting AC parameters (CF and PF)...");
    Write (Fmt "CFACTor " (PyFloat 1.414));
    Write (Fmt "PFACtor " (PyFloat 1));
    Write (Fmt "CURR:PEAK:MAX:AC " (PyFloat 15));
    Print (Say "Step 4: Checking for errors after setup...");
    Query (Lit "SYSTem:ERRor?") ].

(** The error status that stops the setup, in the words of the claim: not
    ["0"], not ["OK"], and not starting with ["0,"]. *)
Definition status_rejected (error_string : string) : Prop :=
  error_string <> "0" /\ error_string <> "OK"
  /\ startswith error_string "0," = false.

(** The query of the identity of the load. *)
Definition is_identity_query (e : event) : bool :=
  match e with
  | Query (Lit "*IDN?") => true
  | _ => false
  end.

(** An operation of the sweep proper: turning the simulator on, a poll of
    the keyboard, a setpoint, a readback, a measurement, a result row. *)
Definition is_sweep_op (e : event) : bool :=
  match e with
  | KbHit | GetCh => true
  | Send (Lit "OUTPut ON") => true
  | Send (Fmt "VOLTage " _) => true
  | Write (Fmt "CURRent:PEAK:MAXimum:AC " _) => true
  | Write (Fmt "CURR " _) => true
  | Write (Lit "LOAD ON") => true
  | Query (Lit "CURRent?") => true
  | Query (Lit "LOAD:STATus?") => true
  | Query (Lit "MEASure:VOLTage?") => true
  | Query (Lit "MEASure:CURRent?") => true
  | Query (Lit "MEASure:POWer?") => true
  | Print (Row _ _ _ _ _) => true
  | Print (Reading _ _) => true
  | Print (Say "--- Starting Nested V-I Sweep ---") => true
  | _ => false
  end.

(** What the simulator setup attempts before it prints the safety limits. *)
Definition simulator_setup_ops (host : string) (port instrument : Z)
  : list event :=
  [ Print (Connecting "Grid Simulator"); Connect host port;
    Send (Fmt "INSTrument:NSELect " (PyInt instrument));
    Send (Lit "SOURce:CURRent 20"); Send (Lit "SOURce:POWer 2500");
    Send (Lit "SOURce:SAFety?"); Recv 4096;
    Print (Say "--- Safety Limits ---") ].

(** A line of the table of safety limits. *)
Definition is_safety_line (o : output) : bool :=
  match o with
  | SafetyValue _ _ | SafetyText _ _ | Unexpected _ => true
  | _ => false
  end.

(** What the shutdown of [Control_Both.py] attempts when every step
    succeeds, given which of the two handles are set. *)
Definition shutdown_plan (sim : option socket) (load : option resource)
  : list event :=
  [Print (Say "Cleaning up and shutting down outputs...")]
  ++ match sim with
     | Some _ =>
         [ Send (Lit "VOLTage 0"); Sleep (PyInt 1); Send (Lit "OUTPut OFF");
           SockClose;
           Print (Say "Grid Simulator output OFF and connection closed.") ]
     | None => []
     end
  ++ match load with
     | Some _ =>
         [ Write (Lit "LOAD OFF"); Write (Lit "CURRent 0");
           Write (Lit "*RST"); Sleep (PyInt 1); InstClose;
           Print (Say "Electronic Load OFF, Reset, and connection is closed.") ]
     | None => []
     end.

(** The same for the cleanup of [Control Load.py]. *)
Definition cleanup_plan (load : option resource) : list event :=
  match load with
  | Some _ =>
      [ Print (Say "Cleaning up and closing connection...");
        Write (Lit "LOAD OFF"); Write (Lit "CURRent 0"); Write (Lit "*RST");
        Sleep (PyInt 1); InstClose;
        Print (Say "Load is OFF, Reset, and connection is closed.") ]
  | None => []
  end.

(** ** One point of the sweep *)

(** The lines written to the load among the operations [evs]. *)
Definition writes (evs : list event) : list line :=
  flat_map (fun e => match e with Write l => [l] | _ => [] end) evs.


(** What the inner loop body attempts up to and including the readback of
    the setpoint, when the keyboard is silent. *)
Definition point_prefix (peak i_set : pynum) : list event :=
  [ KbHit; Write (Fmt "CURRent:PEAK:MAXimum:AC " peak);
    Write (Fmt "CURR " i_set); Write (Lit "LOAD ON"); Sleep (PyInt 1);
    Query (Lit "CURRent?") ].

(** The value a measurement takes from the text of a response. *)
Definition tolerant (response : string) : float :=
  match py_float (VStr (strip response)) with
  | Ok x => x
  | _ => nan
  end.

(** What the inner loop body attempts for one combination that passes
    the check of the readback, from the history [h], when the keyboard is
    silent: the row shows the three measurements as the world [E] answers
    them there. *)
Definition point_ops (E : env) (h : list event) (peak i_set : pynum)
           (v i : float) : list event :=
  let asked := h ++ point_prefix peak i_set ++ [Sleep (PyInt 2)] in
  point_prefix peak i_set
  ++ [ Sleep (PyInt 2);
       Query (Lit "MEASure:VOLTage?"); Query (Lit "MEASure:CURRent?");
       Query (Lit "MEASure:POWer?");
       Print (Row v i
         (tolerant (received E (asked ++ [Query (Lit "MEASure:VOLTage?")])))
         (tolerant (received E (asked ++ [Query (Lit "MEASure:VOLTage?");
                                          Query (Lit "MEASure:CURRent?")])))
         (tolerant (received E (asked ++ [Query (Lit "MEASure:VOLTage?");
                                          Query (Lit "MEASure:CURRent?");
                                          Query (Lit "MEASure:POWer?")])))) ].

(** A poll of the keyboard. *)
Definition is_poll (e : event) : bool :=
  match e with
  | KbHit => true
  | _ => false
  end.

(** What the inner loop body attempts when [q] is waiting. *)
Definition abort_ops : list event :=
  [KbHit; GetCh; Print (Say "Hard stop requested by user!")].

(** The key [c] asks for the stop: it decodes, and lowered it is [q]. *)
Definition is_q (c : ascii) : bool :=
  (code c <? 128)%N && Ascii.eqb (lower c) "q".

(** ** Worlds to run the scripts in *)

(** Nothing raises, no key is pressed, and every receive and every query
    delivers the same text. *)
Definition answering (text : string) : env :=
  {| fault := fun _ => None; received := fun _ => text; key := fun _ => None |}.

(** Every operation succeeds except those that [bad] selects, which raise
    [x]; no key is pressed, and every receive and every query delivers
    [text]. *)
Definition failing (bad : event -> bool) (x : exn) (text : string) : env :=
  {| fault := fun h =>
       match rev h with
       | e :: _ => if bad e then Some x else None
       | [] => None
       end;
     received := fun _ => text;
     key := fun _ => None |}.

Definition is_voltage_zero (e : event) : bool :=
  match e with
  | Send (Lit "VOLTage 0") => true
  | _ => false
  end.

(** Both instruments connected, nothing attempted yet. *)
Definition both_connected : state :=
  {| trace := []; simulator_socket := Some Sock; load_instrument := Some Inst |}.

(** How the bench load shows a setpoint it was given. *)
Definition show (x : pynum) : string :=
  match x with
  | PyInt 0 => "0.0000"
  | PyFloat f =>
      if (f =? 2.5)%float then "2.5000"
      else if (f =? 5)%float then "5.0000"
      else if (f =? 7.5)%float then "7.5000"
      else if (f =? 10)%float then "10.0000"
      else "?"
  | _ => "?"
  end.

(** A bench where nothing raises: the simulator answers its safety limits,
    the load reports no error, answers the readback of a setpoint with
    [readback] of the setpoint last written, and answers every measurement
    with [measured]; the keyboard is as [keys] has it. *)
Definition bench (readback : pynum -> string) (measured : string)
           (keys : list event -> option ascii) : env :=
  {| fault := fun _ => None;
     received := fun h =>
       match rev h with
       | Recv _ :: _ => "264.0,373.0,45,65,30,90,1,1,4000,4000,4000,1,3,50,90,0"
       | Query (Lit "SYSTem:ERRor?") :: _ => "0,No error"
       | Query (Lit "*IDN?") :: _ => "Chroma,63804,0,1.00"
       | Query (Lit "CURRent?") :: _ :: _ :: Write (Fmt _ i) :: _ => readback i
       | _ => measured
       end;
     key := keys |}.

(** The result rows among the operations [evs]: the two setpoints shown. *)
Definition rows (evs : list event) : list (float * float) :=
  flat_map (fun e => match e with
                     | Print (Row v i _ _ _) => [(v, i)]
                     | _ => []
                     end) evs.

(** The errors reported among the operations [evs]. *)
Definition failures (evs : list event) : list exn :=
  flat_map (fun e => match e with Print (Failed x) => [x] | _ => [] end) evs.




(** The shipped sweep on a bench whose load reads the setpoint 0 back as
    it is and every other setpoint back as [2.6]. *)
Definition tenth_off_run : result unit * state :=
  ControlBoth.main
    (bench (fun i => match i with PyInt 0 => "0.0" | _ => "2.6" end)
           "120.1" (fun _ => None))
    ControlBoth.shipped 6 initial.

(** The shipped sweep on a bench whose load answers every readback of a
    setpoint with [nan]. *)
Definition nan_readback_run : result unit * state :=
  ControlBoth.main (bench (fun _ => "nan") "120.1" (fun _ => None))
                   ControlBoth.shipped 6 initial.

(** ** The values a sweep axis takes *)

(** The values for which the body of the inner loop runs: those of
    [i_set = start; while i_set <= stop: ...; i_set += step]. *)
Fixpoint setpoints (fuel : nat) (stop step i_set : pynum)
  : result (list pynum) :=
  match fuel with
  | O => OutOfFuel
  | S fuel' =>
      if py_le i_set stop then
        rbind (py_add i_set step) (fun i_set' =>
        rbind (setpoints fuel' stop step i_set') (fun l => Ok (i_set :: l)))
      else Ok []
  end.




(** A finite float as [m * 2 ^ e], exactly. *)
Definition exact (f : float) : option (Z * Z) :=
  match Prim2SF f with
  | S754_zero _ => Some (0, 0)
  | S754_finite s m e => Some (if s then Zneg m else Zpos m, e)
  | _ => None
  end.


(** The shipped configuration with another current axis. *)
Definition with_current_axis (start stop step : pynum) : ControlBoth.config :=
  {| ControlBoth.SIMULATOR_HOST := ControlBoth.SIMULATOR_HOST ControlBoth.shipped;
     ControlBoth.SIMULATOR_PORT := ControlBoth.SIMULATOR_PORT ControlBoth.shipped;
     ControlBoth.SIMULATOR_INSTRUMENT :=
       ControlBoth.SIMULATOR_INSTRUMENT ControlBoth.shipped;
     ControlBoth.LOAD_ADDRESS := ControlBoth.LOAD_ADDRESS ControlBoth.shipped;
     ControlBoth.VOLTAGE_START_V := ControlBoth.VOLTAGE_START_V ControlBoth.shipped;
     ControlBoth.VOLTAGE_STOP_V := ControlBoth.VOLTAGE_STOP_V ControlBoth.shipped;
     ControlBoth.VOLTAGE_STEP_V := ControlBoth.VOLTAGE_STEP_V ControlBoth.shipped;
     ControlBoth.CURRENT_START_A := start;
     ControlBoth.CURRENT_STOP_A := stop;
     ControlBoth.CURRENT_STEP_A := step;
     ControlBoth.INTERVAL_S := ControlBoth.INTERVAL_S ControlBoth.shipped |}.


(** ** The course of the shipped sweep *)

Definition voltages : list Z := [100; 125; 150].

Definition currents : list pynum :=
  [PyInt 0; PyFloat 2.5; PyFloat 5; PyFloat 7.5; PyFloat 10].

(** What matters of an operation for the course of the sweep. *)
Inductive mark : Type :=
| SetVoltage (v : Z)          (* the voltage setpoint is sent *)
| Poll                        (* the keyboard is polled *)
| KeyRead                     (* the waiting key is read *)
| SetCurrent (i : pynum)      (* the current setpoint is written *)
| Shown (v i : float)         (* the result row is printed *)
| Completed                   (* the completion message *)
| HardStop                    (* the message of the stop request *)
| Interrupted                 (* the message of the user interruption *)
| Reported (x : exn)          (* the message of an error *)
| ShutdownBegins.             (* the first message of the shutdown *)

Definition mark_of (e : event) : list mark :=
  match e with
  | Send (Fmt "VOLTage " (PyInt v)) => [SetVoltage v]
  | KbHit => [Poll]
  | GetCh => [KeyRead]
  | Write (Fmt "CURR " i) => [SetCurrent i]
  | Print (Row v i _ _ _) => [Shown v i]
  | Print (Say "--- Sweep Completed Successfully ---") => [Completed]
  | Print (Say "Hard stop requested by user!") => [HardStop]
  | Print (Say "User interrupted the test. Proceeding to save and shut down.") =>
      [Interrupted]
  | Print (Failed x) => [Reported x]
  | Print (Say "Cleaning up and shutting down outputs...") => [ShutdownBegins]
  | _ => []
  end.

(** The course of a history. *)
Definition marks (evs : list event) : list mark := flat_map mark_of evs.

(** The course of one pass of the inner loop that completes. *)
Definition pass_marks (v : Z) (i : pynum) : list mark :=
  match float_of_int v, to_float i with
  | Ok fv, Ok fi => [Poll; SetCurrent i; Shown fv fi]
  | _, _ => []
  end.

(** The course of the sweep for one voltage, and for all of them. *)
Definition step_marks (v : Z) : list mark :=
  SetVoltage v :: flat_map (pass_marks v) currents.

Definition sweep_marks : list mark := flat_map step_marks voltages.

(** The part of a course before its [n]-th poll (counted from 1). *)
Fixpoint before_poll (n : nat) (l : list mark) : list mark :=
  match l with
  | [] => []
  | Poll :: r =>
      match n with
      | O | S O => []
      | S n' => Poll :: before_poll n' r
      end
  | m :: r => m :: before_poll n r
  end.

(** The body of the outer loop of the shipped sweep for the voltage [v]. *)
Definition voltage_step (E : env) (fuel : nat) (v : Z) : M unit :=
  bind (attempt E (Send (Fmt "VOLTage " (PyInt v)))) (fun _ =>
  bind (sleep E (PyFloat 1.5)) (fun _ =>
  bind (ControlBoth.current_sweep E ControlBoth.shipped fuel
          (ControlBoth.sweep_point E v) (PyInt 0)) (fun _ =>
  print E (Say "--------------------------------------------------------------------")))).

(** The state in which the shipped sweep starts, after the operations
    [pre] of the setup. *)
Definition sweeping (pre : list event) : state :=
  {| trace := pre; simulator_socket := Some Sock; load_instrument := Some Inst |}.

(** The readback of every setpoint of the shipped sweep is a number
    within the tolerance. *)
Definition readbacks_verify (E : env) : Prop :=
  forall h i peak,
    In i currents -> ControlBoth.peak_limit i = Ok peak ->
    exists readback,
      py_float (VStr (strip (received E (h ++ point_prefix peak i))))
      = Ok readback
      /\ ControlBoth.check_readback readback i = Ok tt.

(** The load answers every query of its error status with a status that
    lets the setup go on. *)
Definition status_accepted (E : env) : Prop :=
  forall h,
    ~ status_rejected (strip (received E (h ++ [Query (Lit "SYSTem:ERRor?")]))).

(** The keyboard that has [q] waiting once [k] rows are shown, and
    nothing before. *)
Definition q_after (k : nat) (h : list event) : option ascii :=
  if (List.length (rows h) =? k)%nat then Some "q"%char else None.

(** The shipped sweep on the bench, with [q] pressed after [k] rows. *)
Definition stopped_run (k : nat) : result unit * state :=
  ControlBoth.main (bench show "120.1" (q_after k)) ControlBoth.shipped 6 initial.

Definition CRLF : string := String (ascii_of_N 13) (String LF EmptyString).

(** ** The table of safety limits *)

(** How many times the character [c] occurs in [s]. *)
Fixpoint count_char (c : ascii) (s : string) : nat :=
  match s with
  | EmptyString => O
  | String d r => if Ascii.eqb d c then S (count_char c r) else count_char c r
  end.

(** The line of the table for the label [lbl] and the field [val]: the
    field as a number when it is one, and its text otherwise. *)
Definition safety_line (lbl val : string) : output :=
  match float_of_str val with
  | Some f => SafetyValue lbl f
  | None => SafetyText lbl (strip val)
  end.

(** What is printed under the heading for the response [settings_str]. *)
Definition safety_report (settings_str : string) : list output :=
  if (count_char "," settings_str =? 15)%nat
  then map (fun '(lbl, val) => safety_line lbl val)
           (combine ControlBoth.labels (split "," settings_str))
  else [Unexpected settings_str].

(** The label a line of the table begins with. *)
Definition label_of (o : output) : string :=
  match o with
  | SafetyValue lbl _ | SafetyText lbl _ => lbl
  | _ => EmptyString
  end.

(** ** What a script attempts, whatever the world does *)

(** How many of the operations [evs] the test [P] selects. *)
Definition count (P : event -> bool) (evs : list event) : nat :=
  List.length (filter P evs).

(** Whatever the world does and wherever it is started, the script [m]
    leaves the two handles as they are and attempts at most [n] operations
    that [P] selects. *)
Definition within {A : Type} (P : event -> bool) (n : nat) (m : M A) : Prop :=
  forall s, exists evs, snd (m s) = extend s evs /\ (count P evs <= n)%nat.

(** Turning the output of the simulator on. *)
Definition is_output_on (e : event) : bool :=
  match e with
  | Send (Lit "OUTPut ON") => true
  | _ => false
  end.


Definition is_load_shutdown (e : event) : bool :=
  match e with
  | Write (Lit "LOAD OFF") | Write (Lit "CURRent 0") | InstClose => true
  | _ => false
  end.

(** What the [except] clauses of [Control_Both.py] print for [x]. *)
Definition report (x : exn) : output :=
  match x with
  | KeyboardInterrupt =>
      Say "User interrupted the test. Proceeding to save and shut down."
  | _ => Failed x
  end.

(** What they attempt after the [try] block ended with [r]. *)
Definition reported (r : result unit) : list event :=
  match r with
  | Raise x => [Print (report x)]
  | _ => []
  end.


(** A message on the console. *)
Definition is_print (e : event) : bool :=
  match e with
  | Print _ => true
  | _ => false
  end.

(** What [Control_Both.py] has attempted when it has turned the output of
    the simulator on: the setup of the simulator with the lines [outs] of
    its safety table, the setup of the load that answers its identity with
    [identity], and the command itself. *)
Definition up_to_output_on (C : ControlBoth.config) (outs : list output)
           (identity : string) : list event :=
  simulator_setup_ops (ControlBoth.SIMULATOR_HOST C) (ControlBoth.SIMULATOR_PORT C)
                      (ControlBoth.SIMULATOR_INSTRUMENT C)
  ++ map Print outs
  ++ [Print (Say "Grid Simulator connected and configured.")]
  ++ load_setup_ops (ControlBoth.LOAD_ADDRESS C)
  ++ [ Query (Lit "*IDN?"); Print (Ready identity);
       Print (Say "Preparing for test. Turning Grid Simulator ON.");
       Send (Lit "OUTPut ON") ].

(** ** Scripts that end *)

(** Wherever it is started, the script [m] ends: the fuel of the model is
    enough for its loops. *)
Definition finishes {A : Type} (m : M A) : Prop :=
  forall s, fst (m s) <> OutOfFuel.

(** The inner loop of the script at 100 V on an axis from 0 to 10 with a
    step of 0, with a load that answers every query with [0] and so reads
    the setpoint 0 back as it is. *)
Definition stuck_sweep (fuel : nat) : result unit * state :=
  ControlBoth.current_sweep (answering "0")
    (with_current_axis (PyInt 0) (PyInt 10) (PyInt 0)) fuel
    (ControlBoth.sweep_point (answering "0") 100) (PyInt 0) initial.

(** The shipped configuration with another voltage axis. *)
Definition with_voltage_axis (start stop step : Z) : ControlBoth.config :=
  {| ControlBoth.SIMULATOR_HOST := ControlBoth.SIMULATOR_HOST ControlBoth.shipped;
     ControlBoth.SIMULATOR_PORT := ControlBoth.SIMULATOR_PORT ControlBoth.shipped;
     ControlBoth.SIMULATOR_INSTRUMENT :=
       ControlBoth.SIMULATOR_INSTRUMENT ControlBoth.shipped;
     ControlBoth.LOAD_ADDRESS := ControlBoth.LOAD_ADDRESS ControlBoth.shipped;
     ControlBoth.VOLTAGE_START_V := start;
     ControlBoth.VOLTAGE_STOP_V := stop;
     ControlBoth.VOLTAGE_STEP_V := step;
     ControlBoth.CURRENT_START_A := ControlBoth.CURRENT_START_A ControlBoth.shipped;
     ControlBoth.CURRENT_STOP_A := ControlBoth.CURRENT_STOP_A ControlBoth.shipped;
     ControlBoth.CURRENT_STEP_A := ControlBoth.CURRENT_STEP_A ControlBoth.shipped;
     ControlBoth.INTERVAL_S := ControlBoth.INTERVAL_S ControlBoth.shipped |}.

(** The keyboard with the key [c] waiting at every poll. *)
Definition key_waiting (c : ascii) : env :=
  {| fault := fun _ => None; received := fun _ => "0"; key := fun _ => Some c |}.

(** ** The steps of [Control Load.py] *)

(** What a step attempts up to and including the query of the load
    status. *)
Definition step_status_ops : list event :=
  [ Print (Say "Sending LOAD ON command..."); Write (Lit "LOAD ON");
    Query (Lit "LOAD:STATus?") ].

(** What it attempts from there, for the current [i] and the status read,
    up to and including the readback of the setpoint. *)
Definition step_setpoint_ops (load_status : string) (i : Z) : list event :=
  [ Print (LoadStatus load_status); Print (SettingCurrent i);
    Write (Fmt "CURR " (PyInt i)); Write (Lit "LOAD ON");
    Print (Say "Verifying the current setpoint..."); Query (Lit "CURRent?") ].

(** A current setpoint written to the load. *)
Definition is_current_setpoint (e : event) : bool :=
  match e with
  | Write (Fmt "CURR " _) => true
  | _ => false
  end.

(** The load answers every query of its status with a status that lets
    the step go on. *)
Definition load_confirms_on (E : env) : Prop :=
  forall h,
    str_in (strip (received E (h ++ [Query (Lit "LOAD:STATus?")]))) ["1"; "OK"]
    = true.

(** The readback of every setpoint from 0 to 10 is a number within the
    tolerance. *)
Definition setpoints_verify (E : env) : Prop :=
  forall h i,
    0 <= i <= 10 ->
    exists readback,
      py_float (VStr (strip (received E
        (h ++ [ Write (Fmt "CURR " (PyInt i)); Write (Lit "LOAD ON");
                Print (Say "Verifying the current setpoint...");
                Query (Lit "CURRent?") ]))))
      = Ok readback
      /\ ControlLoad.check_readback readback i = Ok tt.

(** The lines a step writes to the load for the current [i]. *)
Definition step_writes (i : Z) : list line :=
  [Lit "LOAD ON"; Fmt "CURR " (PyInt i); Lit "LOAD ON"].

(** How the bench load shows a whole number of amperes. *)
Definition show_amperes (x : pynum) : string :=
  match x with
  | PyInt 0 => "0.00"
  | PyInt 1 => "1.00"
  | PyInt 2 => "2.00"
  | PyInt 3 => "3.00"
  | PyInt 4 => "4.00"
  | PyInt 5 => "5.00"
  | PyInt 6 => "6.00"
  | PyInt 7 => "7.00"
  | PyInt 8 => "8.00"
  | PyInt 9 => "9.00"
  | PyInt 10 => "10.00"
  | _ => "?"
  end.

(** The currents [Control Load.py] steps through. *)
Definition load_currents : list Z := [0; 1; 2; 3; 4; 5; 6; 7; 8; 9; 10].

(** The lines its setup writes to the load. *)
Definition load_configure_writes : list line :=
  [ Lit "*RST"; Lit "*CLS"; Lit "MODE ACF"; Fmt "CFACTor " (PyFloat 1.414);
    Fmt "PFACtor " (PyFloat 1); Fmt "CURR:PEAK:MAX:AC " (PyFloat 15) ].

(** The state of [Control Load.py] once the load is set up, after the
    operations [pre]. *)
Definition load_connected (pre : list event) : state :=
  {| trace := pre; simulator_socket := None; load_instrument := Some Inst |}.

(** Clearing the instrument, the first operation on it once it is open. *)
Definition is_clear (e : event) : bool :=
  match e with
  | Clear => true
  | _ => false
  end.

(** What the [except] clause of [Control Load.py] attempts after the [try]
    block ended with [r]: it has no clause for a keyboard interrupt. *)
Definition load_reported (r : result unit) : list event :=
  match r with
  | Raise x => if is_Exception x then [Print (Failed x)] else []
  | _ => []
  end.

(** ** What escapes the scripts *)

(** No [print] ever raises. *)
Definition console_works (E : env) : Prop :=
  forall h o, fault E (h ++ [Print o]) = None.

(** No operation among [plan] ever raises. *)
Definition never_fail (E : env) (plan : list event) : Prop :=
  forall h e, In e plan -> fault E (h ++ [e]) = None.

(** What the [except] clauses of [NHR_control_test.py] print for [x]. *)
Definition nhr_report (x : exn) : output :=
  match x with
  | SocketTimeout => Say "Error: Connection timed out."
  | ConnectionRefusedError =>
      Say "Error: Connection was refused. Check the IP address."
  | _ => Failed x
  end.

(** The world in which the operations that [bad] selects are interrupted
    from the keyboard, and nothing else raises. *)
Definition interrupted_at (bad : event -> bool) : env :=
  failing bad KeyboardInterrupt "0".

(** The wait of two seconds that each script has after a command. *)
Definition is_wait_of_two (e : event) : bool :=
  match e with
  | Sleep (PyInt 2) => true
  | _ => false
  end.

(** ** The course of [NHR_control_test.py] *)

(** The lines sent to the simulator among the operations [evs]. *)
Definition sends (evs : list event) : list line :=
  flat_map (fun e => match e with Send l => [l] | _ => [] end) evs.

(** The voltages the script steps through. *)
Definition nhr_voltages : list Z :=
  [30; 40; 50; 60; 70; 80; 90; 100; 110; 120; 130; 140; 150].

(** The lines a step sends for the voltage [v]. *)
Definition nhr_step_sends (v : Z) : list line :=
  [Fmt "VOLTage " (PyInt v); Lit "MEASure:VOLTage?"].

(** Every response of the simulator, cleaned, is a number. *)
Definition voltages_read (E : env) : Prop :=
  forall h,
    exists f,
      py_float (VStr (remove NUL (strip (received E (h ++ [Recv 4096]))))) = Ok f.

(** How the script ends when nothing fails. *)
Definition nhr_ramp_down : list event :=
  [ Print (Say "Ramping down voltage and turning output OFF.");
    Send (Lit "VOLTage 0"); Sleep (PyInt 1); Send (Lit "OUTPut OFF");
    Print (Say "Output is now OFF."); SockClose ].

(** Turning the output of the simulator off. *)
Definition is_output_off (e : event) : bool :=
  match e with
  | Send (Lit "OUTPut OFF") => true
  | _ => false
  end.

(** The state of [NHR_control_test.py] once it has attempted the
    connection: where its [with] block begins when the connection is made. *)
Definition connection_attempted : state :=
  extend initial [Connect NHR.HOST NHR.PORT].

End Spec.

(* ====================================================================== *)
(** * Properties of the scripts *)
(* ====================================================================== *)

Import Py World Spec.

(** ** Text *)

Lemma lstrip_spaces (lead s : string) :
  all_space lead = true -> lstrip (lead ++ s) = lstrip s.
Proof.
  induction lead as [|c lead IH]; simpl; [reflexivity|].
  unfold all_space; simpl. intros H. apply andb_prop in H as [Hc Hl].
  rewrite Hc. apply IH, Hl.
Qed.

Lemma lstrip_clean (s : string) : starts_clean s = true -> lstrip s = s.
Proof.
  destruct s as [|c r]; simpl; [reflexivity|].
  intros H. destruct (isspace c); [discriminate|reflexivity].
Qed.

Lemma rstrip_all_space (s : string) :
  all_space s = true -> rstrip s = EmptyString.
Proof.
  induction s as [|c r IH]; simpl; [reflexivity|].
  unfold all_space; simpl. intros H. apply andb_prop in H as [Hc Hr].
  rewrite (IH Hr), Hc. reflexivity.
Qed.

Lemma rstrip_clean (s : string) : ends_clean s = true -> rstrip s = s.
Proof.
  induction s as [|c r IH]; simpl; [reflexivity|].
  destruct r as [|d r'].
  - simpl. intros H. destruct (isspace c); [discriminate|reflexivity].
  - intros H. rewrite (IH H). reflexivity.
Qed.

Lemma rstrip_spaces (core trail : string) :
  all_space trail = true -> rstrip (core ++ trail) = rstrip core.
Proof.
  intros Ht. induction core as [|c r IH]; simpl.
  - apply rstrip_all_space, Ht.
  - rewrite IH. reflexivity.
Qed.

Lemma lstrip_all_space (s : string) :
  all_space s = true -> lstrip s = EmptyString.
Proof.
  induction s as [|c r IH]; simpl; [reflexivity|].
  unfold all_space; simpl. intros H. apply andb_prop in H as [Hc Hr].
  rewrite Hc. apply IH, Hr.
Qed.

Lemma strip_decomposed (lead core trail : string) :
  all_space lead = true -> all_space trail = true ->
  starts_clean core = true -> ends_clean core = true ->
  strip (lead ++ core ++ trail) = core.
Proof.
  intros Hl Ht Hs He. unfold strip.
  rewrite (lstrip_spaces _ _ Hl).
  destruct core as [|c r].
  - simpl. rewrite (lstrip_all_space _ Ht). reflexivity.
  - rewrite lstrip_clean.
    + rewrite (rstrip_spaces _ _ Ht). apply rstrip_clean, He.
    + exact Hs.
Qed.

Lemma remove_chars (c : ascii) (s : string) :
  chars (remove c s) = filter (fun d => negb (Ascii.eqb d c)) (chars s).
Proof.
  induction s as [|d r IH]; simpl; [reflexivity|].
  destruct (Ascii.eqb d c); simpl; [exact IH|]. unfold chars in *. simpl.
  rewrite IH. reflexivity.
Qed.

(** ** Stepping through the monad *)

Open Scope list_scope.

Lemma log_extend (e : event) (s : state) : log e s = extend s [e].
Proof. reflexivity. Qed.

Lemma extend_extend (s : state) (a b : list event) :
  extend (extend s a) b = extend s (a ++ b).
Proof. unfold extend; simpl. rewrite app_assoc. reflexivity. Qed.

Lemma extend_nil (s : state) : extend s [] = s.
Proof. destruct s; unfold extend; simpl. rewrite app_nil_r. reflexivity. Qed.

Lemma attempt_ok (E : env) (e : event) (s : state) :
  fault E (trace s ++ [e]) = None -> attempt E e s = (Ok tt, extend s [e]).
Proof. intros H. unfold attempt. simpl. rewrite H. reflexivity. Qed.

Lemma attempt_raise (E : env) (e : event) (s : state) (x : exn) :
  fault E (trace s ++ [e]) = Some x -> attempt E e s = (Raise x, extend s [e]).
Proof. intros H. unfold attempt. simpl. rewrite H. reflexivity. Qed.

Lemma obtain_ok (E : env) (e : event) (s : state) :
  fault E (trace s ++ [e]) = None ->
  obtain E e s = (Ok (received E (trace s ++ [e])), extend s [e]).
Proof. intros H. unfold obtain. simpl. rewrite H. reflexivity. Qed.

Lemma bind_ok {A B : Type} (m : M A) (k : A -> M B) (s s' : state) (a : A) :
  m s = (Ok a, s') -> bind m k s = k a s'.
Proof. intros H. unfold bind. rewrite H. reflexivity. Qed.

Lemma bind_raise {A B : Type} (m : M A) (k : A -> M B) (s s' : state) (x : exn) :
  m s = (Raise x, s') -> bind m k s = (Raise x, s').
Proof. intros H. unfold bind. rewrite H. reflexivity. Qed.

Lemma trace_extend (s : state) (evs : list event) :
  trace (extend s evs) = trace s ++ evs.
Proof. reflexivity. Qed.

(** Bring a history [((h ++ a) ++ b) ++ ...] to the form [h ++ (a ++ b ...)]. *)
Ltac flatten_history :=
  repeat rewrite trace_extend in *;
  repeat rewrite <- app_assoc in *;
  cbn [app] in *.

(** ** C9: what a query returns *)

(** The two query helpers agree. *)
Lemma send_query_socket_eq (E : env) (sock : socket) (q : string) (s : state) :
  ControlBoth.send_query_socket E sock q s = NHR.send_query E sock q s.
Proof. reflexivity. Qed.

Lemma send_query_ok (E : env) (sock : socket) (q : string) (s : state) :
  fault E (trace s ++ [Send (Lit q)]) = None ->
  fault E (trace s ++ [Send (Lit q); Recv 4096]) = None ->
  NHR.send_query E sock q s =
  (Ok (remove NUL (strip (received E (trace s ++ [Send (Lit q); Recv 4096])))),
   extend s [Send (Lit q); Recv 4096]).
Proof.
  intros H1 H2. unfold NHR.send_query.
  rewrite (bind_ok _ _ _ _ _ (attempt_ok _ _ _ H1)).
  erewrite bind_ok.
  2:{ apply obtain_ok. flatten_history. exact H2. }
  unfold ret. rewrite extend_extend. flatten_history. reflexivity.
Qed.

(** C9, as stated, fails: a response that begins with whitespace loses it,
    although the claim has the query remove trailing whitespace and null
    bytes and nothing else. *)
Lemma C9_leading_whitespace_is_removed :
  fst (NHR.send_query (answering " 12.5") Sock "MEASure:VOLTage?" initial)
  = Ok "12.5"%string
  /\ trailing_clean " 12.5" = " 12.5"%string
  /\ "12.5"%string <> trailing_clean " 12.5".
Proof. repeat split. discriminate. Qed.

(** Whitespace that a null byte separates from the end of the response is
    not stripped: the stripping is done before the null bytes are removed. *)
Lemma send_query_keeps_shielded_newline :
  fst (NHR.send_query (answering ("12.5" ++ String LF (String NUL "")))
                      Sock "MEASure:VOLTage?" initial)
  = Ok ("12.5" ++ String LF "")%string.
Proof. reflexivity. Qed.

(** C9 (amended): for a response made of whitespace, a core that neither
    begins nor ends with whitespace, and whitespace again, the query (of
    either script) returns the core with its null bytes removed and nothing
    else removed: leading whitespace is stripped as trailing whitespace is. *)
Theorem C9_query_strips_both_ends_then_nulls
        (E : env) (sock : socket) (q : string) (s : state)
        (lead core trail : string) :
  fault E (trace s ++ [Send (Lit q)]) = None ->
  fault E (trace s ++ [Send (Lit q); Recv 4096]) = None ->
  received E (trace s ++ [Send (Lit q); Recv 4096])
  = (lead ++ core ++ trail)%string ->
  all_space lead = true -> all_space trail = true ->
  starts_clean core = true -> ends_clean core = true ->
  fst (NHR.send_query E sock q s) = Ok (remove NUL core)
  /\ fst (ControlBoth.send_query_socket E sock q s) = Ok (remove NUL core)
  /\ chars (remove NUL core)
     = filter (fun c => negb (Ascii.eqb c NUL)) (chars core).
Proof.
  intros H1 H2 Hr Hl Ht Hs He.
  assert (Hq := send_query_ok E sock q s H1 H2).
  rewrite Hr, (strip_decomposed _ _ _ Hl Ht Hs He) in Hq.
  repeat split.
  - rewrite Hq. reflexivity.
  - rewrite send_query_socket_eq, Hq. reflexivity.
  - apply remove_chars.
Qed.

Lemma C9_query_strips_both_ends_then_nulls_witness :
  fst (NHR.send_query
         (answering (" " ++ ("12" ++ String NUL ".5") ++ CRLF))
         Sock "MEASure:VOLTage?" initial)
  = Ok "12.5"%string.
Proof.
  exact (proj1 (C9_query_strips_both_ends_then_nulls
                  (answering (" " ++ ("12" ++ String NUL ".5") ++ CRLF))
                  Sock "MEASure:VOLTage?" initial
                  " " ("12" ++ String NUL ".5") CRLF
                  eq_refl eq_refl eq_refl eq_refl eq_refl eq_refl eq_refl)).
Defined.

(** ** C7: the tolerant parser *)


(** ** C8: the error status after the setup of the load *)

Lemma print_ok (E : env) (o : output) (s : state) :
  fault E (trace s ++ [Print o]) = None ->
  print E o s = (Ok tt, extend s [Print o]).
Proof. apply attempt_ok. Qed.

Lemma sleep_ok (E : env) (seconds : pynum) (s : state) :
  fault E (trace s ++ [Sleep seconds]) = None ->
  sleep E seconds s = (Ok tt, extend s [Sleep seconds]).
Proof. apply attempt_ok. Qed.

(** One step of a script in a world where nothing raises. *)
Ltac step HF :=
  first
    [ rewrite (bind_ok _ _ _ _ _ (attempt_ok _ _ _ (HF _)))
    | rewrite (bind_ok _ _ _ _ _ (obtain_ok _ _ _ (HF _)))
    | rewrite (bind_ok _ _ _ _ _ (print_ok _ _ _ (HF _)))
    | rewrite (bind_ok _ _ _ _ _ (sleep_ok _ _ _ (HF _))) ];
  rewrite ?extend_extend; cbn [app].

Ltac steps HF := repeat step HF.

Lemma status_rejected_iff (error_string : string) :
  status_rejected error_string <->
  negb (str_in error_string ["0"; "OK"]) && negb (startswith error_string "0,")
  = true.
Proof.
  unfold status_rejected, str_in; simpl.
  destruct (String.eqb_spec error_string "0") as [H0|H0];
    destruct (String.eqb_spec error_string "OK") as [H1|H1];
    destruct (startswith error_string "0,"); simpl;
    split; intros H; try discriminate; try tauto;
    destruct H as (A & B & D); congruence.
Qed.

Lemma connect_electronic_load_rejected (E : env) (address : string) (s : state) :
  faultless E ->
  status_rejected (strip (received E (trace s ++ load_setup_ops address))) ->
  ControlBoth.connect_electronic_load E address s
  = (Raise (PyException
              (LoadSetupError
                 (strip (received E (trace s ++ load_setup_ops address))))),
     extend s (load_setup_ops address)).
Proof.
  intros HF Hbad. apply status_rejected_iff in Hbad.
  unfold ControlBoth.connect_electronic_load. steps HF.
  flatten_history. fold (load_setup_ops address).
  rewrite Hbad. reflexivity.
Qed.

Lemma connect_electronic_load_accepted (E : env) (address : string) (s : state) :
  faultless E ->
  ~ status_rejected (strip (received E (trace s ++ load_setup_ops address))) ->
  ControlBoth.connect_electronic_load E address s
  = (Ok Inst,
     extend s (load_setup_ops address
               ++ [Query (Lit "*IDN?");
                   Print (Ready (strip (received E
                     (trace s ++ load_setup_ops address ++ [Query (Lit "*IDN?")]))))])).
Proof.
  intros HF Hgood. rewrite status_rejected_iff in Hgood.
  apply not_true_is_false in Hgood.
  unfold ControlBoth.connect_electronic_load. steps HF.
  flatten_history. fold (load_setup_ops address).
  rewrite Hgood. steps HF. flatten_history. reflexivity.
Qed.

Lemma connect_and_configure_load_rejected (E : env) (address : string) (s : state) :
  faultless E ->
  status_rejected (strip (received E (trace s ++ load_configure_ops address))) ->
  ControlLoad.connect_and_configure_load E address s
  = (Raise (PyException
              (LoadSetupError
                 (strip (received E (trace s ++ load_configure_ops address))))),
     extend s (load_configure_ops address)).
Proof.
  intros HF Hbad. apply status_rejected_iff in Hbad.
  unfold ControlLoad.connect_and_configure_load. steps HF.
  flatten_history.
  match goal with
  | |- context [received E ?h] =>
      change h with (trace s ++ load_configure_ops address)
  end.
  rewrite Hbad. reflexivity.
Qed.

Lemma connect_and_configure_load_accepted (E : env) (address : string) (s : state) :
  faultless E ->
  ~ status_rejected (strip (received E (trace s ++ load_configure_ops address))) ->
  ControlLoad.connect_and_configure_load E address s
  = (Ok Inst,
     extend s (load_configure_ops address
               ++ [Query (Lit "*IDN?");
                   Print (Ready (strip (received E
                     (trace s ++ load_configure_ops address
                              ++ [Query (Lit "*IDN?")]))))])).
Proof.
  intros HF Hgood. rewrite status_rejected_iff in Hgood.
  apply not_true_is_false in Hgood.
  unfold ControlLoad.connect_and_configure_load. steps HF.
  flatten_history.
  match goal with
  | |- context [received E ?h] =>
      change h with (trace s ++ load_configure_ops address)
  end.
  rewrite Hgood. steps HF. flatten_history. reflexivity.
Qed.

(** The table of safety limits is one printed line per field. *)
Lemma safety_table_ok (E : env) (l : list (string * string)) (s : state) :
  faultless E ->
  exists outs,
    for_each l (fun '(lbl, val) =>
      try_except
        (bind (lift (py_float (VStr val)))
              (fun f => print E (SafetyValue lbl f)))
        (fun e =>
           match e with
           | ValueError => Some (print E (SafetyText lbl (strip val)))
           | _ => None
           end)) s
    = (Ok tt, extend s (map Print outs))
    /\ forallb is_safety_line outs = true.
Proof.
  intros HF. revert s. induction l as [|[lbl val] l IH]; intros s.
  - exists []. simpl. rewrite extend_nil. split; reflexivity.
  - cbn [for_each].
    assert (Hrow : exists o,
      try_except
        (bind (lift (py_float (VStr val)))
              (fun f => print E (SafetyValue lbl f)))
        (fun e =>
           match e with
           | ValueError => Some (print E (SafetyText lbl (strip val)))
           | _ => None
           end) s
      = (Ok tt, extend s [Print o]) /\ is_safety_line o = true).
    { unfold try_except, bind, lift, py_float, print.
      destruct (float_of_str val) as [f|].
      - exists (SafetyValue lbl f). rewrite (attempt_ok _ _ _ (HF _)).
        split; reflexivity.
      - exists (SafetyText lbl (strip val)). rewrite (attempt_ok _ _ _ (HF _)).
        split; reflexivity. }
    destruct Hrow as (o & Ho & Hline).
    rewrite (bind_ok _ _ _ _ _ Ho).
    destruct (IH (extend s [Print o])) as (outs & Houts & Hall).
    exists (o :: outs). rewrite Houts, extend_extend. simpl.
    rewrite Hline, Hall. split; reflexivity.
Qed.

Lemma print_safety_limits_ok (E : env) (sock : socket) (s : state) :
  faultless E ->
  exists outs,
    ControlBoth.print_safety_limits E sock s
    = (Ok tt,
       extend s ([Send (Lit "SOURce:SAFety?"); Recv 4096;
                  Print (Say "--- Safety Limits ---")] ++ map Print outs))
    /\ forallb is_safety_line outs = true.
Proof.
  intros HF. unfold ControlBoth.print_safety_limits.
  rewrite (bind_ok _ _ _ _ _ (send_query_ok E sock _ s (HF _) (HF _))).
  cbv zeta. steps HF.
  match goal with
  | |- context [if ?b then _ else _] => destruct b
  end.
  - match goal with
    | |- context [for_each ?l ?f ?s0] =>
        destruct (safety_table_ok E l s0 HF) as (outs & Houts & Hall)
    end.
    exists outs. rewrite Houts, extend_extend. split; [reflexivity|exact Hall].
  - match goal with
    | |- context [print E (Unexpected ?r)] => exists [Unexpected r]
    end.
    rewrite (print_ok _ _ _ (HF _)), extend_extend. split; reflexivity.
Qed.

Lemma connect_grid_simulator_ok (E : env) (C : ControlBoth.config)
      (host : string) (port : Z) (s : state) :
  faultless E ->
  exists outs,
    ControlBoth.connect_grid_simulator E C host port s
    = (Ok Sock,
       extend s (simulator_setup_ops host port (ControlBoth.SIMULATOR_INSTRUMENT C)
                 ++ map Print outs
                 ++ [Print (Say "Grid Simulator connected and configured.")]))
    /\ forallb is_safety_line outs = true.
Proof.
  intros HF. unfold ControlBoth.connect_grid_simulator. steps HF.
  match goal with
  | |- context [bind (ControlBoth.print_safety_limits E ?k) ?f ?s0] =>
      destruct (print_safety_limits_ok E k s0 HF) as (outs & Houts & Hall)
  end.
  exists outs. rewrite (bind_ok _ _ _ _ _ Houts).
  rewrite ?extend_extend. steps HF. unfold ret.
  split; [|exact Hall]. unfold simulator_setup_ops. cbn [app].
  reflexivity.
Qed.

(** ** C1: the shutdown *)

(** Attempting the operations of a list in order stops at the first one
    that raises. *)
Lemma attempts_spec (E : env) (plan : list event) (s : state) :
  exists k,
    snd (for_each plan (attempt E) s) = extend s (firstn k plan)
    /\ match fst (for_each plan (attempt E) s) with
       | Ok _ => k = List.length plan
       | Raise x =>
           (1 <= k <= List.length plan)%nat
           /\ fault E (trace s ++ firstn k plan) = Some x
       | OutOfFuel => False
       end.
Proof.
  revert s. induction plan as [|e plan IH]; intros s.
  - exists 0%nat. simpl. rewrite extend_nil. split; reflexivity.
  - cbn [for_each]. destruct (fault E (trace s ++ [e])) as [x|] eqn:Hf.
    + exists 1%nat. rewrite (bind_raise _ _ _ _ _ (attempt_raise _ _ _ _ Hf)).
      simpl. repeat split; [lia | lia | exact Hf].
    + rewrite (bind_ok _ _ _ _ _ (attempt_ok _ _ _ Hf)).
      destruct (IH (extend s [e])) as (k & Hs & Hr).
      exists (S k). rewrite Hs, extend_extend. split; [reflexivity|].
      destruct (fst (for_each plan (attempt E) (extend s [e]))) as [u|x|].
      * simpl. lia.
      * destruct Hr as (Hk & Hx). flatten_history.
        split; [simpl; lia | exact Hx].
      * exact Hr.
Qed.

Lemma attempts_ok (E : env) (plan : list event) (s : state) :
  (forall k, fault E (trace s ++ firstn k plan) = None) ->
  for_each plan (attempt E) s = (Ok tt, extend s plan).
Proof.
  revert s. induction plan as [|e plan IH]; intros s HF.
  - simpl. rewrite extend_nil. reflexivity.
  - cbn [for_each].
    rewrite (bind_ok _ _ _ _ _ (attempt_ok _ _ _ (HF 1%nat))).
    rewrite IH.
    + rewrite extend_extend. reflexivity.
    + intros k. flatten_history. exact (HF (S k)).
Qed.

(** The step at which the attempts of a list end: the steps before it were
    attempted and none of them raised, and it is the first step that
    raises, or the last step of the list when none does. *)
Lemma attempts_until (E : env) (plan : list event) (s : state) :
  exists k,
    snd (for_each plan (attempt E) s) = extend s (firstn k plan)
    /\ (forall j, (1 <= j < k)%nat ->
                  fault E (trace s ++ firstn j plan) = None)
    /\ match fst (for_each plan (attempt E) s) with
       | Ok _ =>
           k = List.length plan
           /\ (forall j, (1 <= j <= List.length plan)%nat ->
                         fault E (trace s ++ firstn j plan) = None)
       | Raise x =>
           (1 <= k <= List.length plan)%nat
           /\ fault E (trace s ++ firstn k plan) = Some x
       | OutOfFuel => False
       end.
Proof.
  revert s. induction plan as [|e plan IH]; intros s.
  - exists 0%nat. simpl. rewrite extend_nil.
    split; [reflexivity|]. split; [intros j Hj; lia|].
    split; [reflexivity|intros j Hj; lia].
  - cbn [for_each]. destruct (fault E (trace s ++ [e])) as [x|] eqn:Hf.
    + exists 1%nat. rewrite (bind_raise _ _ _ _ _ (attempt_raise _ _ _ _ Hf)).
      simpl. split; [reflexivity|]. split; [intros j Hj; lia|].
      repeat split; [lia | lia | exact Hf].
    + rewrite (bind_ok _ _ _ _ _ (attempt_ok _ _ _ Hf)).
      destruct (IH (extend s [e])) as (k & Hs & Hb & Hr).
      exists (S k). rewrite Hs, extend_extend. split; [reflexivity|].
      assert (Hstep : forall j, fault E (trace (extend s [e]) ++ firstn j plan)
                                = fault E (trace s ++ firstn (S j) (e :: plan))).
      { intros j. flatten_history. reflexivity. }
      split.
      * intros [|j] Hj; [lia|]. destruct j as [|j]; [exact Hf|].
        rewrite <- Hstep. apply Hb. lia.
      * destruct (fst (for_each plan (attempt E) (extend s [e]))) as [u|x|].
        -- destruct Hr as [Hk Hn]. split; [simpl; lia|].
           intros [|j] Hj; [lia|]. destruct j as [|j]; [exact Hf|].
           rewrite <- Hstep. apply Hn. simpl in Hj. lia.
        -- destruct Hr as (Hk & Hx). rewrite Hstep in Hx.
           split; [simpl; lia | exact Hx].
        -- exact Hr.
Qed.

(** The attempts of a list end at its first step that raises, with the
    error of that step. *)
Lemma attempts_first_fault (E : env) (plan : list event) (s : state)
      (j : nat) (x : exn) :
  (1 <= j <= List.length plan)%nat ->
  fault E (trace s ++ firstn j plan) = Some x ->
  (forall i, (1 <= i < j)%nat -> fault E (trace s ++ firstn i plan) = None) ->
  for_each plan (attempt E) s = (Raise x, extend s (firstn j plan)).
Proof.
  intros Hj Hx Hbefore.
  destruct (attempts_until E plan s) as (k & Hs & Hb & Hr).
  destruct (for_each plan (attempt E) s) as [[[]|y|] s'];
    cbn [fst snd] in *; subst s'.
  - destruct Hr as [_ Hn]. rewrite (Hn j Hj) in Hx. discriminate.
  - destruct Hr as [Hk Hy].
    assert (k = j) as ->.
    { destruct (Nat.lt_trichotomy k j) as [Hlt|[Heq|Hgt]]; [|exact Heq|].
      - rewrite (Hbefore k) in Hy by lia. discriminate.
      - rewrite (Hb j) in Hx by lia. discriminate. }
    rewrite Hx in Hy. injection Hy as ->. reflexivity.
  - destruct Hr.
Qed.

(** What a list of attempts leaves in the trace, whatever it returns. *)
Lemma attempts_trace (E : env) (plan : list event) (s : state) :
  exists k,
    snd (for_each plan (attempt E) s) = extend s (firstn k plan)
    /\ (Nat.min 1 (List.length plan) <= k <= List.length plan)%nat
    /\ (forall j, (1 <= j < k)%nat ->
                  fault E (trace s ++ firstn j plan) = None)
    /\ ((k < List.length plan)%nat ->
        exists x, fault E (trace s ++ firstn k plan) = Some x).
Proof.
  destruct (attempts_until E plan s) as (k & Hs & Hb & Hr).
  exists k. split; [exact Hs|].
  destruct (fst (for_each plan (attempt E) s)) as [u|x|].
  - destruct Hr as [-> _]. repeat split; [lia|lia|exact Hb|lia].
  - destruct Hr as [Hk Hx]. repeat split; [lia|lia|exact Hb|].
    intros _. exists x. exact Hx.
  - destruct Hr.
Qed.

(** Run a script whose steps are all attempts side by side with the list
    of its operations: split on whether each operation raises. *)
Ltac by_attempts E :=
  cbv [for_each bind attempt print sleep ret log
       get_simulator_socket get_load_instrument];
  cbn [trace simulator_socket load_instrument app];
  repeat match goal with
         | |- context [fault E ?h] =>
             destruct (fault E h); cbn [trace simulator_socket load_instrument app]
         end;
  reflexivity.

(** The shutdown is its plan, attempted in order. *)
Lemma shutdown_as_plan (E : env) (s : state) :
  ControlBoth.shutdown E s
  = for_each (shutdown_plan (simulator_socket s) (load_instrument s))
             (attempt E) s.
Proof.
  unfold ControlBoth.shutdown, shutdown_plan.
  destruct s as [h [sim|] [load|]]; by_attempts E.
Qed.

Lemma cleanup_as_plan (E : env) (s : state) :
  ControlLoad.cleanup E s
  = for_each (cleanup_plan (load_instrument s)) (attempt E) s.
Proof.
  unfold ControlLoad.cleanup, cleanup_plan.
  destruct s as [h sim [load|]]; by_attempts E.
Qed.

(** C1, as stated, fails: when the first safety command on the simulator
    raises, the shutdown raises that error itself, and neither the other
    steps for the simulator nor any step for the load is attempted. *)
Lemma C1_failed_step_ends_the_shutdown :
  ControlBoth.shutdown (failing is_voltage_zero OSError "") both_connected
  = (Raise OSError,
     extend both_connected
       [ Print (Say "Cleaning up and shutting down outputs...");
         Send (Lit "VOLTage 0") ]).
Proof. reflexivity. Qed.

(** C1 (amended): for every world and every pair of handles, the shutdown
    of [Control_Both.py] and the cleanup of [Control Load.py] attempt the
    steps of their plan (for the handles that are set) in order.  The
    steps attempted are the first [k] of the plan, and none of the steps
    before the [k]-th raised.  When the shutdown returns, [k] is the length
    of the plan and no step of the plan raised; when it raises [x], the
    [k]-th step raised [x].  So they attempt all the steps and raise
    nothing when no step raises, and when a step raises and none before it
    did, its error is raised by the shutdown at once, and the steps after
    it are not attempted. *)
Theorem C1_shutdown_runs_plan_until_a_step_raises (E : env) (s : state) :
  (let plan := shutdown_plan (simulator_socket s) (load_instrument s) in
   exists k,
     snd (ControlBoth.shutdown E s) = extend s (firstn k plan)
     /\ (forall j, (1 <= j < k)%nat ->
                   fault E (trace s ++ firstn j plan) = None)
     /\ match fst (ControlBoth.shutdown E s) with
        | Ok _ =>
            k = List.length plan
            /\ (forall j, (1 <= j <= List.length plan)%nat ->
                          fault E (trace s ++ firstn j plan) = None)
        | Raise x =>
            (1 <= k <= List.length plan)%nat
            /\ fault E (trace s ++ firstn k plan) = Some x
        | OutOfFuel => False
        end)
  /\ (let plan := cleanup_plan (load_instrument s) in
      exists k,
        snd (ControlLoad.cleanup E s) = extend s (firstn k plan)
        /\ (forall j, (1 <= j < k)%nat ->
                      fault E (trace s ++ firstn j plan) = None)
        /\ match fst (ControlLoad.cleanup E s) with
           | Ok _ =>
               k = List.length plan
               /\ (forall j, (1 <= j <= List.length plan)%nat ->
                             fault E (trace s ++ firstn j plan) = None)
           | Raise x =>
               (1 <= k <= List.length plan)%nat
               /\ fault E (trace s ++ firstn k plan) = Some x
           | OutOfFuel => False
           end)
  /\ ((forall h, fault E h = None) ->
      ControlBoth.shutdown E s
      = (Ok tt, extend s (shutdown_plan (simulator_socket s)
                                         (load_instrument s)))
      /\ ControlLoad.cleanup E s
         = (Ok tt, extend s (cleanup_plan (load_instrument s))))
  /\ (forall (j : nat) (x : exn),
        let plan := shutdown_plan (simulator_socket s) (load_instrument s) in
        (1 <= j <= List.length plan)%nat ->
        fault E (trace s ++ firstn j plan) = Some x ->
        (forall i, (1 <= i < j)%nat ->
                   fault E (trace s ++ firstn i plan) = None) ->
        ControlBoth.shutdown E s = (Raise x, extend s (firstn j plan)))
  /\ (forall (j : nat) (x : exn),
        let plan := cleanup_plan (load_instrument s) in
        (1 <= j <= List.length plan)%nat ->
        fault E (trace s ++ firstn j plan) = Some x ->
        (forall i, (1 <= i < j)%nat ->
                   fault E (trace s ++ firstn i plan) = None) ->
        ControlLoad.cleanup E s = (Raise x, extend s (firstn j plan))).
Proof.
  rewrite shutdown_as_plan, cleanup_as_plan.
  split; [apply attempts_until|]. split; [apply attempts_until|].
  split.
  - intros HF. split; apply attempts_ok; intros k; apply HF.
  - split; intros j x plan; apply attempts_first_fault.
Qed.

Lemma attempts_faultless (E : env) (plan : list event) (s : state) :
  faultless E -> for_each plan (attempt E) s = (Ok tt, extend s plan).
Proof. intros HF. apply attempts_ok. intros k. apply HF. Qed.

Lemma safety_lines_are_setup (outs : list output) :
  forallb is_safety_line outs = true ->
  existsb is_identity_query (map Print outs) = false
  /\ existsb is_sweep_op (map Print outs) = false.
Proof.
  induction outs as [|o outs IH]; simpl; [split; reflexivity|].
  intros H. apply andb_prop in H as [Ho Hs]. destruct (IH Hs) as [IH1 IH2].
  rewrite IH1, IH2. destruct o; try discriminate; split; reflexivity.
Qed.

Lemma try_except_raise {A : Type} (m : M A) (handler : exn -> option (M A))
      (s s' : state) (x : exn) (h : M A) :
  m s = (Raise x, s') -> handler x = Some h ->
  try_except m handler s = h s'.
Proof. intros Hm Hh. unfold try_except. rewrite Hm, Hh. reflexivity. Qed.

Lemma try_finally_ok {A : Type} (m : M A) (cleanup : M unit)
      (s s' s'' : state) (a : A) :
  m s = (Ok a, s') -> cleanup s' = (Ok tt, s'') ->
  try_finally m cleanup s = (Ok a, s'').
Proof. intros Hm Hc. unfold try_finally. rewrite Hm, Hc. reflexivity. Qed.

Lemma control_both_stops_at_rejected_status
      (E : env) (C : ControlBoth.config) (fuel : nat) :
  faultless E ->
  (forall h, status_rejected
               (strip (received E (h ++ [Query (Lit "SYSTem:ERRor?")])))) ->
  exists outs r,
    ControlBoth.main E C fuel initial
    = (Ok tt,
       {| trace :=
            simulator_setup_ops (ControlBoth.SIMULATOR_HOST C)
              (ControlBoth.SIMULATOR_PORT C) (ControlBoth.SIMULATOR_INSTRUMENT C)
            ++ map Print outs
            ++ [Print (Say "Grid Simulator connected and configured.")]
            ++ load_setup_ops (ControlBoth.LOAD_ADDRESS C)
            ++ [Print (Failed (PyException (LoadSetupError r)))]
            ++ shutdown_plan (Some Sock) None;
          simulator_socket := Some Sock;
          load_instrument := None |})
    /\ forallb is_safety_line outs = true
    /\ status_rejected r.
Proof.
  intros HF Hbad.
  destruct (connect_grid_simulator_ok E C (ControlBoth.SIMULATOR_HOST C)
              (ControlBoth.SIMULATOR_PORT C) initial HF)
    as (outs & Hsim & Hlines).
  set (s1 := {| trace := simulator_setup_ops (ControlBoth.SIMULATOR_HOST C)
                (ControlBoth.SIMULATOR_PORT C) (ControlBoth.SIMULATOR_INSTRUMENT C)
                ++ map Print outs
                ++ [Print (Say "Grid Simulator connected and configured.")];
                simulator_socket := Some Sock; load_instrument := None |}).
  assert (Hr : status_rejected
                 (strip (received E (trace s1 ++ load_setup_ops
                                       (ControlBoth.LOAD_ADDRESS C))))).
  { unfold load_setup_ops.
    match goal with
    | |- context [received E (?h ++ ?l)] =>
        replace (h ++ l) with ((h ++ removelast l) ++ [Query (Lit "SYSTem:ERRor?")])
    end.
    - apply Hbad.
    - rewrite <- app_assoc. reflexivity. }
  exists outs, (strip (received E (trace s1 ++ load_setup_ops
                                     (ControlBoth.LOAD_ADDRESS C)))).
  split; [|split; [exact Hlines | exact Hr]].
  unfold ControlBoth.main.
  assert (Hrun : ControlBoth.run E C fuel initial
                 = (Raise (PyException (LoadSetupError
                      (strip (received E (trace s1 ++ load_setup_ops
                                            (ControlBoth.LOAD_ADDRESS C)))))),
                    extend s1 (load_setup_ops (ControlBoth.LOAD_ADDRESS C)))).
  { unfold ControlBoth.run. rewrite (bind_ok _ _ _ _ _ Hsim).
    unfold bind at 1. unfold set_simulator_socket at 1. cbn [trace extend initial app].
    fold s1. apply bind_raise.
    apply connect_electronic_load_rejected; assumption. }
  erewrite try_finally_ok.
  - reflexivity.
  - erewrite try_except_raise; [|exact Hrun|reflexivity].
    apply print_ok, HF.
  - rewrite shutdown_as_plan, attempts_faultless by exact HF.
    unfold extend. cbn [trace simulator_socket load_instrument s1].
    rewrite <- !app_assoc. reflexivity.
Qed.

Lemma control_load_stops_at_rejected_status (E : env) :
  faultless E ->
  status_rejected
    (strip (received E (load_configure_ops ControlLoad.INSTRUMENT_ADDRESS))) ->
  ControlLoad.main E initial
  = (Ok tt,
     extend initial
       (load_configure_ops ControlLoad.INSTRUMENT_ADDRESS
        ++ [Print (Failed (PyException (LoadSetupError
              (strip (received E
                 (load_configure_ops ControlLoad.INSTRUMENT_ADDRESS))))))])).
Proof.
  intros HF Hbad. unfold ControlLoad.main.
  assert (Hrun : ControlLoad.run E initial
                 = (Raise (PyException (LoadSetupError
                      (strip (received E
                         (load_configure_ops ControlLoad.INSTRUMENT_ADDRESS))))),
                    extend initial
                      (load_configure_ops ControlLoad.INSTRUMENT_ADDRESS))).
  { unfold ControlLoad.run. apply bind_raise.
    apply (connect_and_configure_load_rejected E _ initial HF Hbad). }
  erewrite try_finally_ok.
  - reflexivity.
  - erewrite try_except_raise; [|exact Hrun|reflexivity].
    apply print_ok, HF.
  - rewrite cleanup_as_plan. cbn [load_instrument extend initial cleanup_plan for_each].
    unfold ret. rewrite extend_extend. reflexivity.
Qed.

Lemma existsb_app_false {A : Type} (f : A -> bool) (l1 l2 : list A) :
  existsb f l1 = false -> existsb f l2 = false -> existsb f (l1 ++ l2) = false.
Proof. intros H1 H2. rewrite existsb_app, H1, H2. reflexivity. Qed.

(** C8: in a world where no operation raises, each of the two setup
    routines of the load raises if and only if the stripped answer to the
    error-status query is not ["0"], not ["OK"] and does not start with
    ["0,"]; it then raises the setup error carrying that answer right after
    the error-status query, so that no identity query is issued; and when
    the load answers every error-status query so, neither script issues an
    identity query or any operation of its sweep. *)
Theorem C8_rejected_error_status_stops_setup
        (E : env) (C : ControlBoth.config) (address : string) (s : state)
        (fuel : nat) :
  faultless E ->
  (let error_string := strip (received E (trace s ++ load_setup_ops address)) in
   ((exists x, fst (ControlBoth.connect_electronic_load E address s) = Raise x)
    <-> status_rejected error_string)
   /\ (status_rejected error_string ->
       ControlBoth.connect_electronic_load E address s
       = (Raise (PyException (LoadSetupError error_string)),
          extend s (load_setup_ops address))))
  /\ (let error_string :=
        strip (received E (trace s ++ load_configure_ops address)) in
      ((exists x, fst (ControlLoad.connect_and_configure_load E address s) = Raise x)
       <-> status_rejected error_string)
      /\ (status_rejected error_string ->
          ControlLoad.connect_and_configure_load E address s
          = (Raise (PyException (LoadSetupError error_string)),
             extend s (load_configure_ops address))))
  /\ ((forall h, status_rejected
                   (strip (received E (h ++ [Query (Lit "SYSTem:ERRor?")])))) ->
      (let tr := trace (snd (ControlBoth.main E C fuel initial)) in
       existsb is_identity_query tr = false /\ existsb is_sweep_op tr = false)
      /\ (let tr := trace (snd (ControlLoad.main E initial)) in
          existsb is_identity_query tr = false /\ existsb is_sweep_op tr = false)).
Proof.
  intros HF. split; [|split].
  - cbv zeta. split.
    + split.
      * intros [x Hx]. destruct (status_rejected_iff
          (strip (received E (trace s ++ load_setup_ops address)))) as [_ Hiff].
        destruct (negb (str_in (strip (received E (trace s ++ load_setup_ops address)))
                               ["0"; "OK"])
                  && negb (startswith (strip (received E
                             (trace s ++ load_setup_ops address))) "0,")) eqn:Hb.
        -- apply Hiff. reflexivity.
        -- rewrite connect_electronic_load_accepted in Hx.
           ++ discriminate.
           ++ exact HF.
           ++ intros Hrej. apply status_rejected_iff in Hrej. congruence.
      * intros Hrej. rewrite connect_electronic_load_rejected by assumption.
        eexists. reflexivity.
    + intros Hrej. apply connect_electronic_load_rejected; assumption.
  - cbv zeta. split.
    + split.
      * intros [x Hx]. destruct (status_rejected_iff
          (strip (received E (trace s ++ load_configure_ops address)))) as [_ Hiff].
        destruct (negb (str_in (strip (received E (trace s ++ load_configure_ops address)))
                               ["0"; "OK"])
                  && negb (startswith (strip (received E
                             (trace s ++ load_configure_ops address))) "0,")) eqn:Hb.
        -- apply Hiff. reflexivity.
        -- rewrite connect_and_configure_load_accepted in Hx.
           ++ discriminate.
           ++ exact HF.
           ++ intros Hrej. apply status_rejected_iff in Hrej. congruence.
      * intros Hrej. rewrite connect_and_configure_load_rejected by assumption.
        eexists. reflexivity.
    + intros Hrej. apply connect_and_configure_load_rejected; assumption.
  - intros Hbad. split.
    + destruct (control_both_stops_at_rejected_status E C fuel HF Hbad)
        as (outs & r & Hmain & Hlines & _).
      rewrite Hmain. cbn [snd trace].
      destruct (safety_lines_are_setup outs Hlines) as [Hid Hsw].
      split.
      * repeat (apply existsb_app_false; [try reflexivity; assumption|]).
        reflexivity.
      * repeat (apply existsb_app_false; [try reflexivity; assumption|]).
        reflexivity.
    + rewrite control_load_stops_at_rejected_status.
      * split; reflexivity.
      * exact HF.
      * unfold load_configure_ops.
        match goal with
        | |- context [received E ?l] =>
            change l with ([] ++ l);
            replace ([] ++ l)
              with (([] ++ removelast l) ++ [Query (Lit "SYSTem:ERRor?")])
        end.
        -- apply Hbad.
        -- reflexivity.
Qed.

Lemma C8_rejected_error_status_stops_setup_witness :
  let E := answering "-113,Undefined header" in
  ControlBoth.connect_electronic_load E "GPIB0::8::INSTR" initial
  = (Raise (PyException (LoadSetupError "-113,Undefined header")),
     extend initial (load_setup_ops "GPIB0::8::INSTR")).
Proof.
  intros E.
  apply (proj2 (proj1 (C8_rejected_error_status_stops_setup
                         E ControlBoth.shipped "GPIB0::8::INSTR" initial 6
                         (fun _ => eq_refl)))).
  repeat split; discriminate.
Defined.

(** Split a run on every choice the world and the values make. *)
Ltac split_run :=
  repeat match goal with
         | |- context [fault ?E ?h] =>
             destruct (fault E h); cbn [trace simulator_socket load_instrument]
         | |- context [key ?E ?h] =>
             destruct (key E h); cbn [trace simulator_socket load_instrument]
         | |- context [if ?b then _ else _] =>
             destruct b; cbn [trace simulator_socket load_instrument]
         | |- context [py_float ?v] =>
             destruct (py_float v); cbn [trace simulator_socket load_instrument]
         | |- context [ControlBoth.check_readback ?a ?b] =>
             destruct (ControlBoth.check_readback a b);
             cbn [trace simulator_socket load_instrument]
         | |- context [ControlBoth.parse_float ?v] =>
             destruct (ControlBoth.parse_float v);
             cbn [trace simulator_socket load_instrument]
         | |- context [ControlBoth.peak_limit ?v] =>
             destruct (ControlBoth.peak_limit v);
             cbn [trace simulator_socket load_instrument]
         | |- context [float_of_int ?v] =>
             destruct (float_of_int v); cbn [trace simulator_socket load_instrument]
         | |- context [to_float ?v] =>
             destruct (to_float v); cbn [trace simulator_socket load_instrument]
         end.


(** ** C10: the three commands that set a current *)



(** ** One pass of the inner loop body, case by case *)

Lemma q_pressed_silent (E : env) (s : state) :
  faultless E -> key E (trace s ++ [KbHit]) = None ->
  q_pressed E s = (Ok false, extend s [KbHit]).
Proof.
  intros HF Hk. unfold q_pressed. cbn [trace log]. rewrite HF, Hk. reflexivity.
Qed.

Lemma q_pressed_key (E : env) (s : state) (c : ascii) :
  faultless E -> key E (trace s ++ [KbHit]) = Some c -> (code c <? 128)%N = true ->
  q_pressed E s = (Ok (Ascii.eqb (lower c) "q"), extend s [KbHit; GetCh]).
Proof.
  intros HF Hk Hc. unfold q_pressed. cbn [trace log]. rewrite HF, Hk.
  rewrite log_extend, (bind_ok _ _ _ _ _ (attempt_ok _ _ _ (HF _))), Hc.
  unfold ret. rewrite extend_extend. reflexivity.
Qed.

Lemma bind_lift_ok {A B : Type} (a : A) (k : A -> M B) (s : state) :
  bind (lift (Ok a)) k s = k a s.
Proof. reflexivity. Qed.

Lemma bind_ret {A B : Type} (a : A) (k : A -> M B) (s : state) :
  bind (ret a) k s = k a s.
Proof. reflexivity. Qed.

Lemma sweep_point_abort (E : env) (v_set : Z) (i_set : pynum) (s : state)
      (c : ascii) :
  faultless E ->
  key E (trace s ++ [KbHit]) = Some c -> is_q c = true ->
  ControlBoth.sweep_point E v_set i_set s
  = (Raise KeyboardInterrupt, extend s abort_ops).
Proof.
  intros HF Hk Hq. unfold is_q in Hq. apply andb_prop in Hq as [H128 Hq].
  unfold ControlBoth.sweep_point.
  rewrite (bind_ok _ _ _ _ _ (q_pressed_key E s c HF Hk H128)), Hq.
  apply bind_raise. steps HF. reflexivity.
Qed.

Lemma sweep_point_to_readback (E : env) (v_set : Z) (i_set peak : pynum)
      (s : state) :
  faultless E ->
  key E (trace s ++ [KbHit]) = None ->
  ControlBoth.peak_limit i_set = Ok peak ->
  ControlBoth.sweep_point E v_set i_set s
  = bind (lift (py_float (VStr (strip
            (received E (trace s ++ point_prefix peak i_set))))))
      (fun readback_current =>
         bind (lift (ControlBoth.check_readback readback_current i_set))
           (fun _ =>
              bind (sleep E (PyInt 2)) (fun _ =>
              bind (ControlBoth.measure E "MEASure:VOLTage?") (fun v_meas =>
              bind (ControlBoth.measure E "MEASure:CURRent?") (fun i_meas =>
              bind (ControlBoth.measure E "MEASure:POWer?") (fun p_meas =>
              bind (lift (float_of_int v_set)) (fun v =>
              bind (lift (to_float i_set)) (fun i =>
              print E (Row v i v_meas i_meas p_meas))))))))) 
      (extend s (point_prefix peak i_set)).
Proof.
  intros HF Hk Hp. unfold ControlBoth.sweep_point.
  rewrite (bind_ok _ _ _ _ _ (q_pressed_silent E s HF Hk)).
  rewrite bind_ret, Hp, bind_lift_ok. steps HF.
  flatten_history. reflexivity.
Qed.


Lemma sweep_point_rejected (E : env) (v_set : Z) (i_set peak : pynum)
      (s : state) (readback : float) (x : exn) :
  faultless E ->
  key E (trace s ++ [KbHit]) = None ->
  ControlBoth.peak_limit i_set = Ok peak ->
  py_float (VStr (strip (received E (trace s ++ point_prefix peak i_set))))
  = Ok readback ->
  ControlBoth.check_readback readback i_set = Raise x ->
  ControlBoth.sweep_point E v_set i_set s
  = (Raise x, extend s (point_prefix peak i_set)).
Proof.
  intros HF Hk Hp Hrb Hx.
  rewrite (sweep_point_to_readback E v_set i_set peak s HF Hk Hp), Hrb.
  rewrite bind_lift_ok, Hx. reflexivity.
Qed.

Lemma parse_float_tolerant (response : string) :
  ControlBoth.parse_float (VStr (strip response)) = Ok (tolerant response).
Proof.
  unfold ControlBoth.parse_float, tolerant, py_float.
  destruct (float_of_str (strip response)); reflexivity.
Qed.

Lemma measure_ok (E : env) (q : string) (s : state) :
  faultless E ->
  ControlBoth.measure E q s
  = (Ok (tolerant (received E (trace s ++ [Query (Lit q)]))),
     extend s [Query (Lit q)]).
Proof.
  intros HF. unfold ControlBoth.measure.
  rewrite (bind_ok _ _ _ _ _ (obtain_ok _ _ _ (HF _))).
  unfold lift. rewrite parse_float_tolerant. reflexivity.
Qed.

Lemma sweep_point_measured (E : env) (v_set : Z) (i_set peak : pynum)
      (s : state) (readback v i : float) :
  faultless E ->
  key E (trace s ++ [KbHit]) = None ->
  ControlBoth.peak_limit i_set = Ok peak ->
  py_float (VStr (strip (received E (trace s ++ point_prefix peak i_set))))
  = Ok readback ->
  ControlBoth.check_readback readback i_set = Ok tt ->
  float_of_int v_set = Ok v -> to_float i_set = Ok i ->
  ControlBoth.sweep_point E v_set i_set s
  = (Ok tt, extend s (point_ops E (trace s) peak i_set v i)).
Proof.
  intros HF Hk Hp Hrb Hc Hv Hi.
  rewrite (sweep_point_to_readback E v_set i_set peak s HF Hk Hp), Hrb.
  rewrite bind_lift_ok, Hc, bind_lift_ok. step HF.
  rewrite (bind_ok _ _ _ _ _ (measure_ok E _ _ HF)), extend_extend.
  rewrite (bind_ok _ _ _ _ _ (measure_ok E _ _ HF)), extend_extend.
  rewrite (bind_ok _ _ _ _ _ (measure_ok E _ _ HF)), extend_extend.
  rewrite Hv, bind_lift_ok, Hi, bind_lift_ok.
  rewrite (print_ok _ _ _ (HF _)), extend_extend.
  unfold point_ops. flatten_history. reflexivity.
Qed.

(** ** C4: the check of the readback *)

Lemma SFcompare_antisym (x y : spec_float) :
  SFcompare y x = option_map CompOpp (SFcompare x y).
Proof.
  destruct x as [sx|sx| |sx mx ex], y as [sy|sy| |sy my ey]; simpl;
    try reflexivity;
    try (destruct sx; reflexivity);
    try (destruct sy; reflexivity);
    try (destruct sx, sy; reflexivity).
  destruct sx, sy; try reflexivity;
    rewrite (Z.compare_antisym ex ey); destruct (ex ?= ey); simpl;
    try reflexivity;
    change (Pos.compare_cont Eq my mx)
      with (Pos.compare_cont (CompOpp Eq) my mx);
    rewrite <- (Pos.compare_cont_antisym mx my Eq);
    destruct (Pos.compare_cont Eq mx my); reflexivity.
Qed.

Lemma is_nan_spec (x : float) : is_nan x = false -> Prim2SF x <> S754_nan.
Proof.
  unfold is_nan. rewrite eqb_spec. intros H Hn. rewrite Hn in H. discriminate.
Qed.

(** On numbers, [x <= y] is the negation of [y < x]. *)
Lemma leb_not_ltb (x y : float) :
  is_nan x = false -> is_nan y = false ->
  PrimFloat.leb x y = negb (PrimFloat.ltb y x).
Proof.
  intros Hx Hy. apply is_nan_spec in Hx, Hy.
  rewrite leb_spec, ltb_spec. unfold SFleb, SFltb.
  rewrite (SFcompare_antisym (Prim2SF x) (Prim2SF y)).
  destruct (Prim2SF x) as [sx|sx| |sx mx ex] eqn:Ex; try congruence;
    destruct (Prim2SF y) as [sy|sy| |sy my ey] eqn:Ey; try congruence;
    match goal with
    | |- context [SFcompare ?a ?b] => destruct (SFcompare a b) as [[ | | ]|] eqn:Hc
    end; try reflexivity; simpl in Hc; try discriminate;
    destruct sx, sy; discriminate.
Qed.

Lemma SFcompare_refl (x : spec_float) :
  x <> S754_nan -> SFcompare x x = Some Eq.
Proof.
  destruct x as [s|s| |s m e]; simpl; intros H; try congruence.
  - destruct s; reflexivity.
  - destruct s; rewrite Z.compare_refl, Pos.compare_cont_refl; reflexivity.
Qed.

Lemma is_nan_abs (d : float) : is_nan d = false -> is_nan (abs d) = false.
Proof.
  intros H. apply is_nan_spec in H. unfold is_nan.
  rewrite eqb_spec, abs_spec. unfold SFeqb. rewrite SFcompare_refl.
  - reflexivity.
  - destruct (Prim2SF d); simpl; congruence.
Qed.

Lemma nan_sub (f : float) : (nan - f)%float = nan.
Proof. apply Prim2SF_inj. rewrite sub_spec. reflexivity. Qed.

(** The check accepts a readback that is not a number: the comparison of
    not-a-number with the tolerance is false. *)
Lemma check_readback_accepts_nan (i_set : pynum) (f : float) :
  to_float i_set = Ok f -> ControlBoth.check_readback nan i_set = Ok tt.
Proof.
  unfold ControlBoth.check_readback, py_sub, arith.
  destruct i_set as [z|g]; simpl; intros H.
  - rewrite H. simpl. rewrite nan_sub. reflexivity.
  - rewrite nan_sub. reflexivity.
Qed.

Lemma is_nan_true (x : float) : is_nan x = true -> Prim2SF x = S754_nan.
Proof.
  unfold is_nan. rewrite eqb_spec. unfold SFeqb.
  destruct (Prim2SF x) as [s|s| |s m e] eqn:Ex; intros H; try reflexivity;
    rewrite SFcompare_refl in H by discriminate; discriminate.
Qed.

Lemma ltb_nan_abs (x d : float) :
  is_nan d = true -> PrimFloat.ltb x (abs d) = false.
Proof.
  intros H. apply is_nan_true in H.
  rewrite ltb_spec, abs_spec, H. unfold SFltb.
  destruct (Prim2SF x) as [s|s| |s m e]; reflexivity.
Qed.

Lemma leb_abs_nan (x d : float) :
  is_nan d = true -> PrimFloat.leb (abs d) x = false.
Proof.
  intros H. apply is_nan_true in H.
  rewrite leb_spec, abs_spec, H. reflexivity.
Qed.

(** C4, as stated, fails in both directions.  The readback [2.6] of the
    shipped setpoint [2.5] is one tenth away (as decimals, 26 tenths
    against 25 tenths, and the tolerance is 1 tenth), yet the check raises:
    the binary64 nearest to 2.6 lies more than the binary64 nearest to 0.1
    above 2.5; on the bench that reads 2.6 back the sweep ends with the
    verification error after its first row.  And the readback [nan] is
    within no tolerance, yet the check accepts it: on the bench that reads
    [nan] back the sweep completes with all fifteen rows. *)
Lemma C4_tenth_off_is_rejected_and_nan_accepted :
  (number "2.6" = Some (26, 1, "") /\ number "2.5" = Some (25, 1, "")
   /\ number "0.1" = Some (1, 1, ""))
  /\ py_float (VStr "2.6") = Ok 2.6%float
  /\ ControlBoth.check_readback 2.6 (PyFloat 2.5)
     = Raise (PyException (CurrentNotSet (PyFloat 2.5) 2.6))
  /\ ControlLoad.check_readback 2.1 2
     = Raise (PyException (CurrentNotSet (PyFloat 10) 2.1))
  /\ fst tenth_off_run = Ok tt
  /\ failures (trace (snd tenth_off_run))
     = [PyException (CurrentNotSet (PyFloat 2.5) 2.6)]
  /\ rows (trace (snd tenth_off_run)) = [(100, 0)%float]
  /\ py_float (VStr "nan") = Ok nan
  /\ ControlBoth.check_readback nan (PyFloat 2.5) = Ok tt
  /\ fst nan_readback_run = Ok tt
  /\ failures (trace (snd nan_readback_run)) = []
  /\ List.length (rows (trace (snd nan_readback_run))) = 15%nat.
Proof. vm_compute. repeat split. Qed.

(** C4 (amended): the check in the arithmetic of the program.  With [d]
    the binary64 difference of the readback and the setpoint, the check
    raises the verification error if and only if [abs d > 0.1], and
    accepts otherwise: it accepts if and only if [d] is not a number or
    [abs d <= 0.1], the bound (the binary64 nearest to 0.1) included.
    Where the check raises, the pass of the inner loop raises that error
    right after the readback, before any measurement, so that the inner
    loop stops there. *)
Theorem C4_readback_rejected_iff_difference_exceeds_tolerance
        (readback : float) (i_set : pynum) (d : float) :
  py_sub (PyFloat readback) i_set = Ok (PyFloat d) ->
  (ControlBoth.check_readback readback i_set
   = Raise (PyException (CurrentNotSet i_set readback))
   <-> py_gt (py_abs (PyFloat d)) (PyFloat 0.1) = true)
  /\ (ControlBoth.check_readback readback i_set = Ok tt
      <-> py_gt (py_abs (PyFloat d)) (PyFloat 0.1) = false)
  /\ (ControlBoth.check_readback readback i_set = Ok tt
      <-> is_nan d = true \/ py_le (py_abs (PyFloat d)) (PyFloat 0.1) = true)
  /\ (py_abs (PyFloat d) = PyFloat 0.1 ->
      ControlBoth.check_readback readback i_set = Ok tt)
  /\ (forall i, i_set = PyInt i ->
      (ControlLoad.check_readback readback i
       = Raise (PyException (CurrentNotSet (PyFloat ControlLoad.ISET_A) readback))
       <-> py_gt (py_abs (PyFloat d)) (PyFloat 0.1) = true)
      /\ (ControlLoad.check_readback readback i = Ok tt
          <-> is_nan d = true
              \/ py_le (py_abs (PyFloat d)) (PyFloat 0.1) = true))
  /\ (forall (E : env) (C : ControlBoth.config) (v_set : Z) (peak : pynum)
             (s : state) (fuel : nat),
      faultless E ->
      key E (trace s ++ [KbHit]) = None ->
      ControlBoth.peak_limit i_set = Ok peak ->
      py_float (VStr (strip (received E (trace s ++ point_prefix peak i_set))))
      = Ok readback ->
      py_gt (py_abs (PyFloat d)) (PyFloat 0.1) = true ->
      py_le i_set (ControlBoth.CURRENT_STOP_A C) = true ->
      ControlBoth.current_sweep E C (S fuel) (ControlBoth.sweep_point E v_set)
                                i_set s
      = (Raise (PyException (CurrentNotSet i_set readback)),
         extend s (point_prefix peak i_set))).
Proof.
  intros Hsub.
  assert (Hcheck : ControlBoth.check_readback readback i_set
                   = if PrimFloat.ltb 0.1 (abs d)
                     then Raise (PyException (CurrentNotSet i_set readback))
                     else Ok tt).
  { unfold ControlBoth.check_readback. rewrite Hsub. reflexivity. }
  assert (Hle : PrimFloat.ltb 0.1 (abs d) = false
                <-> is_nan d = true \/ PrimFloat.leb (abs d) 0.1 = true).
  { destruct (is_nan d) eqn:Hnan.
    - rewrite (ltb_nan_abs _ _ Hnan). split; [left|]; reflexivity.
    - rewrite (leb_not_ltb (abs d) 0.1 (is_nan_abs _ Hnan) eq_refl).
      destruct (PrimFloat.ltb 0.1 (abs d)); simpl; split;
        try (intros [H|H]); try discriminate; auto. }
  cbn [py_le py_gt py_lt py_abs]. rewrite Hcheck.
  split; [|split; [|split; [|split; [|split]]]].
  - destruct (PrimFloat.ltb 0.1 (abs d)); simpl; split; congruence.
  - destruct (PrimFloat.ltb 0.1 (abs d)); simpl; split; congruence.
  - rewrite <- Hle.
    destruct (PrimFloat.ltb 0.1 (abs d)); simpl; split; congruence.
  - intros H. injection H as H. rewrite H. reflexivity.
  - intros i Hi. subst i_set. unfold ControlLoad.check_readback.
    rewrite Hsub. cbn [rbind py_gt py_lt py_abs]. rewrite <- Hle.
    destruct (PrimFloat.ltb 0.1 (abs d)); simpl; repeat split; congruence.
  - intros E C v_set peak s fuel HF Hk Hp Hrb Hgt Hstop.
    cbn [ControlBoth.current_sweep]. rewrite Hstop.
    apply bind_raise.
    apply (sweep_point_rejected E v_set i_set peak s readback _ HF Hk Hp Hrb).
    rewrite Hcheck, Hgt. reflexivity.
Qed.

Lemma C4_readback_rejected_iff_difference_exceeds_tolerance_witness :
  ControlBoth.check_readback 2.6 (PyFloat 2.5)
  = Raise (PyException (CurrentNotSet (PyFloat 2.5) 2.6))
  /\ ControlBoth.check_readback 2.5625 (PyFloat 2.5) = Ok tt.
Proof.
  split.
  - apply (proj1 (C4_readback_rejected_iff_difference_exceeds_tolerance
                    2.6 (PyFloat 2.5) (2.6 - 2.5)%float eq_refl)).
    reflexivity.
  - apply (proj1 (proj2 (C4_readback_rejected_iff_difference_exceeds_tolerance
                           2.5625 (PyFloat 2.5) 0.0625 eq_refl))).
    reflexivity.
Defined.

(** ** C3: which responses are parsed tolerantly *)





(** ** C2: the values of a sweep axis *)

Lemma bind_assoc {A B D : Type} (m : M A) (f : A -> M B) (g : B -> M D)
      (s : state) :
  bind (bind m f) g s = bind m (fun x => bind (f x) g) s.
Proof. unfold bind. destruct (m s) as [[a|x|] s']; reflexivity. Qed.

Lemma bind_ext {A B : Type} (m : M A) (k1 k2 : A -> M B) (s : state) :
  (forall a s', k1 a s' = k2 a s') -> bind m k1 s = bind m k2 s.
Proof.
  intros H. unfold bind. destruct (m s) as [[a|x|] s']; [apply H|reflexivity..].
Qed.

(** The inner loop runs its body on the values of [setpoints], each pass
    followed by the wait of the interval. *)
Lemma current_sweep_as_for_each (E : env) (C : ControlBoth.config)
      (body : pynum -> M unit) (fuel : nat) :
  forall (i_set : pynum) (l : list pynum) (s : state),
    setpoints fuel (ControlBoth.CURRENT_STOP_A C) (ControlBoth.CURRENT_STEP_A C)
              i_set = Ok l ->
    ControlBoth.current_sweep E C fuel body i_set s
    = for_each l (fun i => bind (body i)
                     (fun _ => sleep E (ControlBoth.INTERVAL_S C))) s.
Proof.
  induction fuel as [|fuel IH]; intros i_set l s H; [discriminate|].
  cbn [setpoints ControlBoth.current_sweep] in *.
  destruct (py_le i_set (ControlBoth.CURRENT_STOP_A C)).
  - destruct (py_add i_set (ControlBoth.CURRENT_STEP_A C)) as [i'| |] eqn:Ha;
      try discriminate.
    cbn [rbind] in H.
    destruct (setpoints fuel (ControlBoth.CURRENT_STOP_A C)
                (ControlBoth.CURRENT_STEP_A C) i') as [l'| |] eqn:Hl;
      try discriminate.
    injection H as <-. cbn [for_each]. rewrite bind_assoc.
    apply bind_ext. intros _ s1. rewrite bind_lift_ok.
    apply bind_ext. intros _ s2. apply IH, Hl.
  - injection H as <-. reflexivity.
Qed.









(** ** The course of the shipped sweep *)

Lemma marks_app (a b : list event) : marks (a ++ b) = marks a ++ marks b.
Proof. apply flat_map_app. Qed.

Lemma rows_app (a b : list event) : rows (a ++ b) = rows a ++ rows b.
Proof. apply flat_map_app. Qed.

Lemma currents_convert (i : pynum) :
  In i currents ->
  exists peak fi, ControlBoth.peak_limit i = Ok peak /\ to_float i = Ok fi.
Proof.
  intros H. repeat (destruct H as [<-|H]; [eexists; eexists; split; reflexivity|]).
  destruct H.
Qed.

Lemma voltages_convert (v : Z) :
  In v voltages -> exists fv, float_of_int v = Ok fv.
Proof.
  intros H. repeat (destruct H as [<-|H]; [eexists; reflexivity|]).
  destruct H.
Qed.

(** One pass that completes. *)
Lemma pass_completes (E : env) (v : Z) (i : pynum) (s : state) :
  faultless E -> readbacks_verify E ->
  In v voltages -> In i currents ->
  key E (trace s ++ [KbHit]) = None ->
  exists evs,
    bind (ControlBoth.sweep_point E v i)
         (fun _ => sleep E (ControlBoth.INTERVAL_S ControlBoth.shipped)) s
    = (Ok tt, extend s evs)
    /\ marks evs = pass_marks v i
    /\ List.length (rows evs) = 1%nat.
Proof.
  intros HF HR Hv Hi Hk.
  destruct (currents_convert i Hi) as (peak & fi & Hp & Hfi).
  destruct (voltages_convert v Hv) as (fv & Hfv).
  destruct (HR (trace s) i peak Hi Hp) as (readback & Hrb & Hc).
  exists (point_ops E (trace s) peak i fv fi ++ [Sleep (PyInt 20)]).
  rewrite (bind_ok _ _ _ _ _
             (sweep_point_measured E v i peak s readback fv fi
                HF Hk Hp Hrb Hc Hfv Hfi)).
  rewrite (sleep_ok _ _ _ (HF _)), extend_extend.
  split; [reflexivity|]. unfold pass_marks. rewrite Hfv, Hfi.
  split; reflexivity.
Qed.

(** The passes of the inner loop while the keyboard is silent. *)
Lemma passes_complete (E : env) (v : Z) (l : list pynum) :
  faultless E -> readbacks_verify E -> In v voltages ->
  forall s,
    incl l currents ->
    (forall h,
        (List.length (rows (trace s)) <= List.length (rows h)
         < List.length (rows (trace s)) + List.length l)%nat ->
        key E h = None) ->
    exists evs,
      for_each l (fun i => bind (ControlBoth.sweep_point E v i)
                     (fun _ => sleep E (ControlBoth.INTERVAL_S ControlBoth.shipped))) s
      = (Ok tt, extend s evs)
      /\ marks evs = flat_map (pass_marks v) l
      /\ List.length (rows evs) = List.length l.
Proof.
  intros HF HR Hv. induction l as [|i l IH]; intros s Hl Hk.
  - exists []. cbn [for_each]. unfold ret. rewrite extend_nil.
    repeat split.
  - cbn [for_each].
    destruct (pass_completes E v i s HF HR Hv (Hl i (or_introl eq_refl)))
      as (evs1 & H1 & Hm1 & Hr1).
    { apply Hk. rewrite rows_app. cbn. rewrite app_nil_r. lia. }
    rewrite (bind_ok _ _ _ _ _ H1).
    destruct (IH (extend s evs1)) as (evs2 & H2 & Hm2 & Hr2).
    { intros x Hx. apply Hl. right. exact Hx. }
    { intros h Hh. apply Hk. rewrite trace_extend, rows_app, length_app, Hr1 in Hh.
      cbn [List.length]. lia. }
    exists (evs1 ++ evs2). rewrite H2, extend_extend.
    split; [reflexivity|]. rewrite marks_app, rows_app, length_app, Hm1, Hm2, Hr1, Hr2.
    split; reflexivity.
Qed.

(** The passes of the inner loop when [q] is waiting at the poll of the
    pass number [j] (counted from 0). *)
Lemma passes_stopped (E : env) (v : Z) (c : ascii) (l : list pynum) :
  faultless E -> readbacks_verify E -> In v voltages -> is_q c = true ->
  forall s j,
    incl l currents -> (j < List.length l)%nat ->
    (forall h,
        (List.length (rows (trace s)) <= List.length (rows h)
         < List.length (rows (trace s)) + j)%nat ->
        key E h = None) ->
    (forall h,
        List.length (rows h) = (List.length (rows (trace s)) + j)%nat ->
        key E h = Some c) ->
    exists evs,
      for_each l (fun i => bind (ControlBoth.sweep_point E v i)
                     (fun _ => sleep E (ControlBoth.INTERVAL_S ControlBoth.shipped))) s
      = (Raise KeyboardInterrupt, extend s (evs ++ abort_ops))
      /\ marks evs = flat_map (pass_marks v) (firstn j l)
      /\ List.length (rows evs) = j.
Proof.
  intros HF HR Hv Hq. induction l as [|i l IH]; intros s j Hl Hj Hk Hc.
  - cbn in Hj. lia.
  - cbn [for_each]. destruct j as [|j].
    + exists []. rewrite bind_assoc.
      erewrite bind_raise.
      2:{ apply (sweep_point_abort E v i s c HF); [|exact Hq].
          apply Hc. rewrite rows_app. cbn. rewrite app_nil_r. lia. }
      repeat split.
    + destruct (pass_completes E v i s HF HR Hv (Hl i (or_introl eq_refl)))
        as (evs1 & H1 & Hm1 & Hr1).
      { apply Hk. rewrite rows_app. cbn. rewrite app_nil_r. lia. }
      rewrite (bind_ok _ _ _ _ _ H1).
      destruct (IH (extend s evs1) j) as (evs2 & H2 & Hm2 & Hr2).
      { intros x Hx. apply Hl. right. exact Hx. }
      { cbn in Hj. lia. }
      { intros h Hh. apply Hk.
        rewrite trace_extend, rows_app, length_app, Hr1 in Hh. lia. }
      { intros h Hh. apply Hc.
        rewrite trace_extend, rows_app, length_app, Hr1 in Hh. lia. }
      exists (evs1 ++ evs2). rewrite H2, extend_extend, <- app_assoc.
      split; [reflexivity|].
      rewrite marks_app, rows_app, length_app, Hm1, Hm2, Hr1, Hr2.
      split; reflexivity.
Qed.

Lemma setpoints_more_fuel (stop step : pynum) (fuel : nat) :
  forall (i_set : pynum) (l : list pynum) (m : nat),
    setpoints fuel stop step i_set = Ok l ->
    setpoints (fuel + m) stop step i_set = Ok l.
Proof.
  induction fuel as [|fuel IH]; intros i_set l m H; [discriminate|].
  cbn [setpoints Nat.add] in *. destruct (py_le i_set stop); [|exact H].
  destruct (py_add i_set step) as [i'| |]; try discriminate.
  cbn [rbind] in *.
  destruct (setpoints fuel stop step i') as [l'| |] eqn:Hl; try discriminate.
  rewrite (IH i' l' m Hl). exact H.
Qed.

Lemma shipped_current_sweep (E : env) (body : pynum -> M unit) (fuel : nat)
      (s : state) :
  (6 <= fuel)%nat ->
  ControlBoth.current_sweep E ControlBoth.shipped fuel body (PyInt 0) s
  = for_each currents
      (fun i => bind (body i)
                  (fun _ => sleep E (ControlBoth.INTERVAL_S ControlBoth.shipped))) s.
Proof.
  intros Hfuel. apply current_sweep_as_for_each.
  replace fuel with (6 + (fuel - 6))%nat by lia.
  apply setpoints_more_fuel. reflexivity.
Qed.

Lemma step_completes (E : env) (fuel : nat) (v : Z) (s : state) :
  faultless E -> readbacks_verify E -> In v voltages -> (6 <= fuel)%nat ->
  (forall h,
      (List.length (rows (trace s)) <= List.length (rows h)
       < List.length (rows (trace s)) + 5)%nat ->
      key E h = None) ->
  exists evs,
    voltage_step E fuel v s = (Ok tt, extend s evs)
    /\ marks evs = step_marks v
    /\ List.length (rows evs) = 5%nat.
Proof.
  intros HF HR Hv Hfuel Hk. unfold voltage_step. steps HF.
  destruct (passes_complete E v currents HF HR Hv
              (extend s [Send (Fmt "VOLTage " (PyInt v)); Sleep (PyFloat 1.5)])
              (incl_refl _)) as (evs & H & Hm & Hr).
  { intros h Hh. apply Hk. rewrite trace_extend, rows_app in Hh.
    cbn in Hh. rewrite app_nil_r in Hh. exact Hh. }
  erewrite bind_ok.
  2:{ rewrite shipped_current_sweep by exact Hfuel. exact H. }
  rewrite extend_extend, (print_ok _ _ _ (HF _)), extend_extend.
  eexists. split; [reflexivity|].
  rewrite !marks_app, !rows_app, !length_app, Hm, Hr.
  destruct Hv as [<-|[<-|[<-|[]]]]; split; reflexivity.
Qed.

Lemma step_stopped (E : env) (fuel : nat) (v : Z) (c : ascii) (s : state)
      (j : nat) :
  faultless E -> readbacks_verify E -> In v voltages -> (6 <= fuel)%nat ->
  is_q c = true -> (j < 5)%nat ->
  (forall h,
      (List.length (rows (trace s)) <= List.length (rows h)
       < List.length (rows (trace s)) + j)%nat ->
      key E h = None) ->
  (forall h,
      List.length (rows h) = (List.length (rows (trace s)) + j)%nat ->
      key E h = Some c) ->
  exists evs,
    voltage_step E fuel v s
    = (Raise KeyboardInterrupt, extend s (evs ++ abort_ops))
    /\ marks evs = SetVoltage v :: flat_map (pass_marks v) (firstn j currents)
    /\ List.length (rows evs) = j.
Proof.
  intros HF HR Hv Hfuel Hq Hj Hk Hc. unfold voltage_step. steps HF.
  destruct (passes_stopped E v c currents HF HR Hv Hq
              (extend s [Send (Fmt "VOLTage " (PyInt v)); Sleep (PyFloat 1.5)]) j
              (incl_refl _) Hj) as (evs & H & Hm & Hr).
  { intros h Hh. apply Hk. rewrite trace_extend, rows_app in Hh.
    cbn in Hh. rewrite app_nil_r in Hh. exact Hh. }
  { intros h Hh. apply Hc. rewrite trace_extend, rows_app in Hh.
    cbn in Hh. rewrite app_nil_r in Hh. exact Hh. }
  erewrite bind_raise.
  2:{ rewrite shipped_current_sweep by exact Hfuel. exact H. }
  rewrite extend_extend.
  exists ([Send (Fmt "VOLTage " (PyInt v)); Sleep (PyFloat 1.5)] ++ evs).
  rewrite <- app_assoc. split; [reflexivity|].
  rewrite marks_app, rows_app, length_app, Hm, Hr.
  destruct Hv as [<-|[<-|[<-|[]]]]; split; reflexivity.
Qed.

Lemma voltage_sweep_shipped (E : env) (fuel : nat) (s : state) :
  ControlBoth.voltage_sweep E ControlBoth.shipped fuel s
  = for_each voltages (voltage_step E fuel) s.
Proof. reflexivity. Qed.

Lemma sweep_completes (E : env) (fuel : nat) (s : state) :
  faultless E -> readbacks_verify E -> (6 <= fuel)%nat ->
  rows (trace s) = [] ->
  (forall h, (List.length (rows h) < 15)%nat -> key E h = None) ->
  exists evs,
    ControlBoth.voltage_sweep E ControlBoth.shipped fuel s = (Ok tt, extend s evs)
    /\ marks evs = sweep_marks
    /\ List.length (rows evs) = 15%nat.
Proof.
  intros HF HR Hfuel Hs Hk. rewrite voltage_sweep_shipped.
  unfold voltages. cbn [for_each].
  destruct (step_completes E fuel 100 s HF HR ltac:(cbn; tauto) Hfuel)
    as (e1 & H1 & Hm1 & Hr1).
  { intros h Hh. apply Hk. rewrite Hs in Hh. cbn in Hh. lia. }
  rewrite (bind_ok _ _ _ _ _ H1).
  destruct (step_completes E fuel 125 (extend s e1) HF HR ltac:(cbn; tauto) Hfuel)
    as (e2 & H2 & Hm2 & Hr2).
  { intros h Hh. apply Hk.
    rewrite trace_extend, rows_app, length_app, Hs, Hr1 in Hh. cbn in Hh. lia. }
  rewrite (bind_ok _ _ _ _ _ H2).
  destruct (step_completes E fuel 150 (extend (extend s e1) e2) HF HR
              ltac:(cbn; tauto) Hfuel)
    as (e3 & H3 & Hm3 & Hr3).
  { intros h Hh. apply Hk.
    rewrite !trace_extend, !rows_app, !length_app, Hs, Hr1, Hr2 in Hh.
    cbn in Hh. lia. }
  rewrite (bind_ok _ _ _ _ _ H3). unfold ret. rewrite !extend_extend.
  exists (e1 ++ e2 ++ e3). split; [reflexivity|].
  rewrite !marks_app, !rows_app, !length_app, Hm1, Hm2, Hm3, Hr1, Hr2, Hr3.
  split; reflexivity.
Qed.

Lemma sweep_stopped (E : env) (fuel : nat) (c : ascii) (s : state) (a j : nat) :
  faultless E -> readbacks_verify E -> (6 <= fuel)%nat -> is_q c = true ->
  rows (trace s) = [] ->
  (a < 3)%nat -> (j < 5)%nat ->
  (forall h, (List.length (rows h) < 5 * a + j)%nat -> key E h = None) ->
  (forall h, List.length (rows h) = (5 * a + j)%nat -> key E h = Some c) ->
  exists evs,
    ControlBoth.voltage_sweep E ControlBoth.shipped fuel s
    = (Raise KeyboardInterrupt, extend s (evs ++ abort_ops))
    /\ marks evs
       = flat_map step_marks (firstn a voltages)
         ++ SetVoltage (nth a voltages 0)
            :: flat_map (pass_marks (nth a voltages 0)) (firstn j currents)
    /\ List.length (rows evs) = (5 * a + j)%nat.
Proof.
  intros HF HR Hfuel Hq Hs Ha Hj Hk Hc. rewrite voltage_sweep_shipped.
  unfold voltages. cbn [for_each].
  destruct a as [|[|[|a]]]; [| | |lia].
  - destruct (step_stopped E fuel 100 c s j HF HR ltac:(cbn; tauto) Hfuel Hq Hj)
      as (e1 & H1 & Hm1 & Hr1).
    { intros h Hh. apply Hk. rewrite Hs in Hh. cbn in Hh. lia. }
    { intros h Hh. apply Hc. rewrite Hs in Hh. cbn in Hh. lia. }
    rewrite (bind_raise _ _ _ _ _ H1). exists e1.
    split; [reflexivity|]. rewrite Hm1, Hr1. split; [reflexivity|lia].
  - destruct (step_completes E fuel 100 s HF HR ltac:(cbn; tauto) Hfuel)
      as (e1 & H1 & Hm1 & Hr1).
    { intros h Hh. apply Hk. rewrite Hs in Hh. cbn in Hh. lia. }
    rewrite (bind_ok _ _ _ _ _ H1).
    destruct (step_stopped E fuel 125 c (extend s e1) j HF HR ltac:(cbn; tauto)
                Hfuel Hq Hj) as (e2 & H2 & Hm2 & Hr2).
    { intros h Hh. apply Hk.
      rewrite trace_extend, rows_app, length_app, Hs, Hr1 in Hh. cbn in Hh. lia. }
    { intros h Hh. apply Hc.
      rewrite trace_extend, rows_app, length_app, Hs, Hr1 in Hh. cbn in Hh. lia. }
    rewrite (bind_raise _ _ _ _ _ H2), extend_extend, app_assoc.
    exists (e1 ++ e2). split; [reflexivity|].
    rewrite marks_app, rows_app, length_app, Hm1, Hm2, Hr1, Hr2.
    split; [cbn [firstn flat_map nth]; rewrite app_nil_r; reflexivity|lia].
  - destruct (step_completes E fuel 100 s HF HR ltac:(cbn; tauto) Hfuel)
      as (e1 & H1 & Hm1 & Hr1).
    { intros h Hh. apply Hk. rewrite Hs in Hh. cbn in Hh. lia. }
    rewrite (bind_ok _ _ _ _ _ H1).
    destruct (step_completes E fuel 125 (extend s e1) HF HR ltac:(cbn; tauto) Hfuel)
      as (e2 & H2 & Hm2 & Hr2).
    { intros h Hh. apply Hk.
      rewrite trace_extend, rows_app, length_app, Hs, Hr1 in Hh. cbn in Hh. lia. }
    rewrite (bind_ok _ _ _ _ _ H2).
    destruct (step_stopped E fuel 150 c (extend (extend s e1) e2) j HF HR
                ltac:(cbn; tauto) Hfuel Hq Hj) as (e3 & H3 & Hm3 & Hr3).
    { intros h Hh. apply Hk.
      rewrite !trace_extend, !rows_app, !length_app, Hs, Hr1, Hr2 in Hh.
      cbn in Hh. lia. }
    { intros h Hh. apply Hc.
      rewrite !trace_extend, !rows_app, !length_app, Hs, Hr1, Hr2 in Hh.
      cbn in Hh. lia. }
    rewrite (bind_raise _ _ _ _ _ H3), !extend_extend, !app_assoc.
    exists ((e1 ++ e2) ++ e3). split; [reflexivity|].
    rewrite !marks_app, !rows_app, !length_app, Hm1, Hm2, Hm3, Hr1, Hr2, Hr3.
    split; [cbn [firstn flat_map nth]; rewrite app_nil_r, <- app_assoc; reflexivity|lia].
Qed.

Lemma safety_lines_unmarked (outs : list output) :
  forallb is_safety_line outs = true ->
  marks (map Print outs) = [] /\ rows (map Print outs) = [].
Proof.
  induction outs as [|o outs IH]; [split; reflexivity|].
  cbn [forallb]. intros H. apply andb_prop in H as [Ho Hs].
  destruct (IH Hs) as [IH1 IH2]. cbn [map].
  change (Print o :: map Print outs) with ([Print o] ++ map Print outs).
  rewrite marks_app, rows_app, IH1, IH2.
  destruct o; try discriminate; split; reflexivity.
Qed.

Lemma set_simulator_socket_ok (v : option socket) (s : state) :
  set_simulator_socket v s
  = (Ok tt, {| trace := trace s; simulator_socket := v;
               load_instrument := load_instrument s |}).
Proof. reflexivity. Qed.

Lemma set_load_instrument_ok (v : option resource) (s : state) :
  set_load_instrument v s
  = (Ok tt, {| trace := trace s; simulator_socket := simulator_socket s;
               load_instrument := v |}).
Proof. reflexivity. Qed.

(** The setup of the shipped script, up to the start of the sweep. *)
Lemma setup_completes (E : env) (fuel : nat) :
  faultless E -> status_accepted E ->
  exists pre,
    marks pre = [] /\ rows pre = []
    /\ ControlBoth.run E ControlBoth.shipped fuel initial
       = bind (ControlBoth.voltage_sweep E ControlBoth.shipped fuel)
              (fun _ => print E (Say "--- Sweep Completed Successfully ---"))
              (sweeping pre).
Proof.
  intros HF HS. unfold ControlBoth.run.
  destruct (connect_grid_simulator_ok E ControlBoth.shipped
              (ControlBoth.SIMULATOR_HOST ControlBoth.shipped)
              (ControlBoth.SIMULATOR_PORT ControlBoth.shipped) initial HF)
    as (outs & Hsim & Hlines).
  rewrite (bind_ok _ _ _ _ _ Hsim).
  rewrite (bind_ok _ _ _ _ _ (set_simulator_socket_ok _ _)).
  erewrite bind_ok.
  2:{ apply connect_electronic_load_accepted; [exact HF|].
      unfold load_setup_ops.
      match goal with
      | |- context [received E (?h ++ ?l)] =>
          replace (h ++ l) with ((h ++ removelast l) ++ [Query (Lit "SYSTem:ERRor?")])
      end.
      - apply HS.
      - rewrite <- app_assoc. reflexivity. }
  rewrite (bind_ok _ _ _ _ _ (set_load_instrument_ok _ _)).
  steps HF.
  destruct (safety_lines_unmarked outs Hlines) as [Hm Hr].
  eexists. split; [|split; [|unfold sweeping, extend; cbn [trace simulator_socket load_instrument initial app]; reflexivity]].
  - rewrite !marks_app, Hm. reflexivity.
  - rewrite !rows_app, Hr. reflexivity.
Qed.

(** ** C6: the course of the shipped sweep when nothing fails *)

Lemma main_completes (E : env) (fuel : nat) :
  faultless E -> status_accepted E -> readbacks_verify E ->
  (forall h, key E h = None) -> (6 <= fuel)%nat ->
  exists pre evs,
    marks pre = [] /\ marks evs = sweep_marks
    /\ List.length (rows pre) = 0%nat /\ List.length (rows evs) = 15%nat
    /\ ControlBoth.main E ControlBoth.shipped fuel initial
       = (Ok tt,
          extend (sweeping pre)
            (evs ++ [Print (Say "--- Sweep Completed Successfully ---")]
                 ++ shutdown_plan (Some Sock) (Some Inst))).
Proof.
  intros HF HS HR HK Hfuel.
  destruct (setup_completes E fuel HF HS) as (pre & Hmp & Hrp & Hrun).
  destruct (sweep_completes E fuel (sweeping pre) HF HR Hfuel Hrp
              (fun h _ => HK h)) as (evs & Hsw & Hme & Hre).
  exists pre, evs. rewrite Hrp. repeat (split; [assumption || reflexivity|]).
  unfold ControlBoth.main.
  erewrite try_finally_ok.
  - reflexivity.
  - unfold try_except. rewrite Hrun, (bind_ok _ _ _ _ _ Hsw).
    rewrite (print_ok _ _ _ (HF _)), extend_extend. reflexivity.
  - rewrite shutdown_as_plan, attempts_faultless by exact HF.
    rewrite extend_extend, <- app_assoc. reflexivity.
Qed.

(** C6: in a run of the shipped configuration in which nothing raises,
    the keyboard is silent, the load reports no error and every readback
    is within the tolerance, the outer loop takes the voltages 100, 125,
    150 and, for each, the inner loop takes the currents 0, 2.5, 5, 7.5,
    10; the run sets each voltage, then polls, sets and shows each of its
    five currents in turn, so that fifteen rows are shown, in the order of
    the combinations with the voltage varying slowest, and the completion
    message comes after the last of them, followed by the shutdown. *)
Theorem C6_shipped_sweep_course (E : env) (fuel : nat) :
  faultless E -> status_accepted E -> readbacks_verify E ->
  (forall h, key E h = None) -> (6 <= fuel)%nat ->
  range 100 (150 + 1) 25 = Ok [100; 125; 150]
  /\ setpoints fuel (PyInt 10) (PyFloat 2.5) (PyInt 0)
     = Ok [PyInt 0; PyFloat 2.5; PyFloat 5; PyFloat 7.5; PyFloat 10]
  /\ fst (ControlBoth.main E ControlBoth.shipped fuel initial) = Ok tt
  /\ marks (trace (snd (ControlBoth.main E ControlBoth.shipped fuel initial)))
     = sweep_marks ++ [Completed; ShutdownBegins]
  /\ List.length
       (rows (trace (snd (ControlBoth.main E ControlBoth.shipped fuel initial))))
     = 15%nat
  /\ sweep_marks
     = [ SetVoltage 100;
         Poll; SetCurrent (PyInt 0); Shown 100 0;
         Poll; SetCurrent (PyFloat 2.5); Shown 100 2.5;
         Poll; SetCurrent (PyFloat 5); Shown 100 5;
         Poll; SetCurrent (PyFloat 7.5); Shown 100 7.5;
         Poll; SetCurrent (PyFloat 10); Shown 100 10;
         SetVoltage 125;
         Poll; SetCurrent (PyInt 0); Shown 125 0;
         Poll; SetCurrent (PyFloat 2.5); Shown 125 2.5;
         Poll; SetCurrent (PyFloat 5); Shown 125 5;
         Poll; SetCurrent (PyFloat 7.5); Shown 125 7.5;
         Poll; SetCurrent (PyFloat 10); Shown 125 10;
         SetVoltage 150;
         Poll; SetCurrent (PyInt 0); Shown 150 0;
         Poll; SetCurrent (PyFloat 2.5); Shown 150 2.5;
         Poll; SetCurrent (PyFloat 5); Shown 150 5;
         Poll; SetCurrent (PyFloat 7.5); Shown 150 7.5;
         Poll; SetCurrent (PyFloat 10); Shown 150 10 ].
Proof.
  intros HF HS HR HK Hfuel.
  destruct (main_completes E fuel HF HS HR HK Hfuel)
    as (pre & evs & Hmp & Hme & Hrp & Hre & Hmain).
  rewrite Hmain. cbn [fst snd]. rewrite trace_extend.
  change (trace (sweeping pre)) with pre.
  split; [reflexivity|]. split.
  { replace fuel with (6 + (fuel - 6))%nat by lia.
    apply setpoints_more_fuel. reflexivity. }
  split; [reflexivity|]. split; [|split; [|reflexivity]].
  - rewrite !marks_app, Hmp, Hme. reflexivity.
  - rewrite !rows_app, !length_app, Hrp, Hre. reflexivity.
Qed.

(** ** C5: the stop request *)

Lemma main_stopped (E : env) (fuel : nat) (c : ascii) (a j : nat) :
  faultless E -> status_accepted E -> readbacks_verify E ->
  (6 <= fuel)%nat -> is_q c = true -> (a < 3)%nat -> (j < 5)%nat ->
  (forall h, (List.length (rows h) < 5 * a + j)%nat -> key E h = None) ->
  (forall h, List.length (rows h) = (5 * a + j)%nat -> key E h = Some c) ->
  exists pre,
    marks pre
    = flat_map step_marks (firstn a voltages)
      ++ SetVoltage (nth a voltages 0)
         :: flat_map (pass_marks (nth a voltages 0)) (firstn j currents)
    /\ List.length (rows pre) = (5 * a + j)%nat
    /\ ControlBoth.main E ControlBoth.shipped fuel initial
       = (Ok tt,
          extend (sweeping pre)
            (abort_ops
             ++ [Print (Say "User interrupted the test. Proceeding to save and shut down.")]
             ++ shutdown_plan (Some Sock) (Some Inst))).
Proof.
  intros HF HS HR Hfuel Hq Ha Hj Hk Hc.
  destruct (setup_completes E fuel HF HS) as (pre & Hmp & Hrp & Hrun).
  destruct (sweep_stopped E fuel c (sweeping pre) a j HF HR Hfuel Hq Hrp
              Ha Hj Hk Hc) as (evs & Hsw & Hme & Hre).
  exists (pre ++ evs). rewrite marks_app, rows_app, length_app, Hmp, Hrp, Hme, Hre.
  split; [reflexivity|]. split; [reflexivity|].
  unfold ControlBoth.main.
  erewrite try_finally_ok.
  - reflexivity.
  - erewrite try_except_raise.
    + apply print_ok, HF.
    + rewrite Hrun. apply bind_raise. exact Hsw.
    + reflexivity.
  - rewrite shutdown_as_plan, attempts_faultless by exact HF.
    rewrite !extend_extend. unfold extend, sweeping.
    cbn [trace simulator_socket load_instrument].
    rewrite <- !app_assoc. reflexivity.
Qed.

(** Whatever the world does, a pass of the inner loop body polls the
    keyboard first, and only once. *)
Lemma pass_polls_once (E : env) (v_set : Z) (i_set : pynum) (s : state) :
  exists evs,
    snd (ControlBoth.sweep_point E v_set i_set s) = extend s (KbHit :: evs)
    /\ existsb is_poll evs = false.
Proof.
  unfold ControlBoth.sweep_point, ControlBoth.measure, q_pressed.
  cbv [bind attempt obtain print sleep ret raise lift log].
  cbn [trace simulator_socket load_instrument].
  split_run.
  all: cbn [snd fst]; unfold extend; cbn [trace];
    repeat rewrite <- app_assoc; cbn [app].
  all: eexists; (split; [reflexivity|reflexivity]).
Qed.

(** C5, as stated, fails when the stop is requested after the last
    current of a voltage: with [q] pressed once the fifth combination
    (100, 10) is complete, the voltage setpoint 125 of the later
    combinations is sent before the keyboard is polled again. *)
Lemma C5_next_voltage_is_set_before_the_poll :
  fst (stopped_run 5) = Ok tt
  /\ marks (trace (snd (stopped_run 5)))
     = [ SetVoltage 100;
         Poll; SetCurrent (PyInt 0); Shown 100 0;
         Poll; SetCurrent (PyFloat 2.5); Shown 100 2.5;
         Poll; SetCurrent (PyFloat 5); Shown 100 5;
         Poll; SetCurrent (PyFloat 7.5); Shown 100 7.5;
         Poll; SetCurrent (PyFloat 10); Shown 100 10;
         SetVoltage 125;
         Poll; KeyRead; HardStop; Interrupted; ShutdownBegins ].
Proof. vm_compute. split; reflexivity. Qed.

(** A stop requested once the last combination is complete is never seen:
    no poll follows, and the sweep reports its completion. *)
Lemma stop_after_last_pass_is_not_seen :
  marks (trace (snd (stopped_run 15))) = sweep_marks ++ [Completed; ShutdownBegins].
Proof. vm_compute. reflexivity. Qed.

(** C5 (amended): the keyboard is polled once per pass of the inner loop,
    as the first operation of the pass.  In a run of the shipped
    configuration in which nothing raises, when [q] is found waiting at the
    poll that follows [k] completed combinations (k from 0 to 14), the run
    has until then set, polled and shown exactly as the complete sweep does
    before its poll number k + 1 (this includes the voltage setpoint of
    the next voltage when the completed combination was the last of its
    voltage); from that poll on it only reads the key, prints the stop
    message and the message of the user interruption (no error is
    reported), and runs the shutdown: no current setpoint, readback or
    measurement is issued for a later combination. *)
Theorem C5_stop_request_at_a_poll (E : env) (fuel : nat) (k : nat) (c : ascii) :
  faultless E -> status_accepted E -> readbacks_verify E ->
  (6 <= fuel)%nat -> is_q c = true -> (k <= 14)%nat ->
  (forall h, (List.length (rows h) < k)%nat -> key E h = None) ->
  (forall h, List.length (rows h) = k -> key E h = Some c) ->
  (forall v_set i_set s,
      exists evs,
        snd (ControlBoth.sweep_point E v_set i_set s) = extend s (KbHit :: evs)
        /\ existsb is_poll evs = false)
  /\ fst (ControlBoth.main E ControlBoth.shipped fuel initial) = Ok tt
  /\ exists pre,
       trace (snd (ControlBoth.main E ControlBoth.shipped fuel initial))
       = pre ++ abort_ops
             ++ [Print (Say "User interrupted the test. Proceeding to save and shut down.")]
             ++ shutdown_plan (Some Sock) (Some Inst)
       /\ marks pre = before_poll (S k) sweep_marks
       /\ List.length (rows pre) = k.
Proof.
  intros HF HS HR Hfuel Hq Hk Hquiet Hkey.
  split; [intros v_set i_set s; apply pass_polls_once|].
  assert (Hsplit : exists a j, (a < 3)%nat /\ (j < 5)%nat /\ k = (5 * a + j)%nat).
  { exists (k / 5)%nat, (k mod 5)%nat.
    pose proof (Nat.div_mod_eq k 5) as Hdm.
    pose proof (Nat.mod_upper_bound k 5 ltac:(lia)) as Hmod.
    repeat split; lia. }
  destruct Hsplit as (a & j & Ha & Hj & ->).
  destruct (main_stopped E fuel c a j HF HS HR Hfuel Hq Ha Hj Hquiet Hkey)
    as (pre & Hm & Hr & Hmain).
  rewrite Hmain. cbn [fst snd]. split; [reflexivity|].
  exists pre. split; [reflexivity|]. split; [|exact Hr].
  rewrite Hm. clear -Ha Hj.
  destruct a as [|[|[|a]]]; [| | |lia];
    (destruct j as [|[|[|[|[|j]]]]]; [| | | | |lia]); reflexivity.
Qed.

(** The bench is a world as the theorems on the sweep ask for. *)
Lemma bench_faultless (readback : pynum -> string) (measured : string)
      (keys : list event -> option ascii) :
  faultless (bench readback measured keys).
Proof. intros h. reflexivity. Qed.

Lemma bench_status_accepted (readback : pynum -> string) (measured : string)
      (keys : list event -> option ascii) :
  status_accepted (bench readback measured keys).
Proof.
  intros h. cbn [received bench]. rewrite rev_unit.
  unfold status_rejected. intros (_ & _ & H). discriminate H.
Qed.

Lemma bench_readbacks_verify (measured : string)
      (keys : list event -> option ascii) :
  readbacks_verify (bench show measured keys).
Proof.
  intros h i peak Hi Hp. cbn [received bench].
  unfold point_prefix. rewrite rev_app_distr. cbn [rev app].
  repeat (destruct Hi as [<-|Hi];
          [eexists; split; vm_compute; reflexivity|]).
  destruct Hi.
Qed.

Lemma C6_shipped_sweep_course_witness :
  fst (ControlBoth.main (bench show "120.1" (fun _ => None))
                        ControlBoth.shipped 6 initial) = Ok tt
  /\ List.length
       (rows (trace (snd (ControlBoth.main (bench show "120.1" (fun _ => None))
                                           ControlBoth.shipped 6 initial))))
     = 15%nat.
Proof.
  pose proof (C6_shipped_sweep_course
                (bench show "120.1" (fun _ => None)) 6
                (bench_faultless _ _ _) (bench_status_accepted _ _ _)
                (bench_readbacks_verify _ _) (fun _ => eq_refl) (le_n 6)) as H.
  split; [exact (proj1 (proj2 (proj2 H)))
         | exact (proj1 (proj2 (proj2 (proj2 (proj2 H)))))].
Defined.

Lemma C5_stop_request_at_a_poll_witness :
  fst (stopped_run 7) = Ok tt
  /\ exists pre,
       trace (snd (stopped_run 7))
       = pre ++ abort_ops
             ++ [Print (Say "User interrupted the test. Proceeding to save and shut down.")]
             ++ shutdown_plan (Some Sock) (Some Inst)
       /\ marks pre = before_poll 8 sweep_marks
       /\ List.length (rows pre) = 7%nat.
Proof.
  apply (C5_stop_request_at_a_poll (bench show "120.1" (q_after 7)) 6 7 "q"%char
           (bench_faultless _ _ _) (bench_status_accepted _ _ _)
           (bench_readbacks_verify _ _) (le_n 6) eq_refl).
  - lia.
  - intros h Hh. cbn [key bench]. unfold q_after.
    destruct (Nat.eqb_spec (List.length (rows h)) 7); [lia|reflexivity].
  - intros h Hh. cbn [key bench]. unfold q_after. rewrite Hh. reflexivity.
Defined.

(** ** What a query returns, whatever was received *)

Lemma remove_absent (c : ascii) (s : string) :
  ~ In c (chars s) -> remove c s = s.
Proof.
  induction s as [|d r IH]; simpl; [reflexivity|].
  intros H. destruct (Ascii.eqb_spec d c) as [->|Hd].
  - exfalso. apply H. left. reflexivity.
  - rewrite IH; [reflexivity|]. intros Hr. apply H. right. exact Hr.
Qed.

Lemma remove_gone (c : ascii) (s : string) : ~ In c (chars (remove c s)).
Proof.
  rewrite remove_chars. intros H. apply filter_In in H as [_ H].
  rewrite Ascii.eqb_refl in H. discriminate.
Qed.

Lemma remove_length (c : ascii) (s : string) :
  (String.length (remove c s) <= String.length s)%nat.
Proof.
  induction s as [|d r IH]; simpl; [lia|].
  destruct (Ascii.eqb d c); simpl; lia.
Qed.

Lemma lstrip_length (s : string) :
  (String.length (lstrip s) <= String.length s)%nat.
Proof.
  induction s as [|c r IH]; simpl; [lia|].
  destruct (isspace c); simpl; lia.
Qed.

Lemma rstrip_length (s : string) :
  (String.length (rstrip s) <= String.length s)%nat.
Proof.
  induction s as [|c r IH]; simpl; [lia|].
  destruct (rstrip r); [destruct (isspace c)|]; simpl in *; lia.
Qed.

Lemma strip_length (s : string) :
  (String.length (strip s) <= String.length s)%nat.
Proof.
  unfold strip. pose proof (rstrip_length (lstrip s)).
  pose proof (lstrip_length s). lia.
Qed.

Lemma lstrip_starts_clean (s : string) : starts_clean (lstrip s) = true.
Proof.
  induction s as [|c r IH]; simpl; [reflexivity|].
  destruct (isspace c) eqn:Hc; [exact IH|]. simpl. rewrite Hc. reflexivity.
Qed.

Lemma rstrip_ends_clean (s : string) : ends_clean (rstrip s) = true.
Proof.
  induction s as [|c r IH]; simpl; [reflexivity|].
  destruct (rstrip r) as [|d r'] eqn:Hr.
  - destruct (isspace c) eqn:Hc; simpl; [reflexivity|]. rewrite Hc. reflexivity.
  - exact IH.
Qed.

Lemma rstrip_starts_clean (s : string) :
  starts_clean s = true -> starts_clean (rstrip s) = true.
Proof.
  destruct s as [|c r]; simpl; [reflexivity|].
  intros Hc. destruct (rstrip r); [|exact Hc].
  destruct (isspace c) eqn:Hs; [discriminate|]. simpl. rewrite Hs. reflexivity.
Qed.

Lemma strip_clean (s : string) :
  starts_clean (strip s) = true /\ ends_clean (strip s) = true.
Proof.
  unfold strip. split.
  - apply rstrip_starts_clean, lstrip_starts_clean.
  - apply rstrip_ends_clean.
Qed.

Lemma strip_fixed (s : string) :
  starts_clean s = true -> ends_clean s = true -> strip s = s.
Proof.
  intros Hs He. unfold strip. rewrite (lstrip_clean s Hs). apply rstrip_clean, He.
Qed.

Lemma lstrip_suffix (s : string) :
  forall c, In c (chars (lstrip s)) -> In c (chars s).
Proof.
  induction s as [|d r IH]; simpl; [tauto|].
  intros c. destruct (isspace d); [|tauto].
  intros H. right. apply IH, H.
Qed.

Lemma rstrip_prefix (s : string) :
  forall c, In c (chars (rstrip s)) -> In c (chars s).
Proof.
  induction s as [|d r IH]; simpl; [tauto|].
  intros c. destruct (rstrip r) as [|e r'] eqn:Hr.
  - destruct (isspace d); simpl; tauto.
  - simpl. intros [H|H]; [left; exact H|right; apply IH; exact H].
Qed.

Lemma strip_keeps_absent (c : ascii) (s : string) :
  ~ In c (chars s) -> ~ In c (chars (strip s)).
Proof.
  intros H Hin. apply H. unfold strip in Hin.
  apply lstrip_suffix, rstrip_prefix, Hin.
Qed.

Lemma send_query_result (E : env) (sock : socket) (q : string) (s : state)
      (r : string) :
  fst (NHR.send_query E sock q s) = Ok r ->
  r = remove NUL (strip (received E (trace s ++ [Send (Lit q); Recv 4096])))
  /\ snd (NHR.send_query E sock q s) = extend s [Send (Lit q); Recv 4096].
Proof.
  destruct (fault E (trace s ++ [Send (Lit q)])) as [x|] eqn:H1.
  { unfold NHR.send_query.
    rewrite (bind_raise _ _ _ _ _ (attempt_raise _ _ _ _ H1)). discriminate. }
  destruct (fault E (trace s ++ [Send (Lit q); Recv 4096])) as [x|] eqn:H2.
  { unfold NHR.send_query. rewrite (bind_ok _ _ _ _ _ (attempt_ok _ _ _ H1)).
    unfold bind, obtain, log. cbn [trace extend]. rewrite <- app_assoc.
    cbn [app]. rewrite H2. discriminate. }
  rewrite (send_query_ok E sock q s H1 H2). cbn [fst snd].
  intros H. injection H as <-. split; reflexivity.
Qed.

(** X1: whatever text is received, the text a query of either script
    returns contains no null character and is not longer than the text
    received; when the text received contains no null character, the
    result neither begins nor ends with whitespace, and cleaning it once
    more changes nothing. *)
Theorem X1_query_result_is_clean
        (E : env) (sock : socket) (q : string) (s : state) (r : string) :
  fst (ControlBoth.send_query_socket E sock q s) = Ok r ->
  let raw := received E (trace s ++ [Send (Lit q); Recv 4096]) in
  fst (NHR.send_query E sock q s) = Ok r
  /\ ~ In NUL (chars r)
  /\ (String.length r <= String.length raw)%nat
  /\ (~ In NUL (chars raw) ->
      r = strip raw
      /\ starts_clean r = true /\ ends_clean r = true
      /\ remove NUL (strip r) = r).
Proof.
  intros H raw. rewrite send_query_socket_eq in H.
  destruct (send_query_result E sock q s r H) as [Hr _]. fold raw in Hr.
  split; [exact H|]. split; [|split].
  - rewrite Hr. apply remove_gone.
  - rewrite Hr. pose proof (remove_length NUL (strip raw)).
    pose proof (strip_length raw). lia.
  - intros Hraw. pose proof (strip_keeps_absent NUL raw Hraw) as Hs.
    rewrite (remove_absent _ _ Hs) in Hr. subst r.
    destruct (strip_clean raw) as [H1 H2].
    repeat split; try assumption.
    rewrite (strip_fixed _ H1 H2). apply remove_absent, Hs.
Qed.

Lemma X1_query_result_is_clean_witness :
  let r := ("12" ++ String LF "5")%string in
  fst (NHR.send_query
         (answering (" 12" ++ String NUL (String LF ("5" ++ CRLF))))
         Sock "MEASure:VOLTage?" initial) = Ok r
  /\ ~ In NUL (chars r).
Proof.
  intros r.
  pose proof (X1_query_result_is_clean
                (answering (" 12" ++ String NUL (String LF ("5" ++ CRLF))))
                Sock "MEASure:VOLTage?" initial r eq_refl) as H.
  cbv zeta in H. split; [exact (proj1 H) | exact (proj1 (proj2 H))].
Defined.

(** ** The table of safety limits *)

Lemma split_length (sep : ascii) (s : string) :
  List.length (split sep s) = S (count_char sep s).
Proof.
  induction s as [|c r IH]; simpl; [reflexivity|].
  destruct (Ascii.eqb c sep); simpl; [rewrite IH; reflexivity|].
  destruct (split sep r); simpl in *; [discriminate|exact IH].
Qed.

Lemma safety_table_lines (E : env) (l : list (string * string)) (s : state) :
  faultless E ->
  for_each l (fun '(lbl, val) =>
    try_except
      (bind (lift (py_float (VStr val)))
            (fun f => print E (SafetyValue lbl f)))
      (fun e =>
         match e with
         | ValueError => Some (print E (SafetyText lbl (strip val)))
         | _ => None
         end)) s
  = (Ok tt, extend s (map Print (map (fun '(lbl, val) => safety_line lbl val) l))).
Proof.
  intros HF. revert s. induction l as [|[lbl val] l IH]; intros s.
  - simpl. rewrite extend_nil. reflexivity.
  - cbn [for_each map].
    rewrite (bind_ok _ _ s (extend s [Print (safety_line lbl val)]) tt).
    + rewrite IH, extend_extend. reflexivity.
    + unfold try_except, bind, lift, py_float, print, safety_line.
      destruct (float_of_str val) as [f|]; rewrite (attempt_ok _ _ _ (HF _));
        reflexivity.
Qed.

Lemma map_label_of_lines (ls vs : list string) :
  List.length ls = List.length vs ->
  map label_of (map (fun '(lbl, val) => safety_line lbl val) (combine ls vs)) = ls.
Proof.
  revert vs. induction ls as [|l ls IH]; intros [|v vs] H; try discriminate;
    [reflexivity|].
  cbn [combine map]. rewrite IH by (simpl in H; lia).
  f_equal. unfold safety_line. destruct (float_of_str v); reflexivity.
Qed.

(** X2: when no operation raises, [print_safety_limits] sends the one
    query, prints the heading, and then: when the cleaned response holds
    exactly 15 commas (16 fields), one line for each of the 16 labels, in
    the order of the labels, the line of the k-th label showing the k-th
    field as a number when [float] accepts it and as its stripped text
    otherwise (a field that is no number raises nothing); and for any
    other number of fields, the single line of the unexpected response with
    the whole cleaned response. *)
Theorem X2_safety_limits_table (E : env) (sock : socket) (s : state) :
  faultless E ->
  let settings_str :=
    remove NUL (strip (received E
      (trace s ++ [Send (Lit "SOURce:SAFety?"); Recv 4096]))) in
  ControlBoth.print_safety_limits E sock s
  = (Ok tt,
     extend s ([Send (Lit "SOURce:SAFety?"); Recv 4096;
                Print (Say "--- Safety Limits ---")]
               ++ map Print (safety_report settings_str)))
  /\ (count_char "," settings_str = 15%nat ->
      map label_of (safety_report settings_str) = ControlBoth.labels
      /\ forall k lbl val,
           nth_error ControlBoth.labels k = Some lbl ->
           nth_error (split "," settings_str) k = Some val ->
           nth_error (safety_report settings_str) k
           = Some (match py_float (VStr val) with
                   | Ok f => SafetyValue lbl f
                   | _ => SafetyText lbl (strip val)
                   end))
  /\ (count_char "," settings_str <> 15%nat ->
      safety_report settings_str = [Unexpected settings_str]).
Proof.
  intros HF settings_str. split; [|split].
  - unfold ControlBoth.print_safety_limits.
    rewrite (bind_ok _ _ _ _ _ (send_query_ok E sock _ s (HF _) (HF _))).
    fold settings_str. cbv zeta. steps HF.
    rewrite split_length. unfold safety_report.
    change (S (count_char "," settings_str) =? 16)%nat
      with (count_char "," settings_str =? 15)%nat.
    destruct (count_char "," settings_str =? 15)%nat.
    + rewrite safety_table_lines by exact HF. rewrite extend_extend. reflexivity.
    + rewrite (print_ok _ _ _ (HF _)), extend_extend. reflexivity.
  - intros H15. unfold safety_report. rewrite H15. cbn [Nat.eqb].
    split.
    + apply map_label_of_lines. rewrite split_length, H15. reflexivity.
    + intros k lbl val Hl Hv.
      rewrite nth_error_map.
      assert (Hc : nth_error (combine ControlBoth.labels (split "," settings_str)) k
                   = Some (lbl, val)).
      { clear -Hl Hv. revert k Hl Hv.
        generalize (split "," settings_str) as vs.
        generalize ControlBoth.labels as ls.
        induction ls as [|l ls IH]; intros [|v vs] [|k] Hl Hv;
          try discriminate; cbn in *.
        - congruence.
        - apply IH; assumption. }
      rewrite Hc. cbn [option_map]. unfold safety_line, py_float.
      destruct (float_of_str val); reflexivity.
  - intros H15. unfold safety_report.
    destruct (Nat.eqb_spec (count_char "," settings_str) 15); [contradiction|].
    reflexivity.
Qed.

Lemma X2_safety_limits_table_witness :
  let E := answering "264.0,373.0,45,65,30,90,1,1,4000,4000,4000,1,3,n/a ,90,0" in
  exists outs,
    ControlBoth.print_safety_limits E Sock initial
    = (Ok tt,
       extend initial ([Send (Lit "SOURce:SAFety?"); Recv 4096;
                        Print (Say "--- Safety Limits ---")] ++ map Print outs))
    /\ nth_error outs 0 = Some (SafetyValue "Max RMS Voltage (V)" 264)
    /\ nth_error outs 13 = Some (SafetyText "Max Harmonics Order" "n/a")
    /\ List.length outs = 16%nat.
Proof.
  intros E. eexists. split.
  - exact (proj1 (X2_safety_limits_table E Sock initial (fun _ => eq_refl))).
  - vm_compute. repeat split.
Defined.

(** ** What a script attempts, whatever the world does *)

Lemma count_app (P : event -> bool) (a b : list event) :
  count P (a ++ b) = (count P a + count P b)%nat.
Proof. unfold count. rewrite filter_app, length_app. reflexivity. Qed.

Lemma count_prints (P : event -> bool) (outs : list output) :
  (forall o, P (Print o) = false) -> count P (map Print outs) = 0%nat.
Proof.
  intros H. induction outs as [|o outs IH]; [reflexivity|].
  unfold count in *. cbn [map filter]. rewrite H. exact IH.
Qed.

Lemma count_none_In (P : event -> bool) (evs : list event) (e : event) :
  count P evs = 0%nat -> In e evs -> P e = false.
Proof.
  unfold count. intros H Hin. destruct (P e) eqn:He; [|reflexivity].
  assert (Hf : In e (filter P evs)) by (apply filter_In; split; assumption).
  destruct (filter P evs); [destruct Hf | discriminate].
Qed.

Lemma within_weaken {A : Type} (P : event -> bool) (n n' : nat) (m : M A) :
  within P n m -> (n <= n')%nat -> within P n' m.
Proof.
  intros H Hn s. destruct (H s) as (evs & Hs & Hc).
  exists evs. split; [exact Hs | lia].
Qed.

Lemma within_ret {A : Type} (P : event -> bool) (a : A) : within P 0 (ret a).
Proof. intros s. exists []. cbn. rewrite extend_nil. split; [reflexivity|lia]. Qed.

Lemma within_raise {A : Type} (P : event -> bool) (x : exn) :
  within P 0 (@raise A x).
Proof. intros s. exists []. cbn. rewrite extend_nil. split; [reflexivity|lia]. Qed.

Lemma within_lift {A : Type} (P : event -> bool) (r : result A) :
  within P 0 (lift r).
Proof. intros s. exists []. cbn. rewrite extend_nil. split; [reflexivity|lia]. Qed.

Lemma within_out_of_fuel {A : Type} (P : event -> bool) :
  within P 0 (@out_of_fuel A).
Proof. intros s. exists []. cbn. rewrite extend_nil. split; [reflexivity|lia]. Qed.

Lemma within_attempt (E : env) (P : event -> bool) (e : event) :
  within P (if P e then 1 else 0) (attempt E e).
Proof.
  intros s. exists [e]. unfold attempt. rewrite log_extend.
  split; [destruct (fault E (trace (extend s [e]))); reflexivity|].
  unfold count. cbn [filter]. destruct (P e); cbn; lia.
Qed.

Lemma within_attempt_0 (E : env) (P : event -> bool) (e : event) :
  P e = false -> within P 0 (attempt E e).
Proof. intros H. pose proof (within_attempt E P e) as W. rewrite H in W. exact W. Qed.

Lemma within_obtain_0 (E : env) (P : event -> bool) (e : event) :
  P e = false -> within P 0 (obtain E e).
Proof.
  intros H s. exists [e]. unfold obtain. rewrite log_extend.
  split; [destruct (fault E (trace (extend s [e]))); reflexivity|].
  unfold count. cbn [filter]. rewrite H. cbn. lia.
Qed.

Lemma within_bind {A B : Type} (P : event -> bool) (a b : nat)
      (m : M A) (k : A -> M B) :
  within P a m -> (forall x, within P b (k x)) -> within P (a + b) (bind m k).
Proof.
  intros Hm Hk s. destruct (Hm s) as (evs & Hs & Hc). unfold bind.
  destruct (m s) as [[x|x|] s1]; cbn [snd] in Hs; subst s1.
  - destruct (Hk x (extend s evs)) as (evs' & Hs' & Hc').
    exists (evs ++ evs'). rewrite Hs', extend_extend, count_app.
    split; [reflexivity | lia].
  - exists evs. split; [reflexivity | lia].
  - exists evs. split; [reflexivity | lia].
Qed.

Lemma within_bind_0 {A B : Type} (P : event -> bool) (m : M A) (k : A -> M B) :
  within P 0 m -> (forall x, within P 0 (k x)) -> within P 0 (bind m k).
Proof. intros Hm Hk. exact (within_bind P 0 0 m k Hm Hk). Qed.

Lemma within_try_except_0 {A : Type} (P : event -> bool) (m : M A)
      (handler : exn -> option (M A)) :
  within P 0 m -> (forall e h, handler e = Some h -> within P 0 h) ->
  within P 0 (try_except m handler).
Proof.
  intros Hm Hh s. destruct (Hm s) as (evs & Hs & Hc). unfold try_except.
  destruct (m s) as [[x|x|] s1]; cbn [snd] in Hs; subst s1.
  - exists evs. split; [reflexivity | lia].
  - destruct (handler x) as [h|] eqn:Hx.
    + destruct (Hh x h Hx (extend s evs)) as (evs' & Hs' & Hc').
      exists (evs ++ evs'). rewrite Hs', extend_extend, count_app.
      split; [reflexivity | lia].
    + exists evs. split; [reflexivity | lia].
  - exists evs. split; [reflexivity | lia].
Qed.

Lemma within_for_each {A : Type} (P : event -> bool) (b : nat)
      (l : list A) (body : A -> M unit) :
  (forall x, within P b (body x)) ->
  within P (List.length l * b) (for_each l body).
Proof.
  intros Hb. induction l as [|x l IH]; cbn [for_each List.length Nat.mul].
  - apply within_ret.
  - apply within_bind; [apply Hb | intros _; exact IH].
Qed.

Lemma within_for_each_0 {A : Type} (P : event -> bool)
      (l : list A) (body : A -> M unit) :
  (forall x, within P 0 (body x)) -> within P 0 (for_each l body).
Proof.
  intros Hb. apply (within_weaken P (List.length l * 0)); [|lia].
  apply within_for_each, Hb.
Qed.

Lemma within_q_pressed (E : env) (P : event -> bool) :
  P GetCh = false -> within P (if P KbHit then 1 else 0) (q_pressed E).
Proof.
  intros HG s. unfold q_pressed. rewrite log_extend.
  destruct (fault E (trace (extend s [KbHit]))).
  { exists [KbHit]. split; [reflexivity|].
    unfold count. cbn [filter]. destruct (P KbHit); cbn; lia. }
  destruct (key E (trace (extend s [KbHit]))) as [c|].
  - exists [KbHit; GetCh]. unfold bind, attempt. rewrite log_extend, extend_extend.
    cbn [app]. split.
    + destruct (fault E (trace (extend s [KbHit; GetCh]))); [reflexivity|].
      destruct (code c <? 128)%N; reflexivity.
    + unfold count. cbn [filter]. rewrite HG. destruct (P KbHit); cbn; lia.
  - exists [KbHit]. split; [reflexivity|].
    unfold count. cbn [filter]. destruct (P KbHit); cbn; lia.
Qed.

Lemma within_q_pressed_0 (E : env) (P : event -> bool) :
  P KbHit = false -> P GetCh = false -> within P 0 (q_pressed E).
Proof.
  intros HK HG. pose proof (within_q_pressed E P HG) as W.
  rewrite HK in W. exact W.
Qed.

Lemma send_query_socket_never (E : env) (P : event -> bool)
      (sock : socket) (q : string) :
  P (Send (Lit q)) = false -> P (Recv 4096) = false ->
  within P 0 (ControlBoth.send_query_socket E sock q).
Proof.
  intros H1 H2. unfold ControlBoth.send_query_socket.
  apply within_bind_0; [apply within_attempt_0, H1|intros _].
  apply within_bind_0; [apply within_obtain_0, H2|intros r]. apply within_ret.
Qed.

Lemma print_safety_limits_never (E : env) (P : event -> bool) (sock : socket) :
  P (Send (Lit "SOURce:SAFety?")) = false -> P (Recv 4096) = false ->
  (forall o, P (Print o) = false) ->
  within P 0 (ControlBoth.print_safety_limits E sock).
Proof.
  intros H1 H2 HP. unfold ControlBoth.print_safety_limits.
  apply within_bind_0; [apply send_query_socket_never; assumption|intros r].
  cbv zeta. apply within_bind_0; [apply within_attempt_0, HP|intros _].
  destruct (List.length (split "," r) =? 16)%nat.
  - apply within_for_each_0. intros [lbl val].
    apply within_try_except_0.
    + apply within_bind_0; [apply within_lift|intros f].
      apply within_attempt_0, HP.
    + intros e h H. destruct e; try discriminate H. injection H as <-.
      apply within_attempt_0, HP.
  - apply within_attempt_0, HP.
Qed.

Lemma forallb_cons_negb (P : event -> bool) (e : event) (l : list event) :
  forallb (fun e => negb (P e)) (e :: l) = true ->
  P e = false /\ forallb (fun e => negb (P e)) l = true.
Proof.
  cbn [forallb]. intros H. apply andb_prop in H as [H1 H2].
  split; [apply negb_true_iff, H1 | exact H2].
Qed.

(** Take the next operation of a list of operations that a test rejects. *)
Ltac next_op H :=
  let H1 := fresh "Hop" in
  apply forallb_cons_negb in H as [H1 H];
  apply within_bind_0; [apply within_attempt_0, H1|intros _].

Lemma connect_grid_simulator_never (E : env) (C : ControlBoth.config)
      (P : event -> bool) (host : string) (port : Z) :
  forallb (fun e => negb (P e))
    (simulator_setup_ops host port (ControlBoth.SIMULATOR_INSTRUMENT C)) = true ->
  (forall o, P (Print o) = false) ->
  within P 0 (ControlBoth.connect_grid_simulator E C host port).
Proof.
  intros H HP. unfold ControlBoth.connect_grid_simulator, simulator_setup_ops in *.
  cbv zeta. do 5 next_op H.
  apply forallb_cons_negb in H as [H1 H]. apply forallb_cons_negb in H as [H2 H].
  apply within_bind_0;
    [apply print_safety_limits_never; assumption|intros _].
  apply within_bind_0; [apply within_attempt_0, HP|intros _].
  apply within_ret.
Qed.

Lemma connect_electronic_load_never (E : env) (P : event -> bool)
      (address : string) :
  forallb (fun e => negb (P e))
    (load_setup_ops address ++ [Query (Lit "*IDN?")]) = true ->
  (forall o, P (Print o) = false) ->
  within P 0 (ControlBoth.connect_electronic_load E address).
Proof.
  intros H HP. unfold ControlBoth.connect_electronic_load, load_setup_ops in *.
  cbn [app] in H. cbv zeta. do 11 next_op H.
  apply forallb_cons_negb in H as [H1 H]. apply forallb_cons_negb in H as [H2 H].
  apply within_bind_0; [apply within_obtain_0, H1|intros r].
  match goal with |- within _ _ (if ?b then _ else _) => destruct b end.
  - apply within_raise.
  - apply within_bind_0; [apply within_obtain_0, H2|intros r'].
    apply within_bind_0; [apply within_attempt_0, HP|intros _].
    apply within_ret.
Qed.

Lemma measure_never (E : env) (P : event -> bool) (q : string) :
  P (Query (Lit q)) = false -> within P 0 (ControlBoth.measure E q).
Proof.
  intros H. unfold ControlBoth.measure.
  apply within_bind_0; [apply within_obtain_0, H|intros r]. apply within_lift.
Qed.

Lemma current_sweep_within (E : env) (C : ControlBoth.config) (P : event -> bool)
      (body : pynum -> M unit) (fuel : nat) :
  (forall i, within P 0 (body i)) ->
  P (Sleep (ControlBoth.INTERVAL_S C)) = false ->
  forall i_set, within P 0 (ControlBoth.current_sweep E C fuel body i_set).
Proof.
  intros Hb Hs. induction fuel as [|fuel IH]; intros i_set;
    cbn [ControlBoth.current_sweep].
  - apply within_out_of_fuel.
  - destruct (py_le i_set (ControlBoth.CURRENT_STOP_A C)); [|apply within_ret].
    apply within_bind_0; [apply Hb|intros _].
    apply within_bind_0; [apply within_lift|intros i'].
    apply within_bind_0; [apply within_attempt_0, Hs|intros _].
    apply IH.
Qed.

(** The sweep proper leaves the two handles as they are. *)
Lemma sweep_keeps_handles (E : env) (C : ControlBoth.config) (fuel : nat) :
  within (fun _ => false) 0
    (bind (sleep E (PyInt 2)) (fun _ =>
     bind (print E (Say "--> Press 'q' at any time to stop the sweep and save results. <--")) (fun _ =>
     bind (print E (Say "--- Starting Nested V-I Sweep ---")) (fun _ =>
     bind (print E (Say "V Set (V)    | I Set (A)    | V Meas (V)   | I Meas (A)   | P Meas (W)  ")) (fun _ =>
     bind (print E (Say "--------------------------------------------------------------------")) (fun _ =>
     bind (ControlBoth.voltage_sweep E C fuel) (fun _ =>
     print E (Say "--- Sweep Completed Successfully ---")))))))).
Proof.
  do 5 (apply within_bind_0; [apply within_attempt_0; reflexivity|intros _]).
  apply within_bind_0; [|intros _; apply within_attempt_0; reflexivity].
  unfold ControlBoth.voltage_sweep.
  apply within_bind_0; [apply within_lift|intros v_range].
  apply within_for_each_0. intros v.
  do 2 (apply within_bind_0; [apply within_attempt_0; reflexivity|intros _]).
  apply within_bind_0; [|intros _; apply within_attempt_0; reflexivity].
  apply current_sweep_within; [|reflexivity]. intros i.
  unfold ControlBoth.sweep_point.
  apply within_bind_0; [apply within_q_pressed_0; reflexivity|intros stop].
  apply within_bind_0.
  { destruct stop; [|apply within_ret].
    apply within_bind_0; [apply within_attempt_0; reflexivity|intros _].
    apply within_raise. }
  intros _.
  apply within_bind_0; [apply within_lift|intros peak].
  do 4 (apply within_bind_0; [apply within_attempt_0; reflexivity|intros _]).
  apply within_bind_0; [apply within_obtain_0; reflexivity|intros r].
  cbv zeta.
  do 2 (apply within_bind_0; [apply within_lift|intros ?]).
  apply within_bind_0; [apply within_attempt_0; reflexivity|intros _].
  do 3 (apply within_bind_0; [apply measure_never; reflexivity|intros ?]).
  do 2 (apply within_bind_0; [apply within_lift|intros ?]).
  apply within_attempt_0; reflexivity.
Qed.

(** ** How the three parts of [Control_Both.py] follow each other *)

Lemma handlers_report (E : env) (x : exn) :
  ControlBoth.handlers E x = Some (print E (report x)).
Proof. destruct x; reflexivity. Qed.

Lemma try_finally_snd {A : Type} (m : M A) (cleanup : M unit) (s : state) :
  fst (m s) <> OutOfFuel ->
  snd (try_finally m cleanup s) = snd (cleanup (snd (m s))).
Proof.
  unfold try_finally. destruct (m s) as [[a|x|] s1]; cbn [fst snd]; intros H;
    try contradiction; destruct (cleanup s1) as [[u|y|] s2]; reflexivity.
Qed.

Lemma try_finally_fst {A : Type} (m : M A) (cleanup : M unit) (s : state) :
  fst (try_finally m cleanup s) = OutOfFuel ->
  fst (m s) = OutOfFuel \/ fst (cleanup (snd (m s))) = OutOfFuel.
Proof.
  unfold try_finally. destruct (m s) as [[a|x|] s1]; cbn [fst snd];
    try (intros; left; reflexivity);
    destruct (cleanup s1) as [[u|y|] s2]; cbn [fst]; intros H;
    try discriminate; right; reflexivity.
Qed.

Lemma attempts_end (E : env) (plan : list event) (s : state) :
  fst (for_each plan (attempt E) s) <> OutOfFuel.
Proof.
  destruct (attempts_spec E plan s) as (k & _ & Hk). intros H.
  rewrite H in Hk. exact Hk.
Qed.

(** The [try] block with its [except] clauses. *)
Lemma guarded_run (E : env) (C : ControlBoth.config) (fuel : nat)
      (r : result unit) (s' : state) :
  ControlBoth.run E C fuel initial = (r, s') ->
  snd (try_except (ControlBoth.run E C fuel) (ControlBoth.handlers E) initial)
  = extend s' (reported r)
  /\ (fst (try_except (ControlBoth.run E C fuel) (ControlBoth.handlers E) initial)
      = OutOfFuel -> r = OutOfFuel).
Proof.
  intros Hrun. unfold try_except. rewrite Hrun. destruct r as [[]|x|].
  - cbn [reported]. rewrite extend_nil. split; [reflexivity|discriminate].
  - rewrite handlers_report. cbn [reported]. unfold print, attempt.
    rewrite log_extend.
    destruct (fault E (trace (extend s' [Print (report x)])));
      split; try reflexivity; discriminate.
  - cbn [reported]. rewrite extend_nil. split; reflexivity.
Qed.

(** What the script has attempted in the end: what the [try] block
    attempted, the message of the [except] clause when the block raised,
    and the shutdown for the handles that the block has set. *)
Lemma main_after_run (E : env) (C : ControlBoth.config) (fuel : nat)
      (r : result unit) (s' : state) :
  ControlBoth.run E C fuel initial = (r, s') -> r <> OutOfFuel ->
  snd (ControlBoth.main E C fuel initial)
  = snd (for_each (shutdown_plan (simulator_socket s') (load_instrument s'))
                  (attempt E) (extend s' (reported r)))
  /\ fst (ControlBoth.main E C fuel initial) <> OutOfFuel.
Proof.
  intros Hrun Hr. destruct (guarded_run E C fuel r s' Hrun) as [Hs Hf].
  unfold ControlBoth.main. split.
  - rewrite try_finally_snd by (intros H; apply Hr, Hf, H).
    rewrite Hs, shutdown_as_plan. reflexivity.
  - intros H. apply try_finally_fst in H as [H|H].
    + apply Hr, Hf, H.
    + rewrite shutdown_as_plan in H. exact (attempts_end _ _ _ H).
Qed.

(** ** Setups that fail *)

Lemma count_firstn (P : event -> bool) (k : nat) (l : list event) :
  (count P (firstn k l) <= count P l)%nat.
Proof.
  revert k. induction l as [|e l IH]; intros [|k]; cbn [firstn];
    unfold count in *; cbn [filter List.length]; try lia.
  specialize (IH k). destruct (P e); cbn [List.length]; lia.
Qed.

Lemma count_le (P Q : event -> bool) (evs : list event) :
  (forall e, P e = true -> Q e = true) -> (count P evs <= count Q evs)%nat.
Proof.
  intros H. unfold count. induction evs as [|e evs IH]; cbn [filter]; [lia|].
  destruct (P e) eqn:He.
  - rewrite (H e He). cbn [List.length]. lia.
  - destruct (Q e); cbn [List.length]; lia.
Qed.




(** X4: when the simulator is set up and the setup of the load raises, the
    script prints the message of its [except] clause and runs the shutdown
    for the simulator alone, step by step until a step raises: the steps
    attempted are the first [k] of the six, none of the steps before the
    [k]-th raised, and when [k] is less than six the [k]-th step raised.
    The handle of the load was never assigned, so the load is sent no
    command of the shutdown and the instrument that was opened is not
    closed; and the output of the simulator was never turned on. *)
Theorem X4_failed_load_setup_shuts_the_simulator_down
        (E : env) (C : ControlBoth.config) (fuel : nat) (x : exn)
        (s1 s2 : state) :
  ControlBoth.connect_grid_simulator E C (ControlBoth.SIMULATOR_HOST C)
    (ControlBoth.SIMULATOR_PORT C) initial = (Ok Sock, s1) ->
  ControlBoth.connect_electronic_load E (ControlBoth.LOAD_ADDRESS C)
    (snd (set_simulator_socket (Some Sock) s1)) = (Raise x, s2) ->
  exists k,
    trace (snd (ControlBoth.main E C fuel initial))
    = trace s2 ++ Print (report x) :: firstn k (shutdown_plan (Some Sock) None)
    /\ (1 <= k <= 6)%nat
    /\ (forall j, (1 <= j < k)%nat ->
          fault E (trace s2 ++ Print (report x)
                     :: firstn j (shutdown_plan (Some Sock) None)) = None)
    /\ ((k < 6)%nat ->
        exists y,
          fault E (trace s2 ++ Print (report x)
                     :: firstn k (shutdown_plan (Some Sock) None)) = Some y)
    /\ count is_load_shutdown (trace (snd (ControlBoth.main E C fuel initial)))
       = 0%nat
    /\ count is_output_on (trace (snd (ControlBoth.main E C fuel initial)))
       = 0%nat.
Proof.
  intros H1 H2.
  assert (Hrun : ControlBoth.run E C fuel initial = (Raise x, s2)).
  { unfold ControlBoth.run. rewrite (bind_ok _ _ _ _ _ H1).
    rewrite (bind_ok _ _ _ _ _ (set_simulator_socket_ok _ _)).
    apply bind_raise. exact H2. }
  destruct (main_after_run E C fuel _ _ Hrun) as [Hs _]; [discriminate|].
  set (P := fun e => is_load_shutdown e || is_output_on e).
  pose proof (connect_grid_simulator_never E C P
                (ControlBoth.SIMULATOR_HOST C) (ControlBoth.SIMULATOR_PORT C)
                eq_refl (fun _ => eq_refl)) as W1.
  pose proof (connect_electronic_load_never E P (ControlBoth.LOAD_ADDRESS C)
                eq_refl (fun _ => eq_refl)) as W2.
  destruct (W1 initial) as (evs1 & Hev1 & Hc1). rewrite H1 in Hev1.
  cbn [snd] in Hev1.
  destruct (W2 (snd (set_simulator_socket (Some Sock) s1)))
    as (evs2 & Hev2 & Hc2).
  rewrite H2 in Hev2. cbn [snd] in Hev2.
  assert (Hsim : simulator_socket s2 = Some Sock) by (rewrite Hev2; reflexivity).
  assert (Hload : load_instrument s2 = None)
    by (rewrite Hev2, Hev1; reflexivity).
  assert (Htr : trace s2 = evs1 ++ evs2) by (rewrite Hev2, Hev1; reflexivity).
  rewrite Hsim, Hload in Hs. cbn [reported] in Hs.
  destruct (attempts_trace E (shutdown_plan (Some Sock) None)
              (extend s2 [Print (report x)])) as (k & Hk & Hb & Hbefore & Hat).
  rewrite Hk in Hs. exists k. rewrite Hs.
  rewrite !trace_extend, <- app_assoc. cbn [app].
  split; [reflexivity|].
  change (List.length (shutdown_plan (Some Sock) None)) with 6%nat in *.
  split; [cbn in Hb; lia|].
  split; [intros j Hj; specialize (Hbefore j Hj); flatten_history;
          exact Hbefore|].
  split; [intros Hlt; destruct (Hat Hlt) as (y & Hy); exists y;
          flatten_history; exact Hy|].
  rewrite Htr in *.
  assert (Hcount : count P ((evs1 ++ evs2) ++ Print (report x)
                     :: firstn k (shutdown_plan (Some Sock) None)) = 0%nat).
  { change (Print (report x) :: firstn k (shutdown_plan (Some Sock) None))
      with ([Print (report x)] ++ firstn k (shutdown_plan (Some Sock) None)).
    rewrite !count_app.
    pose proof (count_firstn P k (shutdown_plan (Some Sock) None)) as Hf.
    change (count P (shutdown_plan (Some Sock) None)) with 0%nat in Hf.
    change (count P [Print (report x)]) with 0%nat. lia. }
  pose proof (count_le is_load_shutdown P
                ((evs1 ++ evs2) ++ Print (report x)
                   :: firstn k (shutdown_plan (Some Sock) None))
                (fun e He => orb_true_intro _ _ (or_introl He))).
  pose proof (count_le is_output_on P
                ((evs1 ++ evs2) ++ Print (report x)
                   :: firstn k (shutdown_plan (Some Sock) None))
                (fun e He => orb_true_intro _ _ (or_intror He))).
  split; lia.
Qed.

Lemma X4_failed_load_setup_shuts_the_simulator_down_witness :
  let E := answering "-113,Undefined header" in
  exists k,
    trace (snd (ControlBoth.main E ControlBoth.shipped 6 initial))
    = (simulator_setup_ops "192.168.0.149" 5025 3
       ++ [ Print (Unexpected "-113,Undefined header");
            Print (Say "Grid Simulator connected and configured.") ]
       ++ load_setup_ops "GPIB0::8::INSTR")
      ++ Print (Failed (PyException (LoadSetupError "-113,Undefined header")))
         :: firstn k (shutdown_plan (Some Sock) None)
    /\ k = 6%nat.
Proof.
  intros E.
  destruct (X4_failed_load_setup_shuts_the_simulator_down E ControlBoth.shipped 6 _ _ _ eq_refl eq_refl)
    as (k & Htr & Hb & _ & Hat & _).
  exists k. split; [exact Htr|].
  destruct (Nat.eq_dec k 6) as [Hk|Hk]; [exact Hk|].
  destruct Hat as (y & Hy); [lia|discriminate Hy].
Defined.

(** ** Runs that reach the sweep *)

Lemma obtain_raise (E : env) (e : event) (s : state) (x : exn) :
  fault E (trace s ++ [e]) = Some x -> obtain E e s = (Raise x, extend s [e]).
Proof. intros H. unfold obtain. simpl. rewrite H. reflexivity. Qed.

(** One step of a script that is known to return: the operation did not
    raise. *)
Ltac walk :=
  match goal with
  | |- context [bind (attempt ?E ?e) ?k ?s] =>
      let Hf := fresh "Hf" in
      destruct (fault E (trace s ++ [e])) as [?|] eqn:Hf;
      [ rewrite (bind_raise _ _ _ _ _ (attempt_raise E e s _ Hf));
        try (intros; discriminate)
      | rewrite (bind_ok _ _ _ _ _ (attempt_ok E e s Hf)) ]
  | |- context [bind (print ?E ?o) ?k ?s] =>
      let Hf := fresh "Hf" in
      destruct (fault E (trace s ++ [Print o])) as [?|] eqn:Hf;
      [ rewrite (bind_raise _ _ _ _ _ (attempt_raise E (Print o) s _ Hf));
        try (intros; discriminate)
      | rewrite (bind_ok _ _ _ _ _ (print_ok E o s Hf)) ]
  | |- context [bind (sleep ?E ?x) ?k ?s] =>
      let Hf := fresh "Hf" in
      destruct (fault E (trace s ++ [Sleep x])) as [?|] eqn:Hf;
      [ rewrite (bind_raise _ _ _ _ _ (attempt_raise E (Sleep x) s _ Hf));
        try (intros; discriminate)
      | rewrite (bind_ok _ _ _ _ _ (sleep_ok E x s Hf)) ]
  | |- context [bind (obtain ?E ?e) ?k ?s] =>
      let Hf := fresh "Hf" in
      destruct (fault E (trace s ++ [e])) as [?|] eqn:Hf;
      [ rewrite (bind_raise _ _ _ _ _ (obtain_raise E e s _ Hf));
        try (intros; discriminate)
      | rewrite (bind_ok _ _ _ _ _ (obtain_ok E e s Hf)) ]
  end;
  rewrite ?extend_extend; cbn [app].

Lemma count_zero_prints (evs : list event) :
  count (fun e => negb (is_print e)) evs = 0%nat ->
  exists outs, evs = map Print outs.
Proof.
  unfold count. induction evs as [|e evs IH]; cbn [filter].
  - exists []. reflexivity.
  - destruct e; cbn [is_print negb]; try discriminate.
    intros H. destruct (IH H) as (outs & ->). exists (o :: outs). reflexivity.
Qed.

Lemma print_safety_limits_returns (E : env) (sock : socket) (s s1 : state)
      (u : unit) :
  ControlBoth.print_safety_limits E sock s = (Ok u, s1) ->
  exists outs,
    s1 = extend s ([Send (Lit "SOURce:SAFety?"); Recv 4096;
                    Print (Say "--- Safety Limits ---")] ++ map Print outs).
Proof.
  unfold ControlBoth.print_safety_limits, ControlBoth.send_query_socket.
  rewrite bind_assoc. walk. rewrite bind_assoc. walk.
  rewrite bind_ret. cbv zeta. walk.
  match goal with
  | |- (if ?b then ?m1 else ?m2) ?s0 = _ -> _ =>
      assert (W : within (fun e => negb (is_print e)) 0 (if b then m1 else m2))
  end.
  { match goal with |- within _ _ (if ?b then _ else _) => destruct b end.
    - apply within_for_each_0. intros [lbl val].
      apply within_try_except_0.
      + apply within_bind_0; [apply within_lift|intros f].
        apply within_attempt_0; reflexivity.
      + intros e h H. destruct e; try discriminate H. injection H as <-.
        apply within_attempt_0; reflexivity.
    - apply within_attempt_0; reflexivity. }
  intros H.
  match type of H with
  | ?m ?s0 = _ => destruct (W s0) as (evs & Hev & Hc)
  end.
  rewrite H in Hev. cbn [snd] in Hev.
  destruct (count_zero_prints evs ltac:(lia)) as (outs & ->).
  exists outs. rewrite Hev, extend_extend. reflexivity.
Qed.

Lemma connect_grid_simulator_returns (E : env) (C : ControlBoth.config)
      (host : string) (port : Z) (s s1 : state) (sock : socket) :
  ControlBoth.connect_grid_simulator E C host port s = (Ok sock, s1) ->
  exists outs,
    s1 = extend s (simulator_setup_ops host port (ControlBoth.SIMULATOR_INSTRUMENT C)
                   ++ map Print outs
                   ++ [Print (Say "Grid Simulator connected and configured.")]).
Proof.
  unfold ControlBoth.connect_grid_simulator. cbv zeta. do 5 walk.
  match goal with
  | |- context [bind (ControlBoth.print_safety_limits E ?k) ?f ?s0] =>
      destruct (ControlBoth.print_safety_limits E k s0) as [[u|x|] s2] eqn:Hp
  end.
  - destruct (print_safety_limits_returns E _ _ _ _ Hp) as (outs & ->).
    rewrite (bind_ok _ _ _ _ _ Hp), extend_extend. cbn [app]. walk.
    unfold ret. intros H. injection H as _ <-.
    exists outs. unfold simulator_setup_ops. cbn [app].
    reflexivity.
  - rewrite (bind_raise _ _ _ _ _ Hp). discriminate.
  - unfold bind at 1. rewrite Hp. discriminate.
Qed.

Lemma connect_electronic_load_returns (E : env) (address : string)
      (s s1 : state) (inst : resource) :
  ControlBoth.connect_electronic_load E address s = (Ok inst, s1) ->
  exists identity,
    s1 = extend s (load_setup_ops address
                   ++ [Query (Lit "*IDN?"); Print (Ready identity)]).
Proof.
  unfold ControlBoth.connect_electronic_load. cbv zeta. do 12 walk.
  match goal with |- context [if ?b then _ else _] => destruct b end;
    [discriminate|].
  do 2 walk. unfold ret. intros H. injection H as _ <-.
  eexists. unfold load_setup_ops. cbn [app]. reflexivity.
Qed.

Lemma existsb_count (P : event -> bool) (evs : list event) :
  existsb P evs = true -> (1 <= count P evs)%nat.
Proof.
  unfold count. induction evs as [|e evs IH]; cbn [existsb filter];
    [discriminate|].
  destruct (P e); cbn [orb List.length]; [lia|exact IH].
Qed.

Lemma count_up_to_here (P : event -> bool) (C : ControlBoth.config)
      (outs : list output) (evs : list event) :
  (forall o, P (Print o) = false) ->
  count P (simulator_setup_ops (ControlBoth.SIMULATOR_HOST C)
             (ControlBoth.SIMULATOR_PORT C) (ControlBoth.SIMULATOR_INSTRUMENT C)) = 0%nat ->
  count P evs = 0%nat ->
  count P ((simulator_setup_ops (ControlBoth.SIMULATOR_HOST C)
              (ControlBoth.SIMULATOR_PORT C) (ControlBoth.SIMULATOR_INSTRUMENT C)
            ++ map Print outs
            ++ [Print (Say "Grid Simulator connected and configured.")])
           ++ evs) = 0%nat.
Proof.
  intros HP H1 H2. rewrite !count_app, H1, H2, (count_prints P outs HP).
  unfold count. cbn [filter]. rewrite HP. reflexivity.
Qed.

(** A run of the [try] block that has turned the output of the simulator
    on has set up both instruments before, and holds both handles. *)
Lemma run_reaches_output_on (E : env) (C : ControlBoth.config) (fuel : nat) :
  existsb is_output_on (trace (snd (ControlBoth.run E C fuel initial))) = true ->
  exists outs identity rest,
    snd (ControlBoth.run E C fuel initial)
    = {| trace := up_to_output_on C outs identity ++ rest;
         simulator_socket := Some Sock; load_instrument := Some Inst |}.
Proof.
  unfold ControlBoth.run.
  destruct (ControlBoth.connect_grid_simulator E C (ControlBoth.SIMULATOR_HOST C)
              (ControlBoth.SIMULATOR_PORT C) initial) as [[sock|x|] s1] eqn:H1.
  2,3: intros Hin; exfalso;
    pose proof (connect_grid_simulator_never E C is_output_on
                  (ControlBoth.SIMULATOR_HOST C) (ControlBoth.SIMULATOR_PORT C)
                  eq_refl (fun _ => eq_refl) initial) as (evs & Hev & Hc);
    rewrite H1 in Hev; cbn [snd] in Hev; unfold bind in Hin; rewrite H1 in Hin;
    cbn [snd] in Hin; rewrite Hev in Hin; cbn [extend trace initial app] in Hin;
    apply existsb_count in Hin; lia.
  destruct (connect_grid_simulator_returns E C _ _ _ _ _ H1) as (outs & Hs1).
  rewrite (bind_ok _ _ _ _ _ H1).
  rewrite (bind_ok _ _ _ _ _ (set_simulator_socket_ok _ _)).
  subst s1. cbn [extend trace simulator_socket load_instrument initial app].
  match goal with
  | |- context [bind (ControlBoth.connect_electronic_load E ?a) ?k ?s0] =>
      destruct (ControlBoth.connect_electronic_load E a s0) as [[inst|x|] s2] eqn:H2;
      pose proof (connect_electronic_load_never E is_output_on a
                    eq_refl (fun _ => eq_refl) s0) as (evs & Hev & Hc);
      rewrite H2 in Hev; cbn [snd] in Hev
  end.
  2,3: intros Hin; exfalso; unfold bind in Hin; rewrite H2 in Hin;
    cbn [snd] in Hin; rewrite Hev in Hin; cbn [extend trace] in Hin;
    apply existsb_count in Hin;
    rewrite (count_up_to_here is_output_on C outs evs) in Hin;
    [lia | intros o; reflexivity | reflexivity | lia].
  clear evs Hev Hc.
  destruct (connect_electronic_load_returns E _ _ _ _ H2) as (identity & Hs2).
  rewrite (bind_ok _ _ _ _ _ H2).
  rewrite (bind_ok _ _ _ _ _ (set_load_instrument_ok _ _)).
  subst s2. cbn [extend trace simulator_socket load_instrument].
  match goal with
  | |- context [bind (print E ?o) ?k ?s0] =>
      destruct (fault E (trace s0 ++ [Print o])) as [y|] eqn:Hf;
      [ rewrite (bind_raise _ _ _ _ _ (attempt_raise E (Print o) s0 _ Hf))
      | rewrite (bind_ok _ _ _ _ _ (print_ok E o s0 Hf)) ]
  end.
  { intros Hin. exfalso. cbn [snd extend trace] in Hin.
    apply existsb_count in Hin. rewrite <- app_assoc in Hin.
    rewrite (count_up_to_here is_output_on C outs) in Hin;
      [lia | intros o; reflexivity | reflexivity | reflexivity]. }
  intros _. exists outs, identity.
  match goal with
  | |- context [bind (attempt E ?e) ?k ?s0] =>
      assert (Hstep : exists rest, snd (bind (attempt E e) k s0)
                                   = extend s0 (e :: rest))
  end.
  { match goal with
    | |- context [bind (attempt E ?e) ?k ?s0] =>
        destruct (fault E (trace s0 ++ [e])) as [y|] eqn:Hf2;
        [ rewrite (bind_raise _ _ _ _ _ (attempt_raise E e s0 _ Hf2));
          exists []; reflexivity
        | rewrite (bind_ok _ _ _ _ _ (attempt_ok E e s0 Hf2)) ]
    end.
    match goal with
    | |- context [snd (?m ?s0)] =>
        destruct (sweep_keeps_handles E C fuel s0) as (rest & Hrest & _)
    end.
    exists rest. rewrite Hrest, extend_extend. reflexivity. }
  destruct Hstep as (rest & Hrest). exists rest. rewrite Hrest.
  unfold extend, up_to_output_on. cbn [trace simulator_socket load_instrument].
  destruct sock, inst. f_equal. rewrite <- !app_assoc. cbn [app]. reflexivity.
Qed.

(** X5: in every run of [Control_Both.py] that ends and in which the
    output of the simulator is turned on, whatever the world does
    otherwise: before the command that turns the output on, the simulator
    was connected, its instrument selected and its current and power
    limits sent, the safety limits were queried, and the load was set up,
    has accepted its error status and answered its identity; and after
    whatever follows, the run ends with the shutdown for both instruments
    (voltage to 0, output off, socket closed, load off, current to 0, reset,
    instrument closed, and their messages), attempted step by step until a
    step raises: the steps attempted are the first [k] of the twelve, none
    of the steps before the [k]-th raised, and when [k] is less than
    twelve the [k]-th step raised. *)
Theorem X5_output_on_between_setup_and_shutdown
        (E : env) (C : ControlBoth.config) (fuel : nat) :
  fst (ControlBoth.main E C fuel initial) <> OutOfFuel ->
  existsb is_output_on (trace (snd (ControlBoth.main E C fuel initial))) = true ->
  exists outs identity rest k,
    let before := up_to_output_on C outs identity ++ rest in
    let plan := shutdown_plan (Some Sock) (Some Inst) in
    trace (snd (ControlBoth.main E C fuel initial)) = before ++ firstn k plan
    /\ (1 <= k <= 12)%nat
    /\ (forall j, (1 <= j < k)%nat -> fault E (before ++ firstn j plan) = None)
    /\ ((k < 12)%nat -> exists y, fault E (before ++ firstn k plan) = Some y).
Proof.
  intros Hfin Hon.
  destruct (ControlBoth.run E C fuel initial) as [r s'] eqn:Hrun.
  assert (Hr : r <> OutOfFuel).
  { intros ->. apply Hfin. unfold ControlBoth.main, try_finally, try_except.
    rewrite Hrun. reflexivity. }
  destruct (main_after_run E C fuel r s' Hrun Hr) as [Hs _].
  pose proof (attempts_trace E (shutdown_plan (simulator_socket s') (load_instrument s'))
                (extend s' (reported r))) as (k & Hk & Hb & Hbefore & Hat).
  rewrite <- Hs in Hk. rewrite Hk, !trace_extend in Hon.
  assert (Hin : existsb is_output_on (trace s') = true).
  { rewrite <- app_assoc, !existsb_app in Hon.
    apply orb_prop in Hon as [Hon|Hon]; [exact Hon|exfalso].
    apply orb_prop in Hon as [Hon|Hon].
    - destruct r as [[]|x|]; discriminate Hon.
    - apply existsb_count in Hon.
      destruct (simulator_socket s'), (load_instrument s');
        match type of Hon with
        | (1 <= count ?P (firstn ?j ?pl))%nat =>
            pose proof (count_firstn P j pl) as Hle;
            change (count P pl) with 0%nat in Hle
        end; lia. }
  pose proof (run_reaches_output_on E C fuel) as Hreach.
  rewrite Hrun in Hreach. cbn [snd] in Hreach.
  destruct (Hreach Hin) as (outs & identity & rest & ->).
  cbn [simulator_socket load_instrument] in *.
  exists outs, identity, (rest ++ reported r), k.
  cbn zeta. rewrite Hk, !trace_extend. cbn [trace].
  change (List.length (shutdown_plan (Some Sock) (Some Inst))) with 12%nat in *.
  split; [rewrite <- !app_assoc; reflexivity|]. split; [cbn in Hb; lia|].
  split.
  - intros j Hj. specialize (Hbefore j Hj).
    rewrite !trace_extend in Hbefore. cbn [trace] in Hbefore.
    rewrite <- !app_assoc in *. exact Hbefore.
  - intros Hlt. destruct (Hat Hlt) as (y & Hy). exists y.
    rewrite !trace_extend in Hy. cbn [trace] in Hy.
    rewrite <- !app_assoc in *. exact Hy.
Qed.

Lemma X5_output_on_between_setup_and_shutdown_witness :
  let E := failing is_voltage_zero OSError "0" in
  exists outs identity rest k,
    trace (snd (ControlBoth.main E ControlBoth.shipped 6 initial))
    = (up_to_output_on ControlBoth.shipped outs identity ++ rest)
      ++ firstn k (shutdown_plan (Some Sock) (Some Inst))
    /\ k = 2%nat.
Proof.
  intros E.
  destruct (X5_output_on_between_setup_and_shutdown E ControlBoth.shipped 6)
    as (outs & identity & rest & k & Htr & Hb & Hbefore & Hat).
  - vm_compute. discriminate.
  - vm_compute. reflexivity.
  - exists outs, identity, rest, k. split; [exact Htr|].
    destruct k as [|[|[|k]]]; [lia| |reflexivity|]; exfalso.
    + destruct Hat as (y & Hy); [lia|].
      cbn [firstn shutdown_plan app] in Hy. unfold E in Hy.
      cbn [failing fault] in Hy. rewrite rev_app_distr in Hy.
      cbn in Hy. discriminate Hy.
    + specialize (Hbefore 2%nat ltac:(lia)).
      cbn [firstn shutdown_plan app] in Hbefore. unfold E in Hbefore.
      cbn [failing fault] in Hbefore. rewrite rev_app_distr in Hbefore.
      cbn in Hbefore. discriminate Hbefore.
Defined.

(** ** Scripts that end *)

Lemma float_of_int_ends (z : Z) : float_of_int z <> OutOfFuel.
Proof. unfold float_of_int. destruct (is_infinity _); discriminate. Qed.

Lemma to_float_ends (x : pynum) : to_float x <> OutOfFuel.
Proof. destruct x; [apply float_of_int_ends|discriminate]. Qed.

Lemma arith_ends (fz : Z -> Z -> Z) (ff : float -> float -> float)
      (x y : pynum) : arith fz ff x y <> OutOfFuel.
Proof.
  unfold arith.
  destruct x as [a|a], y as [b|b]; try discriminate; cbn [to_float rbind];
    unfold float_of_int; repeat destruct (is_infinity _); discriminate.
Qed.

Lemma py_float_ends (v : pyval) : py_float v <> OutOfFuel.
Proof.
  destruct v as [t|]; cbn; [destruct (float_of_str t)|]; discriminate.
Qed.

Lemma parse_float_ends (v : pyval) : ControlBoth.parse_float v <> OutOfFuel.
Proof.
  unfold ControlBoth.parse_float. pose proof (py_float_ends v).
  destruct (py_float v) as [f|[]|]; try discriminate. contradiction.
Qed.

Lemma check_readback_ends (readback : float) (i_set : pynum) :
  ControlBoth.check_readback readback i_set <> OutOfFuel.
Proof.
  unfold ControlBoth.check_readback. pose proof (arith_ends Z.sub PrimFloat.sub
    (PyFloat readback) i_set) as H. unfold py_sub.
  destruct (arith _ _ _ _) as [d| |]; cbn [rbind]; try discriminate;
    [|contradiction].
  destruct (py_gt _ _); discriminate.
Qed.

Lemma peak_limit_ends (i_set : pynum) : ControlBoth.peak_limit i_set <> OutOfFuel.
Proof.
  unfold ControlBoth.peak_limit. destruct (py_gt _ _); [|discriminate].
  apply arith_ends.
Qed.

Lemma range_ends (lo hi step : Z) : range lo hi step <> OutOfFuel.
Proof. unfold range. destruct (step =? 0); discriminate. Qed.

Lemma finishes_ret {A : Type} (a : A) : finishes (ret a).
Proof. intros s. discriminate. Qed.

Lemma finishes_raise {A : Type} (x : exn) : finishes (@raise A x).
Proof. intros s. discriminate. Qed.

Lemma finishes_lift {A : Type} (r : result A) : r <> OutOfFuel -> finishes (lift r).
Proof. intros H s. exact H. Qed.

Lemma finishes_attempt (E : env) (e : event) : finishes (attempt E e).
Proof. intros s. unfold attempt. destruct (fault E _); discriminate. Qed.

Lemma finishes_obtain (E : env) (e : event) : finishes (obtain E e).
Proof. intros s. unfold obtain. destruct (fault E _); discriminate. Qed.

Lemma finishes_bind {A B : Type} (m : M A) (k : A -> M B) :
  finishes m -> (forall a, finishes (k a)) -> finishes (bind m k).
Proof.
  intros Hm Hk s. unfold bind. specialize (Hm s).
  destruct (m s) as [[a|x|] s1]; cbn [fst] in *;
    [apply Hk | discriminate | contradiction].
Qed.

Lemma finishes_try_except {A : Type} (m : M A) (handler : exn -> option (M A)) :
  finishes m -> (forall e h, handler e = Some h -> finishes h) ->
  finishes (try_except m handler).
Proof.
  intros Hm Hh s. unfold try_except. specialize (Hm s).
  destruct (m s) as [[a|x|] s1]; cbn [fst] in *;
    [discriminate | | contradiction].
  destruct (handler x) as [h|] eqn:Hx; [apply (Hh x h Hx)|discriminate].
Qed.

Lemma finishes_for_each {A : Type} (l : list A) (body : A -> M unit) :
  (forall x, finishes (body x)) -> finishes (for_each l body).
Proof.
  intros Hb. induction l as [|x l IH]; cbn [for_each].
  - apply finishes_ret.
  - apply finishes_bind; [apply Hb | intros _; exact IH].
Qed.

Lemma finishes_q_pressed (E : env) : finishes (q_pressed E).
Proof.
  intros s. unfold q_pressed. destruct (fault E _); [discriminate|].
  destruct (key E _) as [c|]; [|discriminate].
  apply finishes_bind; [apply finishes_attempt|intros _].
  destruct (code c <? 128)%N; [apply finishes_ret|apply finishes_raise].
Qed.

Lemma finishes_print_safety_limits (E : env) (sock : socket) :
  finishes (ControlBoth.print_safety_limits E sock).
Proof.
  unfold ControlBoth.print_safety_limits, ControlBoth.send_query_socket.
  apply finishes_bind.
  { apply finishes_bind; [apply finishes_attempt|intros _].
    apply finishes_bind; [apply finishes_obtain|intros r]. apply finishes_ret. }
  intros r. cbv zeta. apply finishes_bind; [apply finishes_attempt|intros _].
  destruct (_ =? _)%nat; [|apply finishes_attempt].
  apply finishes_for_each. intros [lbl val]. apply finishes_try_except.
  - apply finishes_bind; [apply finishes_lift, py_float_ends|intros f].
    apply finishes_attempt.
  - intros e h H. destruct e; try discriminate H. injection H as <-.
    apply finishes_attempt.
Qed.

Lemma finishes_connect_grid_simulator (E : env) (C : ControlBoth.config)
      (host : string) (port : Z) :
  finishes (ControlBoth.connect_grid_simulator E C host port).
Proof.
  unfold ControlBoth.connect_grid_simulator. cbv zeta.
  do 5 (apply finishes_bind; [apply finishes_attempt|intros _]).
  apply finishes_bind; [apply finishes_print_safety_limits|intros _].
  apply finishes_bind; [apply finishes_attempt|intros _]. apply finishes_ret.
Qed.

Lemma finishes_connect_electronic_load (E : env) (address : string) :
  finishes (ControlBoth.connect_electronic_load E address).
Proof.
  unfold ControlBoth.connect_electronic_load. cbv zeta.
  do 11 (apply finishes_bind; [apply finishes_attempt|intros _]).
  apply finishes_bind; [apply finishes_obtain|intros r].
  match goal with |- finishes (if ?b then _ else _) => destruct b end;
    [apply finishes_raise|].
  apply finishes_bind; [apply finishes_obtain|intros r'].
  apply finishes_bind; [apply finishes_attempt|intros _]. apply finishes_ret.
Qed.

Lemma finishes_sweep_point (E : env) (v_set : Z) (i_set : pynum) :
  finishes (ControlBoth.sweep_point E v_set i_set).
Proof.
  unfold ControlBoth.sweep_point, ControlBoth.measure.
  apply finishes_bind; [apply finishes_q_pressed|intros stop].
  apply finishes_bind.
  { destruct stop; [|apply finishes_ret].
    apply finishes_bind; [apply finishes_attempt|intros _]. apply finishes_raise. }
  intros _.
  apply finishes_bind; [apply finishes_lift, peak_limit_ends|intros peak].
  do 4 (apply finishes_bind; [apply finishes_attempt|intros _]).
  apply finishes_bind; [apply finishes_obtain|intros r]. cbv zeta.
  apply finishes_bind; [apply finishes_lift, py_float_ends|intros rb].
  apply finishes_bind; [apply finishes_lift, check_readback_ends|intros _].
  apply finishes_bind; [apply finishes_attempt|intros _].
  do 3 (apply finishes_bind;
        [apply finishes_bind;
         [apply finishes_obtain|intros ?; apply finishes_lift, parse_float_ends]
        |intros ?]).
  apply finishes_bind; [apply finishes_lift, float_of_int_ends|intros v].
  apply finishes_bind; [apply finishes_lift, to_float_ends|intros i].
  apply finishes_attempt.
Qed.

(** The shipped sweep and what follows the setup in the [try] block. *)
Lemma finishes_shipped_sweep (E : env) (fuel : nat) :
  (6 <= fuel)%nat ->
  finishes (ControlBoth.voltage_sweep E ControlBoth.shipped fuel).
Proof.
  intros Hfuel s. rewrite voltage_sweep_shipped. revert s.
  apply finishes_for_each. intros v. unfold voltage_step.
  do 2 (apply finishes_bind; [apply finishes_attempt|intros _]).
  apply finishes_bind; [|intros _; apply finishes_attempt].
  intros s. rewrite shipped_current_sweep by exact Hfuel. revert s.
  apply finishes_for_each. intros i.
  apply finishes_bind; [apply finishes_sweep_point|intros _].
  apply finishes_attempt.
Qed.

Lemma finishes_set_simulator_socket (v : option socket) :
  finishes (set_simulator_socket v).
Proof. intros s. discriminate. Qed.

Lemma finishes_set_load_instrument (v : option resource) :
  finishes (set_load_instrument v).
Proof. intros s. discriminate. Qed.

Lemma finishes_shipped_run (E : env) (fuel : nat) :
  (6 <= fuel)%nat -> finishes (ControlBoth.run E ControlBoth.shipped fuel).
Proof.
  intros Hfuel. unfold ControlBoth.run.
  apply finishes_bind; [apply finishes_connect_grid_simulator|intros sock].
  apply finishes_bind; [apply finishes_set_simulator_socket|intros _].
  apply finishes_bind; [apply finishes_connect_electronic_load|intros inst].
  apply finishes_bind; [apply finishes_set_load_instrument|intros _].
  do 7 (apply finishes_bind; [apply finishes_attempt|intros _]).
  apply finishes_bind; [apply finishes_shipped_sweep, Hfuel|intros _].
  apply finishes_attempt.
Qed.

(** ** How often the shipped sweep polls the keyboard *)

Lemma sweep_point_polls (E : env) (v_set : Z) (i_set : pynum) :
  within is_poll 1 (ControlBoth.sweep_point E v_set i_set).
Proof.
  intros s. destruct (pass_polls_once E v_set i_set s) as (evs & Hs & Hp).
  exists (KbHit :: evs). split; [exact Hs|].
  change (KbHit :: evs) with ([KbHit] ++ evs). rewrite count_app.
  assert (Hz : count is_poll evs = 0%nat).
  { destruct (count is_poll evs) eqn:Hc; [reflexivity|].
    assert (H1 : (1 <= count is_poll evs)%nat) by lia.
    unfold count in H1. destruct (filter is_poll evs) as [|e l] eqn:Hf;
      [cbn in H1; lia|].
    assert (Hin : In e (filter is_poll evs)) by (rewrite Hf; left; reflexivity).
    apply filter_In in Hin as [Hin He].
    assert (Hex : existsb is_poll evs = true)
      by (apply existsb_exists; exists e; split; assumption).
    congruence. }
  rewrite Hz. cbn. lia.
Qed.

Lemma shipped_sweep_polls (E : env) (fuel : nat) :
  (6 <= fuel)%nat ->
  within is_poll 15 (ControlBoth.voltage_sweep E ControlBoth.shipped fuel).
Proof.
  intros Hfuel.
  assert (Hstep : forall v, within is_poll 5 (voltage_step E fuel v)).
  { intros v. unfold voltage_step.
    apply (within_weaken is_poll (0 + (0 + (5 + 0)))); [|lia].
    apply within_bind; [apply within_attempt_0; reflexivity|intros _].
    apply within_bind; [apply within_attempt_0; reflexivity|intros _].
    apply within_bind; [|intros _; apply within_attempt_0; reflexivity].
    intros s. rewrite shipped_current_sweep by exact Hfuel. revert s.
    apply (within_for_each is_poll 1 currents). intros i.
    apply (within_weaken is_poll (1 + 0)); [|lia].
    apply within_bind; [apply sweep_point_polls|intros _].
    apply within_attempt_0; reflexivity. }
  intros s. rewrite voltage_sweep_shipped. revert s.
  apply (within_for_each is_poll 5 voltages), Hstep.
Qed.

Lemma shipped_run_polls (E : env) (fuel : nat) :
  (6 <= fuel)%nat ->
  (count is_poll (trace (snd (ControlBoth.run E ControlBoth.shipped fuel initial)))
   <= 15)%nat.
Proof.
  intros Hfuel. unfold ControlBoth.run.
  pose proof (connect_grid_simulator_never E ControlBoth.shipped is_poll
                (ControlBoth.SIMULATOR_HOST ControlBoth.shipped)
                (ControlBoth.SIMULATOR_PORT ControlBoth.shipped)
                eq_refl (fun _ => eq_refl) initial) as (evs1 & Hev1 & Hc1).
  unfold bind at 1.
  destruct (ControlBoth.connect_grid_simulator E ControlBoth.shipped _ _ initial)
    as [[sock|x|] s1]; cbn [snd] in *; subst s1;
    try (cbn [extend trace initial app]; lia).
  unfold bind at 1. cbn [set_simulator_socket].
  match goal with
  | |- context [bind (ControlBoth.connect_electronic_load E ?a) ?k ?s0] =>
      pose proof (connect_electronic_load_never E is_poll a
                    eq_refl (fun _ => eq_refl) s0) as (evs2 & Hev2 & Hc2);
      unfold bind at 1;
      destruct (ControlBoth.connect_electronic_load E a s0) as [[inst|x|] s2]
  end; cbn [snd] in *; subst s2;
    try (cbn [extend trace initial app]; rewrite count_app; lia).
  unfold bind at 1. cbn [set_load_instrument].
  match goal with
  | |- context [snd (?m ?s0)] =>
      assert (W : within is_poll 15 m)
  end.
  { apply (within_weaken is_poll (0 + (0 + (0 + (0 + (0 + (0 + (0 + (15 + 0)))))))));
      [|lia].
    do 7 (apply within_bind; [apply within_attempt_0; reflexivity|intros _]).
    apply within_bind; [apply shipped_sweep_polls, Hfuel|intros _].
    apply within_attempt_0; reflexivity. }
  match goal with
  | |- context [snd (?m ?s0)] => destruct (W s0) as (evs3 & Hev3 & Hc3)
  end.
  rewrite Hev3. cbn [extend trace initial app]. rewrite !count_app. lia.
Qed.

Lemma for_each_ext {A : Type} (l : list A) (f g : A -> M unit) :
  (forall x s, f x s = g x s) -> forall s, for_each l f s = for_each l g s.
Proof.
  intros H. induction l as [|x l IH]; intros s; cbn [for_each]; [reflexivity|].
  unfold bind. rewrite H. destruct (g x s) as [[u|e|] s1]; [apply IH|reflexivity..].
Qed.

(** With fuel for six passes of the inner loop, more fuel changes nothing. *)
Lemma shipped_fuel (E : env) (fuel : nat) (s : state) :
  (6 <= fuel)%nat ->
  ControlBoth.main E ControlBoth.shipped fuel s
  = ControlBoth.main E ControlBoth.shipped 6 s.
Proof.
  intros Hfuel.
  assert (Hsweep : forall s0,
            ControlBoth.voltage_sweep E ControlBoth.shipped fuel s0
            = ControlBoth.voltage_sweep E ControlBoth.shipped 6 s0).
  { intros s0. rewrite !voltage_sweep_shipped. apply for_each_ext.
    intros v s1. unfold voltage_step. do 2 (apply bind_ext; intros _ ?).
    unfold bind at 1 2. rewrite !shipped_current_sweep by lia. reflexivity. }
  assert (Hrun : ControlBoth.run E ControlBoth.shipped fuel s
                 = ControlBoth.run E ControlBoth.shipped 6 s).
  { unfold ControlBoth.run. do 11 (apply bind_ext; intros ? ?).
    unfold bind at 1 2. rewrite Hsweep. reflexivity. }
  unfold ControlBoth.main, try_finally, try_except. rewrite Hrun. reflexivity.
Qed.

Lemma count_poll_plan (k : nat) (sim : option socket) (load : option resource) :
  count is_poll (firstn k (shutdown_plan sim load)) = 0%nat.
Proof.
  pose proof (count_firstn is_poll k (shutdown_plan sim load)) as H.
  destruct sim, load;
    match type of H with
    | (_ <= count ?P ?pl)%nat => change (count P pl) with 0%nat in H
    end; lia.
Qed.

(** X6: whatever the instruments answer, whatever raises and whatever is
    typed, the shipped sweep ends: the inner loop stops after at most five
    passes for each of the three voltages, so the script polls the
    keyboard (and so begins a pass) at most fifteen times; with fuel for
    six passes of the inner loop the model never runs out of fuel, and
    more fuel changes nothing. *)
Theorem X6_shipped_sweep_always_ends (E : env) (fuel : nat) :
  (6 <= fuel)%nat ->
  fst (ControlBoth.main E ControlBoth.shipped fuel initial) <> OutOfFuel
  /\ (count is_poll
        (trace (snd (ControlBoth.main E ControlBoth.shipped fuel initial)))
      <= 15)%nat
  /\ ControlBoth.main E ControlBoth.shipped fuel initial
     = ControlBoth.main E ControlBoth.shipped 6 initial.
Proof.
  intros Hfuel.
  destruct (ControlBoth.run E ControlBoth.shipped fuel initial) as [r s'] eqn:Hrun.
  assert (Hr : r <> OutOfFuel).
  { pose proof (finishes_shipped_run E fuel Hfuel initial) as H.
    rewrite Hrun in H. exact H. }
  destruct (main_after_run E ControlBoth.shipped fuel r s' Hrun Hr) as [Hs Hf].
  split; [exact Hf|]. split; [|apply shipped_fuel, Hfuel].
  pose proof (attempts_spec E
                (shutdown_plan (simulator_socket s') (load_instrument s'))
                (extend s' (reported r))) as (k & Hk & _).
  rewrite Hs, Hk, !trace_extend, !count_app, count_poll_plan.
  pose proof (shipped_run_polls E fuel Hfuel) as Hp. rewrite Hrun in Hp.
  cbn [snd] in Hp.
  assert (Hrep : count is_poll (reported r) = 0%nat)
    by (destruct r as [[]|x|]; reflexivity).
  lia.
Qed.

Lemma X6_shipped_sweep_always_ends_witness :
  (count is_poll
     (trace (snd (ControlBoth.main (answering "ERR") ControlBoth.shipped 9 initial)))
   <= 15)%nat
  /\ ControlBoth.main (answering "ERR") ControlBoth.shipped 9 initial
     = ControlBoth.main (answering "ERR") ControlBoth.shipped 6 initial.
Proof.
  exact (proj2 (X6_shipped_sweep_always_ends (answering "ERR") 9
                  ltac:(vm_compute; lia))).
Defined.

(** ** Axes that do not advance *)

(** X7: the inner loop of [Control_Both.py] has no guard on its step.  On
    an axis of integers with a step that is zero or negative and a start
    that is not above the stop, the test of the loop never ends it: as
    long as the passes for the currents it reaches (the start, the start
    plus the step, and so on) complete, the loop goes on, and with fuel
    for any number of such passes the model is still running when the
    fuel is spent. *)
Theorem X7_current_step_must_be_positive
        (E : env) (C : ControlBoth.config) (body : pynum -> M unit)
        (stop step : Z) (fuel : nat) (i : Z) (s : state) :
  ControlBoth.CURRENT_STOP_A C = PyInt stop ->
  ControlBoth.CURRENT_STEP_A C = PyInt step ->
  step <= 0 ->
  i <= stop ->
  (forall (n : nat) (s' : state),
      (n < fuel)%nat -> fst (body (PyInt (i + Z.of_nat n * step)) s') = Ok tt) ->
  (forall h, fault E (h ++ [Sleep (ControlBoth.INTERVAL_S C)]) = None) ->
  fst (ControlBoth.current_sweep E C fuel body (PyInt i) s) = OutOfFuel.
Proof.
  intros Hstop Hstep Hneg Hi Hbody Hsleep.
  revert i s Hi Hbody.
  induction fuel as [|fuel IH]; intros i s Hi Hbody; [reflexivity|].
  cbn [ControlBoth.current_sweep]. rewrite Hstop, Hstep. cbn [py_le].
  destruct (Z.leb_spec i stop); [|lia].
  unfold bind at 1. pose proof (Hbody 0%nat s (Nat.lt_0_succ _)) as H0.
  replace (i + Z.of_nat 0 * step) with i in H0 by lia.
  destruct (body (PyInt i) s) as [[[]|x|] s1]; cbn [fst] in H0;
    try discriminate.
  cbn [py_add arith]. rewrite bind_lift_ok.
  rewrite (bind_ok _ _ _ _ _ (sleep_ok E _ s1 (Hsleep _))).
  apply IH; [lia|]. intros n s' Hn.
  replace (i + step + Z.of_nat n * step) with (i + Z.of_nat (S n) * step)
    by lia.
  apply Hbody. lia.
Qed.

Lemma X7_current_step_must_be_positive_witness :
  fst (stuck_sweep 1000) = OutOfFuel.
Proof.
  apply (X7_current_step_must_be_positive
           (answering "0") (with_current_axis (PyInt 0) (PyInt 10) (PyInt 0))
           (ControlBoth.sweep_point (answering "0") 100) 10 0 1000 0 initial
           eq_refl eq_refl).
  - lia.
  - lia.
  - intros n s' _. replace (0 + Z.of_nat n * 0) with 0 by lia.
    rewrite (sweep_point_measured (answering "0") 100 (PyInt 0) (PyFloat 0.1)
               s' 0%float 100%float 0%float);
      [reflexivity | intros h; reflexivity | reflexivity ..].
  - intros h. reflexivity.
Defined.

(** The setup of [Control_Both.py], up to the start of the sweep, for any
    configuration. *)
Lemma setup_reaches_sweep (E : env) (C : ControlBoth.config) (fuel : nat) :
  faultless E -> status_accepted E ->
  exists pre,
    marks pre = [] /\ existsb is_output_on pre = true
    /\ ControlBoth.run E C fuel initial
       = bind (ControlBoth.voltage_sweep E C fuel)
              (fun _ => print E (Say "--- Sweep Completed Successfully ---"))
              (sweeping pre).
Proof.
  intros HF HS. unfold ControlBoth.run.
  destruct (connect_grid_simulator_ok E C (ControlBoth.SIMULATOR_HOST C)
              (ControlBoth.SIMULATOR_PORT C) initial HF)
    as (outs & Hsim & Hlines).
  rewrite (bind_ok _ _ _ _ _ Hsim).
  rewrite (bind_ok _ _ _ _ _ (set_simulator_socket_ok _ _)).
  erewrite bind_ok.
  2:{ apply connect_electronic_load_accepted; [exact HF|].
      unfold load_setup_ops.
      match goal with
      | |- context [received E (?h ++ ?l)] =>
          replace (h ++ l) with ((h ++ removelast l) ++ [Query (Lit "SYSTem:ERRor?")])
      end.
      - apply HS.
      - rewrite <- app_assoc. reflexivity. }
  rewrite (bind_ok _ _ _ _ _ (set_load_instrument_ok _ _)).
  steps HF.
  destruct (safety_lines_unmarked outs Hlines) as [Hm Hr].
  eexists. split; [|split; [|unfold sweeping, extend;
    cbn [trace simulator_socket load_instrument initial app]; reflexivity]].
  - rewrite !marks_app, Hm. reflexivity.
  - rewrite !existsb_app. cbn. rewrite !orb_true_r. reflexivity.
Qed.

(** X8: the edges of the voltage axis of [Control_Both.py], when no
    operation raises and the load reports no error.  The setup is
    completed and the output of the simulator turned on as always.  With
    a voltage step of zero, [range] then raises [ValueError]: no voltage
    is set, nothing is polled or measured, the error is reported and the
    shutdown follows.  With a positive step and a start above the stop, or
    a negative step and a start not above the stop, the axis is empty:
    no voltage is set, nothing is polled or measured, and the script
    reports the sweep as completed before the shutdown. *)
Theorem X8_voltage_axis_edges
        (E : env) (C : ControlBoth.config) (fuel : nat) :
  faultless E -> status_accepted E ->
  exists pre,
    marks pre = [] /\ existsb is_output_on pre = true
    /\ (ControlBoth.VOLTAGE_STEP_V C = 0 ->
        ControlBoth.main E C fuel initial
        = (Ok tt,
           extend (sweeping pre)
             (Print (Failed ValueError) :: shutdown_plan (Some Sock) (Some Inst))))
    /\ ((0 < ControlBoth.VOLTAGE_STEP_V C
         /\ ControlBoth.VOLTAGE_STOP_V C < ControlBoth.VOLTAGE_START_V C)
        \/ (ControlBoth.VOLTAGE_STEP_V C < 0
            /\ ControlBoth.VOLTAGE_START_V C <= ControlBoth.VOLTAGE_STOP_V C + 1) ->
        ControlBoth.main E C fuel initial
        = (Ok tt,
           extend (sweeping pre)
             (Print (Say "--- Sweep Completed Successfully ---")
              :: shutdown_plan (Some Sock) (Some Inst)))).
Proof.
  intros HF HS.
  destruct (setup_reaches_sweep E C fuel HF HS) as (pre & Hm & Hon & Hrun).
  exists pre. split; [exact Hm|]. split; [exact Hon|]. split.
  - intros Hstep.
    assert (Hsweep : ControlBoth.voltage_sweep E C fuel (sweeping pre)
                     = (Raise ValueError, sweeping pre)).
    { unfold ControlBoth.voltage_sweep, range. rewrite Hstep. reflexivity. }
    unfold ControlBoth.main. erewrite try_finally_ok.
    + reflexivity.
    + erewrite try_except_raise.
      * apply print_ok, HF.
      * rewrite Hrun. apply bind_raise. exact Hsweep.
      * reflexivity.
    + rewrite shutdown_as_plan, attempts_faultless by exact HF.
      rewrite extend_extend. reflexivity.
  - intros Hempty.
    assert (Hsweep : ControlBoth.voltage_sweep E C fuel (sweeping pre)
                     = (Ok tt, sweeping pre)).
    { unfold ControlBoth.voltage_sweep, range, range_len.
      destruct (Z.eqb_spec (ControlBoth.VOLTAGE_STEP_V C) 0); [lia|].
      destruct (Z.ltb_spec 0 (ControlBoth.VOLTAGE_STEP_V C)).
      - destruct (Z.ltb_spec (ControlBoth.VOLTAGE_START_V C)
                    (ControlBoth.VOLTAGE_STOP_V C + 1)); [lia|]. reflexivity.
      - destruct (Z.ltb_spec (ControlBoth.VOLTAGE_STEP_V C) 0); [|lia].
        destruct (Z.ltb_spec (ControlBoth.VOLTAGE_STOP_V C + 1)
                    (ControlBoth.VOLTAGE_START_V C)); [lia|]. reflexivity. }
    unfold ControlBoth.main. erewrite try_finally_ok.
    + reflexivity.
    + unfold try_except. rewrite Hrun, (bind_ok _ _ _ _ _ Hsweep).
      rewrite (print_ok _ _ _ (HF _)). reflexivity.
    + rewrite shutdown_as_plan, attempts_faultless by exact HF.
      rewrite extend_extend. reflexivity.
Qed.

Lemma X8_voltage_axis_edges_witness :
  let E := bench show "120.1" (fun _ => None) in
  exists pre,
    ControlBoth.main E (with_voltage_axis 100 150 0) 6 initial
    = (Ok tt,
       extend (sweeping pre)
         (Print (Failed ValueError) :: shutdown_plan (Some Sock) (Some Inst))).
Proof.
  intros E.
  destruct (X8_voltage_axis_edges E (with_voltage_axis 100 150 0) 6
              (bench_faultless _ _ _) (bench_status_accepted _ _ _))
    as (pre & _ & _ & Hzero & _).
  exists pre. exact (Hzero eq_refl).
Defined.

(** ** Keys other than [q] *)

Lemma lower_is_q (c : ascii) :
  Ascii.eqb (lower c) "q" = Ascii.eqb c "q" || Ascii.eqb c "Q".
Proof. destruct c as [[] [] [] [] [] [] [] []]; reflexivity. Qed.

Lemma q_pressed_undecodable (E : env) (s : state) (c : ascii) :
  fault E (trace s ++ [KbHit]) = None ->
  key E (trace s ++ [KbHit]) = Some c ->
  fault E (trace s ++ [KbHit; GetCh]) = None ->
  q_pressed E s
  = (if (code c <? 128)%N
     then Ok (Ascii.eqb c "q" || Ascii.eqb c "Q")
     else Raise UnicodeDecodeError,
     extend s [KbHit; GetCh]).
Proof.
  intros H1 Hk H2. unfold q_pressed. cbn [trace log]. rewrite H1, Hk.
  rewrite log_extend. erewrite bind_ok.
  2:{ apply attempt_ok. rewrite trace_extend, <- app_assoc. exact H2. }
  rewrite extend_extend. cbn [app].
  destruct (code c <? 128)%N; [|reflexivity].
  unfold ret. rewrite lower_is_q. reflexivity.
Qed.

(** X9: a key that is waiting when the keyboard is polled is always
    read.  The sweep stops for [q] and for [Q] only; any other key below
    128 is dropped and the pass goes on with its peak-limit command; and a
    byte from 128 on (the first byte of an arrow or function key) does not
    decode, so the pass raises [UnicodeDecodeError] before any command is
    sent to the load. *)
Theorem X9_keys_at_the_poll
        (E : env) (v_set : Z) (i_set : pynum) (s : state) (c : ascii) :
  fault E (trace s ++ [KbHit]) = None ->
  key E (trace s ++ [KbHit]) = Some c ->
  fault E (trace s ++ [KbHit; GetCh]) = None ->
  q_pressed E s
  = (if (code c <? 128)%N
     then Ok (Ascii.eqb c "q" || Ascii.eqb c "Q")
     else Raise UnicodeDecodeError,
     extend s [KbHit; GetCh])
  /\ ((128 <= code c)%N ->
      ControlBoth.sweep_point E v_set i_set s
      = (Raise UnicodeDecodeError, extend s [KbHit; GetCh]))
  /\ ((code c < 128)%N -> c <> "q"%char -> c <> "Q"%char ->
      forall peak, ControlBoth.peak_limit i_set = Ok peak ->
      exists evs,
        snd (ControlBoth.sweep_point E v_set i_set s)
        = extend s (KbHit :: GetCh
                    :: Write (Fmt "CURRent:PEAK:MAXimum:AC " peak) :: evs)).
Proof.
  intros H1 Hk H2.
  pose proof (q_pressed_undecodable E s c H1 Hk H2) as Hq.
  split; [exact Hq|]. split.
  - intros Hc. apply N.ltb_ge in Hc. rewrite Hc in Hq.
    unfold ControlBoth.sweep_point. apply bind_raise. exact Hq.
  - intros Hc Hnq HnQ peak Hp. apply N.ltb_lt in Hc. rewrite Hc in Hq.
    destruct (Ascii.eqb_spec c "q"); [contradiction|].
    destruct (Ascii.eqb_spec c "Q"); [contradiction|].
    unfold ControlBoth.sweep_point.
    rewrite (bind_ok _ _ _ _ _ Hq). cbn [orb]. rewrite bind_ret, Hp, bind_lift_ok.
    match goal with
    | |- context [bind (attempt E ?e) ?k ?s0] =>
        destruct (fault E (trace s0 ++ [e])) as [y|] eqn:Hf;
        [ rewrite (bind_raise _ _ _ _ _ (attempt_raise E e s0 _ Hf));
          exists []; rewrite extend_extend; reflexivity
        | rewrite (bind_ok _ _ _ _ _ (attempt_ok E e s0 Hf)) ]
    end.
    match goal with
    | |- context [snd (?m ?s0)] =>
        assert (W : within (fun _ => false) 0 m)
    end.
    { do 3 (apply within_bind_0; [apply within_attempt_0; reflexivity|intros _]).
      apply within_bind_0; [apply within_obtain_0; reflexivity|intros r].
      cbv zeta.
      do 2 (apply within_bind_0; [apply within_lift|intros ?]).
      apply within_bind_0; [apply within_attempt_0; reflexivity|intros _].
      do 3 (apply within_bind_0; [apply measure_never; reflexivity|intros ?]).
      do 2 (apply within_bind_0; [apply within_lift|intros ?]).
      apply within_attempt_0; reflexivity. }
    match goal with
    | |- context [snd (?m ?s0)] => destruct (W s0) as (evs & Hev & _)
    end.
    exists evs. rewrite Hev, !extend_extend. reflexivity.
Qed.

Lemma X9_keys_at_the_poll_witness :
  ControlBoth.sweep_point (key_waiting (ascii_of_N 224)) 100 (PyInt 0) initial
  = (Raise UnicodeDecodeError, extend initial [KbHit; GetCh]).
Proof.
  apply (proj1 (proj2 (X9_keys_at_the_poll
                         (key_waiting (ascii_of_N 224)) 100 (PyInt 0) initial
                         (ascii_of_N 224) eq_refl eq_refl eq_refl))).
  vm_compute. discriminate.
Defined.

(** ** The steps of [Control Load.py] *)

Lemma ask_ok (E : env) (q : string) (s : state) :
  fault E (trace s ++ [Query (Lit q)]) = None ->
  ControlLoad.ask E q s
  = (Ok (strip (received E (trace s ++ [Query (Lit q)]))),
     extend s [Query (Lit q)]).
Proof.
  intros H. unfold ControlLoad.ask.
  rewrite (bind_ok _ _ _ _ _ (obtain_ok _ _ _ H)). reflexivity.
Qed.

Lemma ask_raise (E : env) (q : string) (s : state) (x : exn) :
  fault E (trace s ++ [Query (Lit q)]) = Some x ->
  ControlLoad.ask E q s = (Raise x, extend s [Query (Lit q)]).
Proof.
  intros H. unfold ControlLoad.ask. apply bind_raise, obtain_raise, H.
Qed.

(** A step up to the readback of the setpoint, when nothing raises and
    the load confirms that it is on. *)
Lemma step_to_readback (E : env) (i : Z) (s : state) :
  faultless E ->
  let load_status := strip (received E (trace s ++ step_status_ops)) in
  str_in load_status ["1"; "OK"] = true ->
  ControlLoad.step E i s
  = bind (lift (py_float (VStr (strip (received E
            (trace s ++ step_status_ops ++ step_setpoint_ops load_status i))))))
      (fun readback_current =>
         bind (print E (Setpoint readback_current)) (fun _ =>
         bind (lift (ControlLoad.check_readback readback_current i)) (fun _ =>
         bind (sleep E (PyInt 2)) (fun _ =>
         bind (print E (Say "Verifying settings by taking live measurements...")) (fun _ =>
         bind (ControlLoad.ask E "MEASure:VOLTage?") (fun v_meas_str =>
         bind (ControlLoad.ask E "MEASure:CURRent?") (fun i_meas_str =>
         bind (ControlLoad.ask E "MEASure:POWer?") (fun p_meas_str =>
         bind (lift (ControlLoad.parse_float (VStr v_meas_str))) (fun v_meas =>
         bind (lift (ControlLoad.parse_float (VStr i_meas_str))) (fun i_meas =>
         bind (lift (ControlLoad.parse_float (VStr p_meas_str))) (fun p_meas =>
         bind (print E (Say "--- Live Readings ---")) (fun _ =>
         bind (print E (Reading "Voltage" v_meas)) (fun _ =>
         bind (print E (Reading "Current" i_meas)) (fun _ =>
         bind (print E (Reading "Power" p_meas)) (fun _ =>
         bind (print E (Say "------------------------")) (fun _ =>
         sleep E (PyInt 5)))))))))))))))))
      (extend s (step_status_ops ++ step_setpoint_ops load_status i)).
Proof.
  intros HF load_status Hon. unfold ControlLoad.step. steps HF.
  rewrite (bind_ok _ _ _ _ _ (ask_ok E _ _ (HF _))), extend_extend. cbn [app].
  flatten_history. fold step_status_ops. fold load_status.
  steps HF. rewrite Hon. cbn [negb]. rewrite bind_ret. steps HF.
  rewrite (bind_ok _ _ _ _ _ (ask_ok E _ _ (HF _))), extend_extend. cbn [app].
  flatten_history. reflexivity.
Qed.

(** X10: in a step of [Control Load.py] the current is set only when the
    load has confirmed that it is on.  When the stripped answer to the
    status query is neither [1] nor [OK], then whatever the world does the
    step does not return and writes no current setpoint; and when no
    operation raises, it raises the error of the load that did not turn on
    right after printing the status. *)
Theorem X10_current_is_set_only_when_the_load_is_on
        (E : env) (i : Z) (s : state) :
  let load_status := strip (received E (trace s ++ step_status_ops)) in
  str_in load_status ["1"; "OK"] = false ->
  (exists evs,
      snd (ControlLoad.step E i s) = extend s evs
      /\ count is_current_setpoint evs = 0%nat
      /\ fst (ControlLoad.step E i s) <> Ok tt)
  /\ (faultless E ->
      ControlLoad.step E i s
      = (Raise (PyException LoadOnFailed),
         extend s (step_status_ops ++ [Print (LoadStatus load_status)]))).
Proof.
  intros load_status Hoff. split.
  - unfold ControlLoad.step.
    walk; [eexists; repeat split; discriminate|].
    walk; [eexists; repeat split; discriminate|].
    match goal with
    | |- context [bind (ControlLoad.ask E ?q) ?k ?s0] =>
        destruct (fault E (trace s0 ++ [Query (Lit q)])) as [y|] eqn:Hq;
        [ rewrite (bind_raise _ _ _ _ _ (ask_raise E q s0 _ Hq)), extend_extend;
          eexists; repeat split; discriminate
        | rewrite (bind_ok _ _ _ _ _ (ask_ok E q s0 Hq)), extend_extend ]
    end.
    cbn [app]. flatten_history. fold step_status_ops. fold load_status.
    walk; [eexists; repeat split; discriminate|].
    rewrite Hoff. cbn [negb]. unfold bind at 1, raise. cbn [snd fst].
    eexists. repeat split. discriminate.
  - intros HF. unfold ControlLoad.step. steps HF.
    rewrite (bind_ok _ _ _ _ _ (ask_ok E _ _ (HF _))), extend_extend. cbn [app].
    flatten_history. fold step_status_ops. fold load_status.
    steps HF. rewrite Hoff. reflexivity.
Qed.

Lemma X10_current_is_set_only_when_the_load_is_on_witness :
  ControlLoad.step (answering "0") 3 initial
  = (Raise (PyException LoadOnFailed),
     extend initial (step_status_ops ++ [Print (LoadStatus "0")])).
Proof.
  exact (proj2 (X10_current_is_set_only_when_the_load_is_on
                  (answering "0") 3 initial eq_refl) (fun _ => eq_refl)).
Defined.

(** A step whose readback is verified: it goes on to the measurements and
    writes nothing more to the load. *)
Lemma load_step_verified (E : env) (i : Z) (s : state) (readback : float) :
  faultless E ->
  let load_status := strip (received E (trace s ++ step_status_ops)) in
  let asked := step_status_ops ++ step_setpoint_ops load_status i in
  str_in load_status ["1"; "OK"] = true ->
  py_float (VStr (strip (received E (trace s ++ asked)))) = Ok readback ->
  ControlLoad.check_readback readback i = Ok tt ->
  exists evs,
    ControlLoad.step E i s
    = (Ok tt, extend s (asked ++ Print (Setpoint readback) :: evs))
    /\ writes evs = [].
Proof.
  intros HF load_status asked Hon Ha Hc.
  pose proof (step_to_readback E i s HF Hon) as Hstep.
  fold load_status in Hstep. fold asked in Hstep.
  rewrite Hstep, Ha, bind_lift_ok. step HF.
  rewrite Hc, bind_lift_ok. steps HF.
  do 3 (rewrite (bind_ok _ _ _ _ _ (ask_ok E _ _ (HF _))), extend_extend;
        cbn [app]).
  assert (Hp : forall t, exists f, ControlLoad.parse_float (VStr t) = Ok f).
  { intros t. unfold ControlLoad.parse_float, py_float.
    destruct (float_of_str t); eexists; reflexivity. }
  do 3 (match goal with
        | |- context [lift (ControlLoad.parse_float (VStr ?t))] =>
            let f := fresh "f" in
            let Hf := fresh "Hf" in
            destruct (Hp t) as (f & Hf); rewrite Hf, bind_lift_ok
        end).
  steps HF. rewrite (sleep_ok _ _ _ (HF _)), extend_extend. cbn [app].
  eexists. split; [reflexivity|]. reflexivity.
Qed.

(** X11: the verification of the setpoint in a step of [Control Load.py],
    when no operation raises and the load is on.  A readback that is no
    number raises [ValueError] right after the readback query.  A readback
    that is a number is first shown with the message of the successful
    verification, and only then checked: when it differs from the current
    of the step by more than 0.1, the step raises the error of the current
    that was not set after that message, and the error names 10.0 (the
    constant [ISET_A]) as the expected value, whatever the current of the
    step is.  In both cases no measurement is taken. *)
Theorem X11_setpoint_verification_of_the_load_script
        (E : env) (i : Z) (s : state) :
  faultless E ->
  let load_status := strip (received E (trace s ++ step_status_ops)) in
  let asked := step_status_ops ++ step_setpoint_ops load_status i in
  let answer := py_float (VStr (strip (received E (trace s ++ asked)))) in
  str_in load_status ["1"; "OK"] = true ->
  (answer = Raise ValueError ->
   ControlLoad.step E i s = (Raise ValueError, extend s asked))
  /\ (forall readback d,
        answer = Ok readback ->
        py_sub (PyFloat readback) (PyInt i) = Ok d ->
        py_gt (py_abs d) (PyFloat 0.1) = true ->
        ControlLoad.step E i s
        = (Raise (PyException (CurrentNotSet (PyFloat 10) readback)),
           extend s (asked ++ [Print (Setpoint readback)])))
  /\ (forall readback,
        answer = Ok readback ->
        ControlLoad.check_readback readback i = Ok tt ->
        exists evs,
          ControlLoad.step E i s
          = (Ok tt, extend s (asked ++ Print (Setpoint readback) :: evs))
          /\ writes evs = []).
Proof.
  intros HF load_status asked answer Hon.
  pose proof (step_to_readback E i s HF Hon) as Hstep.
  fold load_status in Hstep. fold asked in Hstep. fold answer in Hstep.
  split; [|split].
  - intros Ha. rewrite Hstep, Ha. reflexivity.
  - intros readback d Ha Hd Hgt. rewrite Hstep, Ha, bind_lift_ok. step HF.
    unfold ControlLoad.check_readback. rewrite Hd. cbn [rbind]. rewrite Hgt.
    reflexivity.
  - intros readback Ha Hc.
    exact (load_step_verified E i s readback HF Hon Ha Hc).
Qed.

Lemma X11_setpoint_verification_of_the_load_script_witness :
  ControlLoad.step (answering "1") 3 initial
  = (Raise (PyException (CurrentNotSet (PyFloat 10) 1)),
     extend initial (step_status_ops ++ step_setpoint_ops "1" 3
                     ++ [Print (Setpoint 1)])).
Proof.
  pose proof (proj1 (proj2 (X11_setpoint_verification_of_the_load_script
                              (answering "1") 3 initial (fun _ => eq_refl) eq_refl))
                    1%float (PyFloat (-2)) eq_refl eq_refl eq_refl) as H.
  rewrite <- app_assoc in H. exact H.
Defined.

(** ** The course of [Control Load.py] *)

Lemma writes_app (a b : list event) : writes (a ++ b) = writes a ++ writes b.
Proof. apply flat_map_app. Qed.

Lemma load_step_completes (E : env) (i : Z) (s : state) :
  faultless E -> load_confirms_on E -> setpoints_verify E -> 0 <= i <= 10 ->
  exists evs,
    ControlLoad.step E i s = (Ok tt, extend s evs)
    /\ writes evs = step_writes i.
Proof.
  intros HF Hon Hver Hi.
  assert (Hst : str_in (strip (received E (trace s ++ step_status_ops))) ["1"; "OK"]
                = true).
  { unfold step_status_ops.
    replace (trace s ++ [Print (Say "Sending LOAD ON command..."); Write (Lit "LOAD ON");
                         Query (Lit "LOAD:STATus?")])
      with ((trace s ++ [Print (Say "Sending LOAD ON command..."); Write (Lit "LOAD ON")])
            ++ [Query (Lit "LOAD:STATus?")])
      by (rewrite <- app_assoc; reflexivity).
    apply Hon. }
  set (load_status := strip (received E (trace s ++ step_status_ops))) in *.
  destruct (Hver (trace s ++ step_status_ops
                  ++ [Print (LoadStatus load_status); Print (SettingCurrent i)]) i Hi)
    as (readback & Hrb & Hc).
  rewrite <- !app_assoc in Hrb. cbn [app] in Hrb.
  destruct (load_step_verified E i s readback HF Hst Hrb Hc) as (evs & Hstep & Hw).
  eexists. split; [exact Hstep|].
  fold load_status. rewrite !writes_app.
  change (Print (Setpoint readback) :: evs) with ([Print (Setpoint readback)] ++ evs).
  rewrite writes_app, Hw. reflexivity.
Qed.

Lemma load_steps_complete (E : env) (l : list Z) :
  faultless E -> load_confirms_on E -> setpoints_verify E ->
  Forall (fun i => 0 <= i <= 10) l ->
  forall s,
    exists evs,
      for_each l (ControlLoad.step E) s = (Ok tt, extend s evs)
      /\ writes evs = flat_map step_writes l.
Proof.
  intros HF Hon Hver. induction l as [|i l IH]; intros Hl s.
  - exists []. cbn [for_each]. unfold ret. rewrite extend_nil. split; reflexivity.
  - inversion Hl as [|? ? Hi Hl']; subst. cbn [for_each].
    destruct (load_step_completes E i s HF Hon Hver Hi) as (e1 & H1 & Hw1).
    rewrite (bind_ok _ _ _ _ _ H1).
    destruct (IH Hl' (extend s e1)) as (e2 & H2 & Hw2).
    exists (e1 ++ e2). rewrite H2, extend_extend, writes_app, Hw1, Hw2.
    split; reflexivity.
Qed.

(** X12: the course of [Control Load.py] when no operation raises, the
    load reports no error, confirms each time that it is on, and reads
    every setpoint back within the tolerance.  The script steps through
    the currents 0, 1, ..., 10 (one more than the integer part of
    [ISET_A]); the lines written to the load are those of the setup, then
    for each current in turn [LOAD ON], the setpoint and [LOAD ON] again,
    then those of the cleanup; the run returns, and it ends with the
    message of the completed loop, the wait for the [Enter] key and the
    whole cleanup. *)
Theorem X12_load_script_course (E : env) :
  faultless E -> status_accepted E -> load_confirms_on E -> setpoints_verify E ->
  rbind (int_of_float ControlLoad.ISET_A) (fun n => range 0 (n + 1) 1)
  = Ok load_currents
  /\ fst (ControlLoad.main E initial) = Ok tt
  /\ writes (trace (snd (ControlLoad.main E initial)))
     = load_configure_writes ++ flat_map step_writes load_currents
       ++ [Lit "LOAD OFF"; Lit "CURRent 0"; Lit "*RST"]
  /\ exists pre,
       trace (snd (ControlLoad.main E initial))
       = pre ++ [ Print (Say "--- Loop Complete ---");
                  Input "--> Press Enter to turn load OFF and exit. " ]
             ++ cleanup_plan (Some Inst).
Proof.
  intros HF HS Hon Hver. split; [reflexivity|].
  assert (Hsetup : exists pre,
            writes pre = load_configure_writes
            /\ ControlLoad.run E initial
               = bind (for_each load_currents (ControlLoad.step E)) (fun _ =>
                 bind (print E (Say "--- Loop Complete ---")) (fun _ =>
                 attempt E (Input "--> Press Enter to turn load OFF and exit. ")))
                   (load_connected pre)).
  { unfold ControlLoad.run. erewrite bind_ok.
    2:{ apply connect_and_configure_load_accepted; [exact HF|].
        unfold load_configure_ops.
        match goal with
        | |- context [received E (?h ++ ?l)] =>
            replace (h ++ l)
              with ((h ++ removelast l) ++ [Query (Lit "SYSTem:ERRor?")])
        end.
        - apply HS.
        - rewrite <- app_assoc. reflexivity. }
    rewrite (bind_ok _ _ _ _ _ (set_load_instrument_ok _ _)).
    steps HF. eexists. split; [|reflexivity].
    cbn [trace extend initial app]. reflexivity. }
  destruct Hsetup as (pre & Hwp & Hrun).
  destruct (load_steps_complete E load_currents HF Hon Hver) with (s := load_connected pre)
    as (evs & Hsteps & Hw).
  { unfold load_currents. repeat constructor; lia. }
  assert (Hmain : ControlLoad.main E initial
                  = (Ok tt,
                     extend (load_connected pre)
                       (evs ++ [ Print (Say "--- Loop Complete ---");
                                 Input "--> Press Enter to turn load OFF and exit. " ]
                            ++ cleanup_plan (Some Inst)))).
  { unfold ControlLoad.main. erewrite try_finally_ok.
    - reflexivity.
    - unfold try_except. rewrite Hrun, (bind_ok _ _ _ _ _ Hsteps). steps HF.
      rewrite (attempt_ok _ _ _ (HF _)), extend_extend. reflexivity.
    - rewrite cleanup_as_plan, attempts_faultless by exact HF.
      rewrite extend_extend. cbn [load_instrument extend load_connected].
      rewrite <- !app_assoc. reflexivity. }
  rewrite Hmain. cbn [fst snd]. split; [reflexivity|]. split.
  - rewrite trace_extend. change (trace (load_connected pre)) with pre.
    rewrite !writes_app, Hwp, Hw. reflexivity.
  - exists (pre ++ evs). rewrite trace_extend, <- app_assoc. reflexivity.
Qed.

Lemma bench_load_confirms_on (readback : pynum -> string)
      (keys : list event -> option ascii) :
  load_confirms_on (bench readback "1" keys).
Proof. intros h. cbn [received bench]. rewrite rev_unit. reflexivity. Qed.

Lemma bench_setpoints_verify (measured : string)
      (keys : list event -> option ascii) :
  setpoints_verify (bench show_amperes measured keys).
Proof.
  intros h i Hi. cbn [received bench]. rewrite rev_app_distr. cbn [rev app].
  assert (Hcases : i = 0 \/ i = 1 \/ i = 2 \/ i = 3 \/ i = 4 \/ i = 5 \/ i = 6
                   \/ i = 7 \/ i = 8 \/ i = 9 \/ i = 10) by lia.
  repeat (destruct Hcases as [->|Hcases];
          [eexists; split; vm_compute; reflexivity|]).
  subst i. eexists; split; vm_compute; reflexivity.
Qed.

Lemma X12_load_script_course_witness :
  let E := bench show_amperes "1" (fun _ => None) in
  fst (ControlLoad.main E initial) = Ok tt
  /\ writes (trace (snd (ControlLoad.main E initial)))
     = load_configure_writes ++ flat_map step_writes load_currents
       ++ [Lit "LOAD OFF"; Lit "CURRent 0"; Lit "*RST"].
Proof.
  intros E.
  pose proof (X12_load_script_course E
                (bench_faultless _ _ _) (bench_status_accepted _ _ _)
                (bench_load_confirms_on _ _) (bench_setpoints_verify _ _)) as H.
  split; [exact (proj1 (proj2 H)) | exact (proj1 (proj2 (proj2 H)))].
Defined.

(** ** A setup of the load script that fails *)

Lemma connect_and_configure_load_never (E : env) (P : event -> bool)
      (address : string) :
  forallb (fun e => negb (P e))
    (load_configure_ops address ++ [Query (Lit "*IDN?")]) = true ->
  (forall o, P (Print o) = false) ->
  within P 0 (ControlLoad.connect_and_configure_load E address).
Proof.
  intros H HP. unfold ControlLoad.connect_and_configure_load, load_configure_ops in *.
  cbn [app] in H. cbv zeta. do 16 next_op H.
  apply forallb_cons_negb in H as [H1 H]. apply forallb_cons_negb in H as [H2 H].
  apply within_bind_0; [apply within_obtain_0, H1|intros r].
  match goal with |- within _ _ (if ?b then _ else _) => destruct b end.
  - apply within_raise.
  - apply within_bind_0; [apply within_obtain_0, H2|intros r'].
    apply within_bind_0; [apply within_attempt_0, HP|intros _].
    apply within_ret.
Qed.

(** X13: when the setup of the load in [Control Load.py] raises, be it
    after the instrument was opened, the script prints the message of its
    [except] clause (nothing for a keyboard interrupt) and that is all:
    the handle of the load was never assigned, so the cleanup does
    nothing, the load is not turned off and the instrument is not
    closed. *)
Theorem X13_failed_load_script_setup_closes_nothing
        (E : env) (x : exn) (s1 : state) :
  ControlLoad.connect_and_configure_load E ControlLoad.INSTRUMENT_ADDRESS initial
  = (Raise x, s1) ->
  trace (snd (ControlLoad.main E initial))
  = trace s1 ++ (if is_Exception x then [Print (Failed x)] else [])
  /\ count is_load_shutdown (trace (snd (ControlLoad.main E initial))) = 0%nat
  /\ load_instrument (snd (ControlLoad.main E initial)) = None.
Proof.
  intros H.
  assert (Hrun : ControlLoad.run E initial = (Raise x, s1)).
  { unfold ControlLoad.run. apply bind_raise. exact H. }
  pose proof (connect_and_configure_load_never E is_load_shutdown
                ControlLoad.INSTRUMENT_ADDRESS eq_refl (fun _ => eq_refl) initial)
    as (evs & Hev & Hc).
  rewrite H in Hev. cbn [snd] in Hev. subst s1.
  assert (Hmain : snd (ControlLoad.main E initial)
                  = extend (extend initial evs)
                      (if is_Exception x then [Print (Failed x)] else [])).
  { unfold ControlLoad.main, try_finally, try_except. rewrite Hrun.
    unfold ControlLoad.handlers. destruct (is_Exception x).
    - unfold print, attempt. rewrite log_extend.
      destruct (fault E _); reflexivity.
    - rewrite extend_nil. reflexivity. }
  rewrite Hmain, !trace_extend. cbn [trace initial app load_instrument extend].
  repeat split. rewrite count_app.
  destruct (is_Exception x); cbn; unfold count in *; lia.
Qed.

Lemma X13_failed_load_script_setup_closes_nothing_witness :
  let E := failing is_clear VisaIOError "" in
  trace (snd (ControlLoad.main E initial))
  = [ Print (Connecting "instrument"); ResourceManager;
      OpenResource "GPIB0::8::INSTR"; Clear; Print (Failed VisaIOError) ].
Proof.
  intros E.
  exact (proj1 (X13_failed_load_script_setup_closes_nothing E VisaIOError _ eq_refl)).
Defined.

(** ** Runs of [Control Load.py] that have connected the load *)

Lemma load_check_readback_ends (readback : float) (i : Z) :
  ControlLoad.check_readback readback i <> OutOfFuel.
Proof.
  unfold ControlLoad.check_readback.
  pose proof (arith_ends Z.sub PrimFloat.sub (PyFloat readback) (PyInt i)) as H.
  unfold py_sub. destruct (arith _ _ _ _) as [d| |]; cbn [rbind];
    try discriminate; [|contradiction].
  destruct (py_gt _ _); discriminate.
Qed.

Lemma load_parse_float_ends (v : pyval) : ControlLoad.parse_float v <> OutOfFuel.
Proof.
  unfold ControlLoad.parse_float. pose proof (py_float_ends v).
  destruct (py_float v) as [f|[]|]; try discriminate. contradiction.
Qed.

Lemma int_of_float_ends (f : float) : int_of_float f <> OutOfFuel.
Proof. unfold int_of_float. destruct (Prim2SF f); discriminate. Qed.

Lemma finishes_ask (E : env) (q : string) : finishes (ControlLoad.ask E q).
Proof.
  unfold ControlLoad.ask.
  apply finishes_bind; [apply finishes_obtain|intros r; apply finishes_ret].
Qed.

Lemma ask_never (E : env) (P : event -> bool) (q : string) :
  P (Query (Lit q)) = false -> within P 0 (ControlLoad.ask E q).
Proof.
  intros H. unfold ControlLoad.ask.
  apply within_bind_0; [apply within_obtain_0, H|intros r; apply within_ret].
Qed.

Lemma finishes_load_step (E : env) (i : Z) : finishes (ControlLoad.step E i).
Proof.
  unfold ControlLoad.step.
  do 2 (apply finishes_bind; [apply finishes_attempt|intros _]).
  apply finishes_bind; [apply finishes_ask|intros st].
  apply finishes_bind; [apply finishes_attempt|intros _].
  apply finishes_bind.
  { destruct (negb _); [apply finishes_raise|apply finishes_ret]. }
  intros _.
  do 4 (apply finishes_bind; [apply finishes_attempt|intros _]).
  apply finishes_bind; [apply finishes_ask|intros rb_str].
  apply finishes_bind; [apply finishes_lift, py_float_ends|intros rb].
  apply finishes_bind; [apply finishes_attempt|intros _].
  apply finishes_bind; [apply finishes_lift, load_check_readback_ends|intros _].
  do 2 (apply finishes_bind; [apply finishes_attempt|intros _]).
  do 3 (apply finishes_bind; [apply finishes_ask|intros ?]).
  do 3 (apply finishes_bind; [apply finishes_lift, load_parse_float_ends|intros ?]).
  do 5 (apply finishes_bind; [apply finishes_attempt|intros _]).
  apply finishes_attempt.
Qed.

Lemma load_step_keeps_handles (E : env) (i : Z) :
  within (fun _ => false) 0 (ControlLoad.step E i).
Proof.
  unfold ControlLoad.step.
  do 2 (apply within_bind_0; [apply within_attempt_0; reflexivity|intros _]).
  apply within_bind_0; [apply ask_never; reflexivity|intros st].
  apply within_bind_0; [apply within_attempt_0; reflexivity|intros _].
  apply within_bind_0.
  { destruct (negb _); [apply within_raise|apply within_ret]. }
  intros _.
  do 4 (apply within_bind_0; [apply within_attempt_0; reflexivity|intros _]).
  apply within_bind_0; [apply ask_never; reflexivity|intros rb_str].
  apply within_bind_0; [apply within_lift|intros rb].
  apply within_bind_0; [apply within_attempt_0; reflexivity|intros _].
  apply within_bind_0; [apply within_lift|intros _].
  do 2 (apply within_bind_0; [apply within_attempt_0; reflexivity|intros _]).
  do 3 (apply within_bind_0; [apply ask_never; reflexivity|intros ?]).
  do 3 (apply within_bind_0; [apply within_lift|intros ?]).
  do 5 (apply within_bind_0; [apply within_attempt_0; reflexivity|intros _]).
  apply within_attempt_0; reflexivity.
Qed.

(** X14: once the setup of the load in [Control Load.py] has returned its
    handle, every run ends with the cleanup, whatever the world does and
    however the steps end (a keyboard interrupt included): after whatever
    the [try] block and its [except] clause attempted, the cleanup (its
    message, load off, current to 0, reset, the wait, the instrument
    closed, the last message) is attempted step by step until a step
    raises: the steps attempted are the first [k] of the seven, none of
    the steps before the [k]-th raised, and when [k] is less than seven
    the [k]-th step raised. *)
Theorem X14_connected_load_is_always_cleaned_up (E : env) (s1 : state) :
  ControlLoad.connect_and_configure_load E ControlLoad.INSTRUMENT_ADDRESS initial
  = (Ok Inst, s1) ->
  exists rest k,
    trace (snd (ControlLoad.main E initial))
    = trace s1 ++ rest ++ firstn k (cleanup_plan (Some Inst))
    /\ (1 <= k <= 7)%nat
    /\ (forall j, (1 <= j < k)%nat ->
          fault E (trace s1 ++ rest ++ firstn j (cleanup_plan (Some Inst)))
          = None)
    /\ ((k < 7)%nat ->
        exists y,
          fault E (trace s1 ++ rest ++ firstn k (cleanup_plan (Some Inst)))
          = Some y).
Proof.
  intros H1.
  set (s1' := snd (set_load_instrument (Some Inst) s1)).
  assert (Hrest : exists r evs,
            ControlLoad.run E initial = (r, extend s1' evs) /\ r <> OutOfFuel).
  { unfold ControlLoad.run. rewrite (bind_ok _ _ _ _ _ H1).
    rewrite (bind_ok _ _ _ _ _ (set_load_instrument_ok _ _)).
    match goal with
    | |- context [?m ?s0 = _] =>
        assert (W : within (fun _ => false) 0 m);
        [|assert (F : finishes m)]
    end.
    - do 2 (apply within_bind_0; [apply within_attempt_0; reflexivity|intros _]).
      do 2 (apply within_bind_0; [apply within_lift|intros ?]).
      apply within_bind_0;
        [apply within_for_each_0; intros i; apply load_step_keeps_handles|intros _].
      apply within_bind_0; [apply within_attempt_0; reflexivity|intros _].
      apply within_attempt_0; reflexivity.
    - do 2 (apply finishes_bind; [apply finishes_attempt|intros _]).
      apply finishes_bind; [apply finishes_lift, int_of_float_ends|intros n].
      apply finishes_bind; [apply finishes_lift, range_ends|intros steps].
      apply finishes_bind;
        [apply finishes_for_each; intros i; apply finishes_load_step|intros _].
      apply finishes_bind; [apply finishes_attempt|intros _].
      apply finishes_attempt.
    - match goal with
      | |- context [?m ?s0 = _] =>
          destruct (W s0) as (evs & Hev & _); specialize (F s0);
          destruct (m s0) as [r s2]
      end.
      cbn [fst snd] in *. subst s2. exists r, evs. split; [reflexivity|exact F]. }
  destruct Hrest as (r & evs & Hrun & Hr).
  assert (Hguard : snd (try_except (ControlLoad.run E) (ControlLoad.handlers E) initial)
                   = extend s1' (evs ++ load_reported r)
                   /\ fst (try_except (ControlLoad.run E) (ControlLoad.handlers E)
                             initial) <> OutOfFuel).
  { unfold try_except. rewrite Hrun. destruct r as [[]|x|]; [| |contradiction].
    - cbn [load_reported]. rewrite app_nil_r. split; [reflexivity|discriminate].
    - unfold ControlLoad.handlers. cbn [load_reported].
      destruct (is_Exception x).
      + unfold print, attempt. rewrite log_extend, extend_extend.
        destruct (fault E _); split; try reflexivity; discriminate.
      + rewrite app_nil_r. split; [reflexivity|discriminate]. }
  destruct Hguard as [Hs Hf].
  destruct (attempts_trace E (cleanup_plan (Some Inst))
              (extend s1' (evs ++ load_reported r)))
    as (k & Hk & Hb & Hbefore & Hat).
  assert (Hmain : snd (ControlLoad.main E initial)
                  = extend (extend s1' (evs ++ load_reported r))
                      (firstn k (cleanup_plan (Some Inst)))).
  { unfold ControlLoad.main. rewrite try_finally_snd by exact Hf.
    rewrite Hs, cleanup_as_plan. exact Hk. }
  exists (evs ++ load_reported r), k. rewrite Hmain, !trace_extend.
  assert (Htr : trace s1' = trace s1) by reflexivity.
  rewrite trace_extend, Htr in Hbefore, Hat.
  change (List.length (cleanup_plan (Some Inst))) with 7%nat in *.
  split; [rewrite Htr, <- app_assoc; reflexivity|].
  split; [cbn in Hb; lia|]. split.
  - intros j Hj. specialize (Hbefore j Hj).
    rewrite <- app_assoc in Hbefore. exact Hbefore.
  - intros Hlt. destruct (Hat Hlt) as (y & Hy). exists y.
    rewrite <- app_assoc in Hy. exact Hy.
Qed.

Lemma X14_connected_load_is_always_cleaned_up_witness :
  let E := answering "0" in
  exists rest k,
    trace (snd (ControlLoad.main E initial))
    = (load_configure_ops "GPIB0::8::INSTR"
       ++ [Query (Lit "*IDN?"); Print (Ready "0")])
      ++ rest ++ firstn k (cleanup_plan (Some Inst))
    /\ k = 7%nat.
Proof.
  intros E.
  destruct (X14_connected_load_is_always_cleaned_up E _ eq_refl) as (rest & k & Htr & Hb & _ & Hat).
  exists rest, k. split; [exact Htr|].
  destruct (Nat.eq_dec k 7) as [Hk|Hk]; [exact Hk|].
  destruct Hat as (y & Hy); [lia|discriminate Hy].
Defined.

(** ** What escapes the scripts *)

Lemma attempts_quiet (E : env) (plan : list event) :
  never_fail E plan ->
  forall s, for_each plan (attempt E) s = (Ok tt, extend s plan).
Proof.
  induction plan as [|e plan IH]; intros HN s.
  - cbn [for_each]. unfold ret. rewrite extend_nil. reflexivity.
  - cbn [for_each].
    rewrite (bind_ok _ _ _ _ _ (attempt_ok E e s (HN _ e (or_introl eq_refl)))).
    rewrite IH, extend_extend; [reflexivity|].
    intros h e' Hin. apply HN. right. exact Hin.
Qed.

Lemma never_fail_incl (E : env) (plan plan' : list event) :
  never_fail E plan -> incl plan' plan -> never_fail E plan'.
Proof. intros HN Hi h e Hin. apply HN, Hi, Hin. Qed.

Lemma shutdown_plan_incl (sim : option socket) (load : option resource) :
  incl (shutdown_plan sim load) (shutdown_plan (Some Sock) (Some Inst)).
Proof.
  intros e. destruct sim, load; cbn; intuition.
Qed.

Lemma cleanup_plan_incl (load : option resource) :
  incl (cleanup_plan load) (cleanup_plan (Some Inst)).
Proof. intros e. destruct load; cbn; intuition. Qed.

Lemma try_finally_result {A : Type} (m : M A) (cleanup : M unit)
      (s s1 s2 : state) (r : result A) :
  m s = (r, s1) -> r <> OutOfFuel -> cleanup s1 = (Ok tt, s2) ->
  try_finally m cleanup s = (r, s2).
Proof.
  intros Hm Hr Hc. unfold try_finally. rewrite Hm.
  destruct r; [| |contradiction]; rewrite Hc; reflexivity.
Qed.

Lemma nhr_handlers_report (E : env) (x : exn) :
  NHR.handlers E x
  = if is_Exception x then Some (print E (nhr_report x)) else None.
Proof. destruct x; reflexivity. Qed.

(** X15: which exceptions escape the three scripts, in a world where no
    [print] raises and (for the two scripts that have one) no step of the
    cleanup raises.  [Control_Both.py] lets nothing escape: whatever its
    [try] block raises, a keyboard interrupt included, is reported and the
    script ends normally after the shutdown.  [Control Load.py] and
    [NHR_control_test.py] report every [Exception] (the latter a timeout
    and a refused connection with a message of their own) and end
    normally, but have no clause for a keyboard interrupt: it escapes the
    script, after the cleanup of the former and after the socket of the
    latter is closed, and nothing is reported. *)
Theorem X15_what_escapes_the_scripts
        (E : env) (C : ControlBoth.config) (fuel : nat) :
  console_works E ->
  (never_fail E (shutdown_plan (Some Sock) (Some Inst)) ->
   forall x, fst (ControlBoth.main E C fuel initial) <> Raise x)
  /\ (never_fail E (cleanup_plan (Some Inst)) ->
      forall x,
        fst (ControlLoad.main E initial) = Raise x <->
        x = KeyboardInterrupt /\ fst (ControlLoad.run E initial) = Raise x)
  /\ (forall x,
        fst (NHR.main E initial) = Raise x <->
        x = KeyboardInterrupt /\ fst (NHR.run E initial) = Raise x)
  /\ (forall x s',
        NHR.run E initial = (Raise x, s') -> is_Exception x = true ->
        NHR.main E initial = (Ok tt, extend s' [Print (nhr_report x)])).
Proof.
  intros HP. split; [|split; [|split]].
  - intros HN x.
    assert (Hdown : forall s, ControlBoth.shutdown E s
                              = (Ok tt, extend s (shutdown_plan (simulator_socket s)
                                                                (load_instrument s)))).
    { intros s. rewrite shutdown_as_plan. apply attempts_quiet.
      apply (never_fail_incl E _ _ HN), shutdown_plan_incl. }
    destruct (ControlBoth.run E C fuel initial) as [r s'] eqn:Hrun.
    unfold ControlBoth.main. destruct r as [[]|y|].
    + erewrite (try_finally_result _ _ initial s' _ (Ok tt));
        [discriminate | | discriminate | apply Hdown].
      unfold try_except. rewrite Hrun. reflexivity.
    + erewrite (try_finally_result _ _ initial (extend s' [Print (report y)]) _ (Ok tt));
        [discriminate | | discriminate | apply Hdown].
      erewrite try_except_raise; [|exact Hrun|apply handlers_report].
      apply print_ok, HP.
    + unfold try_finally, try_except. rewrite Hrun. discriminate.
  - intros HN x.
    destruct (ControlLoad.run E initial) as [r s'] eqn:Hrun.
    assert (Hclean : forall s, ControlLoad.cleanup E s
                               = (Ok tt, extend s (cleanup_plan (load_instrument s)))).
    { intros s. rewrite cleanup_as_plan. apply attempts_quiet.
      apply (never_fail_incl E _ _ HN), cleanup_plan_incl. }
    unfold ControlLoad.main. cbn [fst].
    destruct r as [[]|y|].
    + erewrite (try_finally_result _ _ initial s' _ (Ok tt));
        [ | unfold try_except; rewrite Hrun; reflexivity | discriminate | apply Hclean].
      cbn [fst]. split; [discriminate|]. intros [_ H]. discriminate.
    + destruct (is_Exception y) eqn:Hy.
      * erewrite (try_finally_result _ _ initial (extend s' [Print (Failed y)]) _ (Ok tt));
          [ | | discriminate | apply Hclean].
        2:{ erewrite try_except_raise; [|exact Hrun|].
            - apply print_ok, HP.
            - unfold ControlLoad.handlers. rewrite Hy. reflexivity. }
        cbn [fst]. split; [discriminate|]. intros [-> H]. injection H as ->.
        discriminate Hy.
      * erewrite (try_finally_result _ _ initial s' _ (Raise y));
          [ | | discriminate | apply Hclean].
        2:{ unfold try_except. rewrite Hrun. unfold ControlLoad.handlers.
            rewrite Hy. reflexivity. }
        cbn [fst]. destruct y; try discriminate.
        split; [intros H; injection H as <-; split; reflexivity|].
        intros [-> _]. reflexivity.
    + unfold try_finally, try_except. rewrite Hrun. cbn [fst].
      split; [discriminate|]. intros [_ H]. discriminate.
  - intros x. unfold NHR.main, try_except.
    destruct (NHR.run E initial) as [r s'] eqn:Hrun. cbn [fst].
    destruct r as [[]|y|].
    + split; [discriminate|]. intros [_ H]. discriminate.
    + rewrite nhr_handlers_report. destruct (is_Exception y) eqn:Hy.
      * rewrite (print_ok _ _ _ (HP _ _)). cbn [fst].
        split; [discriminate|]. intros [-> H]. injection H as ->.
        discriminate Hy.
      * cbn [fst]. destruct y; try discriminate.
        split; [intros H; injection H as <-; split; reflexivity|].
        intros [-> _]. reflexivity.
    + split; [discriminate|]. intros [_ H]. discriminate.
  - intros x s' Hrun Hx. unfold NHR.main.
    erewrite try_except_raise; [|exact Hrun|].
    + apply print_ok, HP.
    + rewrite nhr_handlers_report, Hx. reflexivity.
Qed.

Lemma X15_what_escapes_the_scripts_witness :
  let E := interrupted_at is_wait_of_two in
  fst (ControlBoth.main E ControlBoth.shipped 6 initial) <> Raise KeyboardInterrupt
  /\ fst (ControlLoad.main E initial) = Raise KeyboardInterrupt
  /\ fst (NHR.main E initial) = Raise KeyboardInterrupt.
Proof.
  intros E.
  assert (HP : console_works E).
  { intros h o. cbn [E interrupted_at failing fault]. rewrite rev_unit. reflexivity. }
  pose proof (X15_what_escapes_the_scripts E ControlBoth.shipped 6 HP)
    as (H1 & H2 & H3 & _).
  split; [|split].
  - apply H1. intros h e Hin. cbn [E interrupted_at failing fault].
    rewrite rev_unit. cbn in Hin.
    repeat (destruct Hin as [<-|Hin]; [try reflexivity|]); try destruct Hin.
  - apply (proj2 (H2 ltac:(intros h e Hin; cbn [E interrupted_at failing fault];
                           rewrite rev_unit; cbn in Hin;
                           repeat (destruct Hin as [<-|Hin]; [try reflexivity|]);
                           try destruct Hin)
                    KeyboardInterrupt)).
    split; reflexivity.
  - apply (proj2 (H3 KeyboardInterrupt)). split; reflexivity.
Defined.

(** ** The course of [NHR_control_test.py] *)

Lemma sends_app (a b : list event) : sends (a ++ b) = sends a ++ sends b.
Proof. apply flat_map_app. Qed.

Lemma nhr_step_completes (E : env) (v : Z) (s : state) :
  faultless E -> voltages_read E ->
  exists evs,
    NHR.step E Sock v s = (Ok tt, extend s evs)
    /\ sends evs = nhr_step_sends v.
Proof.
  intros HF HR. unfold NHR.step, NHR.send_command. steps HF.
  rewrite (bind_ok _ _ _ _ _ (send_query_ok E Sock _ _ (HF _) (HF _))).
  rewrite extend_extend. cbn [app].
  match goal with
  | |- context [received E (?h ++ ?l)] =>
      destruct (HR (h ++ removelast l)) as (f & Hf);
      rewrite <- app_assoc in Hf; cbn [removelast app] in Hf
  end.
  flatten_history. rewrite Hf, bind_lift_ok.
  rewrite (print_ok _ _ _ (HF _)), extend_extend. cbn [app].
  eexists. split; reflexivity.
Qed.

Lemma nhr_steps_complete (E : env) (l : list Z) :
  faultless E -> voltages_read E ->
  forall s,
    exists evs,
      for_each l (NHR.step E Sock) s = (Ok tt, extend s evs)
      /\ sends evs = flat_map nhr_step_sends l.
Proof.
  intros HF HR. induction l as [|v l IH]; intros s.
  - exists []. cbn [for_each]. unfold ret. rewrite extend_nil. split; reflexivity.
  - cbn [for_each].
    destruct (nhr_step_completes E v s HF HR) as (e1 & H1 & Hs1).
    rewrite (bind_ok _ _ _ _ _ H1).
    destruct (IH (extend s e1)) as (e2 & H2 & Hs2).
    exists (e1 ++ e2). rewrite H2, extend_extend, sends_app, Hs1, Hs2.
    split; reflexivity.
Qed.

(** X16: the course of [NHR_control_test.py] when no operation raises and
    every voltage read back is a number.  The script selects the
    instrument, turns the output on, steps through the voltages 30, 40,
    ..., 150 (thirteen of them), sending for each the voltage and then the
    query of the measured voltage, and then ramps down: voltage 0, output
    off, and the socket is closed last. *)
Theorem X16_simulator_script_course (E : env) :
  faultless E -> voltages_read E ->
  range 30 151 10 = Ok nhr_voltages
  /\ fst (NHR.main E initial) = Ok tt
  /\ sends (trace (snd (NHR.main E initial)))
     = [Fmt "INSTrument:NSELect " (PyInt 3); Lit "OUTPut ON"]
       ++ flat_map nhr_step_sends nhr_voltages
       ++ [Lit "VOLTage 0"; Lit "OUTPut OFF"]
  /\ exists pre,
       trace (snd (NHR.main E initial)) = pre ++ nhr_ramp_down.
Proof.
  intros HF HR. split; [reflexivity|].
  assert (Hmain : exists evs,
            sends evs = flat_map nhr_step_sends nhr_voltages
            /\ NHR.main E initial
               = (Ok tt,
                  extend initial
                    ([ Connect NHR.HOST NHR.PORT; Print (Say "Connected");
                       Print (Say "WARNING: This script will control a live power output.");
                       Print (Say "    Press Ctrl+C now to abort if you are not ready.");
                       Sleep (PyInt 5); Print (Say "Selecting AC GRID...");
                       Send (Fmt "INSTrument:NSELect " (PyInt 3));
                       Print (Say "Turning output ON..."); Send (Lit "OUTPut ON");
                       Sleep (PyInt 2); Print (Say "--- Starting Voltage Sweep ---") ]
                     ++ evs ++ [Print (Say "--- Voltage Sweep Complete ---")]
                     ++ nhr_ramp_down))).
  { unfold NHR.main, try_except, NHR.run. step HF.
    match goal with
    | |- context [try_finally ?m ?c ?s0] =>
        assert (Hsession : exists evs,
                  sends evs = flat_map nhr_step_sends nhr_voltages
                  /\ m s0
                     = (Ok tt,
                        extend s0
                          ([ Print (Say "Connected");
                             Print (Say "WARNING: This script will control a live power output.");
                             Print (Say "    Press Ctrl+C now to abort if you are not ready.");
                             Sleep (PyInt 5); Print (Say "Selecting AC GRID...");
                             Send (Fmt "INSTrument:NSELect " (PyInt 3));
                             Print (Say "Turning output ON..."); Send (Lit "OUTPut ON");
                             Sleep (PyInt 2);
                             Print (Say "--- Starting Voltage Sweep ---") ]
                           ++ evs ++ [Print (Say "--- Voltage Sweep Complete ---")]
                           ++ removelast nhr_ramp_down)))
    end.
    { unfold NHR.session, NHR.send_command. cbv zeta. steps HF.
      change (lift (range 30 151 10)) with (@lift (list Z) (Ok nhr_voltages)).
      rewrite bind_lift_ok.
      match goal with
      | |- context [bind (for_each ?l ?f) ?k ?s0] =>
          destruct (nhr_steps_complete E l HF HR s0) as (evs & Hsteps & Hsends)
      end.
      exists evs. split; [exact Hsends|].
      rewrite (bind_ok _ _ _ _ _ Hsteps), extend_extend. steps HF.
      rewrite (print_ok _ _ _ (HF _)), !extend_extend.
      cbn [removelast nhr_ramp_down].
      repeat (rewrite <- app_assoc; cbn [app]). reflexivity. }
    destruct Hsession as (evs & Hsends & Hsession). exists evs.
    split; [exact Hsends|].
    erewrite try_finally_ok; [|exact Hsession|apply attempt_ok, HF].
    rewrite !extend_extend. cbn [removelast nhr_ramp_down].
    repeat (rewrite <- app_assoc; cbn [app]). reflexivity. }
  destruct Hmain as (evs & Hsends & Hmain). rewrite Hmain. cbn [fst snd].
  split; [reflexivity|]. split.
  - rewrite trace_extend. unfold sends in *. cbn [trace initial app flat_map].
    rewrite flat_map_app, Hsends. reflexivity.
  - eexists. rewrite trace_extend. cbn [trace initial].
    rewrite !app_assoc. reflexivity.
Qed.

Lemma X16_simulator_script_course_witness :
  let E := answering "119.98" in
  fst (NHR.main E initial) = Ok tt
  /\ exists pre, trace (snd (NHR.main E initial)) = pre ++ nhr_ramp_down.
Proof.
  intros E.
  pose proof (X16_simulator_script_course E (fun _ => eq_refl)
                (fun _ => ex_intro _ _ eq_refl)) as H.
  split; [exact (proj1 (proj2 H)) | exact (proj2 (proj2 (proj2 H)))].
Defined.

(** ** Errors in [NHR_control_test.py] *)

Lemma nhr_steps_never_turn_off (E : env) (l : list Z) :
  within is_output_off 0 (for_each l (NHR.step E Sock)).
Proof.
  apply within_for_each_0. intros v. unfold NHR.step, NHR.send_command.
  do 3 (apply within_bind_0; [apply within_attempt_0; reflexivity|intros _]).
  apply within_bind_0.
  { apply send_query_socket_never; reflexivity. }
  intros r. apply within_bind_0; [apply within_lift|intros f].
  apply within_attempt_0; reflexivity.
Qed.

(** Where the block of the script can raise: before the command that
    turns the output off is sent, or at that command, or at the message
    after it. *)
Lemma session_raises_where (E : env) (x : exn) (s' : state) :
  NHR.session E Sock connection_attempted = (Raise x, s') ->
  exists evs,
    s' = extend connection_attempted evs
    /\ (count is_output_off evs = 0%nat
        \/ (fault E (trace s') = Some x
            /\ exists before,
                 count is_output_off before = 0%nat
                 /\ (evs = before ++ [Send (Lit "OUTPut OFF")]
                     \/ evs = before ++ [Send (Lit "OUTPut OFF");
                                         Print (Say "Output is now OFF.")]))).
Proof.
  unfold NHR.session, NHR.send_command. cbv zeta.
  do 10 (walk; [intros H; injection H as _ <-; eexists;
                split; [reflexivity|left; reflexivity]|]).
  change (lift (range 30 151 10)) with (@lift (list Z) (Ok nhr_voltages)).
  rewrite bind_lift_ok.
  match goal with
  | |- context [bind (for_each ?l ?f) ?k ?s0] =>
      destruct (nhr_steps_never_turn_off E l s0) as (evs & Hev & Hc);
      unfold bind at 1; destruct (for_each l f s0) as [[[]|y|] s1]
  end; cbn [snd] in Hev; subst s1; rewrite ?extend_extend.
  2:{ intros H. injection H as _ <-. eexists. split; [reflexivity|left].
      unfold count in *. cbn [filter is_output_off]. lia. }
  2:{ discriminate. }
  do 4 (walk;
        [intros H; injection H as _ <-; eexists; split; [reflexivity|left];
         unfold count in *; cbn [filter is_output_off];
         rewrite !filter_app, !length_app; cbn [filter is_output_off List.length];
         lia|]).
  walk.
  { intros H. injection H as <- <-. eexists. split; [reflexivity|right].
    split.
    - match goal with
      | Hx : fault E _ = Some _ |- _ =>
          rewrite <- trace_extend, extend_extend in Hx; cbn [app] in Hx;
          exact Hx
      end.
    - match goal with
      | |- exists before, _ /\ (?whole = _ \/ _) =>
          match whole with
          | context C [?L ++ [Send (Lit "OUTPut OFF")]] =>
              let b := context C [L] in exists b
          end
      end.
      split; [|left; reflexivity].
      unfold count in *. cbn [filter is_output_off].
      rewrite !filter_app, !length_app. cbn [filter is_output_off List.length].
      lia. }
  unfold print, attempt. rewrite log_extend, extend_extend. cbn [app].
  match goal with
  | |- context [match fault E ?h with _ => _ end] =>
      destruct (fault E h) as [y|] eqn:Hlast
  end; [|discriminate].
  intros H. injection H as <- <-. eexists. split; [reflexivity|right].
  split; [exact Hlast|].
  match goal with
  | |- exists before, _ /\ (?whole = _ \/ _) =>
      match whole with
      | context C [(?L ++ [Send (Lit "OUTPut OFF")]) ++ ?p] =>
          let b := context C [L] in exists b
      end
  end.
  split; [|right; repeat (rewrite <- app_assoc; cbn [app]); reflexivity].
  unfold count in *. cbn [filter is_output_off].
  rewrite !filter_app, !length_app. cbn [filter is_output_off List.length].
  lia.
Qed.

(** X17: errors in [NHR_control_test.py], which has no [finally] block.
    When the connection fails, nothing else is attempted and nothing is
    closed.  When the connection is made and the block of the script
    raises (an operation raises, or a voltage read back is no number),
    the socket is closed, and in every world the command that turns the
    output off has not been sent, unless what raised is that command
    itself or the message after it, the last two operations of the block:
    an error anywhere before them leaves the output the script had turned
    on on.  So in a world in which these two operations do not raise, a
    block that raises never sends the command. *)
Theorem X17_failed_simulator_script_leaves_the_output_on (E : env) :
  (forall x, fault E [Connect NHR.HOST NHR.PORT] = Some x ->
             NHR.run E initial = (Raise x, connection_attempted))
  /\ (fault E [Connect NHR.HOST NHR.PORT] = None ->
      forall x s',
        NHR.session E Sock connection_attempted = (Raise x, s') ->
        (exists y, NHR.run E initial = (Raise y, extend s' [SockClose]))
        /\ (exists rest,
              trace (snd (NHR.main E initial)) = trace s' ++ SockClose :: rest)
        /\ (count is_output_off (trace (snd (NHR.main E initial))) = 0%nat
            \/ (fault E (trace s') = Some x
                /\ exists before,
                     count is_output_off before = 0%nat
                     /\ (trace s' = before ++ [Send (Lit "OUTPut OFF")]
                         \/ trace s'
                            = before ++ [Send (Lit "OUTPut OFF");
                                         Print (Say "Output is now OFF.")])))
        /\ ((forall h, fault E (h ++ [Send (Lit "OUTPut OFF")]) = None) ->
            (forall h, fault E (h ++ [Print (Say "Output is now OFF.")]) = None) ->
            count is_output_off (trace (snd (NHR.main E initial))) = 0%nat)).
Proof.
  split.
  - intros x Hx. unfold NHR.run. apply bind_raise. apply attempt_raise. exact Hx.
  - intros Hc x s' Hs.
    destruct (session_raises_where E x s' Hs) as (evs & Hs' & Hwhere).
    assert (Hrun : exists y, NHR.run E initial
                             = (Raise y, extend s' [SockClose])).
    { unfold NHR.run. rewrite (bind_ok _ _ _ _ _ (attempt_ok E _ initial Hc)).
      fold connection_attempted. unfold try_finally. rewrite Hs.
      unfold attempt. rewrite log_extend.
      destruct (fault E (trace (extend s' [SockClose])));
        eexists; reflexivity. }
    split; [exact Hrun|]. destruct Hrun as (y & Hrun).
    assert (Hmain : exists rest,
              snd (NHR.main E initial) = extend s' (SockClose :: rest)
              /\ count is_output_off rest = 0%nat).
    { unfold NHR.main, try_except. rewrite Hrun, nhr_handlers_report.
      destruct (is_Exception y).
      - exists [Print (nhr_report y)]. unfold print, attempt.
        rewrite log_extend, extend_extend.
        match goal with
        | |- context [match fault E ?h with _ => _ end] => destruct (fault E h)
        end; split; reflexivity.
      - exists []. split; reflexivity. }
    destruct Hmain as (rest & Hmain & Hr). rewrite Hmain.
    split; [exists rest; reflexivity|].
    assert (Hzero : count is_output_off evs = 0%nat ->
                    count is_output_off (trace (extend s' (SockClose :: rest)))
                    = 0%nat).
    { intros Hz. rewrite Hs', !trace_extend.
      change (SockClose :: rest) with ([SockClose] ++ rest).
      rewrite !count_app, Hz, Hr. reflexivity. }
    assert (Hcases :
              count is_output_off (trace (extend s' (SockClose :: rest))) = 0%nat
              \/ (fault E (trace s') = Some x
                  /\ exists before,
                       count is_output_off before = 0%nat
                       /\ (trace s' = before ++ [Send (Lit "OUTPut OFF")]
                           \/ trace s'
                              = before ++ [Send (Lit "OUTPut OFF");
                                           Print (Say "Output is now OFF.")]))).
    { destruct Hwhere as [Hz|(Hx & before & Hb & Hshape)];
        [left; exact (Hzero Hz)|right].
      split; [exact Hx|].
      exists (trace connection_attempted ++ before). split.
      - rewrite count_app, Hb. reflexivity.
      - rewrite Hs', trace_extend.
        destruct Hshape as [->| ->]; [left|right]; apply app_assoc. }
    split; [exact Hcases|].
    intros HOFF HLAST.
    destruct Hcases as [Hz|(Hx & before & _ & [Hshape|Hshape])]; [exact Hz| |];
      exfalso; rewrite Hshape in Hx.
    + rewrite HOFF in Hx. discriminate.
    + change [Send (Lit "OUTPut OFF"); Print (Say "Output is now OFF.")]
        with ([Send (Lit "OUTPut OFF")] ++ [Print (Say "Output is now OFF.")])
        in Hx.
      rewrite app_assoc, HLAST in Hx. discriminate.
Qed.

Lemma X17_failed_simulator_script_leaves_the_output_on_witness :
  let E := answering "ERR" in
  existsb is_output_on (trace (snd (NHR.main E initial))) = true
  /\ count is_output_off (trace (snd (NHR.main E initial))) = 0%nat.
Proof.
  intros E. split; [reflexivity|].
  exact (proj2 (proj2 (proj2 (proj2 (X17_failed_simulator_script_leaves_the_output_on E)
                         eq_refl ValueError _ eq_refl)))
           (fun _ => eq_refl) (fun _ => eq_refl)).
Defined.
